(** * A shallow embedding of the skill-gap pipeline's agents

    The development follows the Python sources
    [src/agents/analyzer.py], [src/agents/curator.py], [src/agents/judge.py],
    [src/agents/orchestrator.py], [src/integrations/redis_cache.py],
    [src/integrations/parallel_api.py] and [src/api/models.py].

    Conventions of the embedding:
    - a Python [str] is a [string] read as a sequence of code points below 256;
    - a Python [float] is a binary64 [PrimFloat.float], an [int] is a [Z];
    - a value produced by [json.loads] is a [json] tree;
    - a call that may raise returns a [result]; [try]/[except] is a match on it;
    - the agent runtime, the search SDK, Redis, [json.loads] and pydantic's
      validators are outside the repository: their outcomes are inputs of the
      model (scripts, or variables of a section). *)

From Stdlib Require Import ZArith List String Ascii Bool Lia Floats.
From stdpp Require Import gmap strings pretty.
Import ListNotations.

Set Warnings "-inexact-float,-register-all,-clear-no-such-hyp".
Open Scope string_scope.
Open Scope list_scope.
Open Scope Z_scope.

(* ================================================================== *)
(** ** Python strings *)
(* ================================================================== *)

Module PyStr.

(** [str.isspace] on one code point below 256: TAB..CR, FS..US, SPACE,
    NEL (0x85) and NBSP (0xA0). *)
Definition is_space (c : ascii) : bool :=
  let n := nat_of_ascii c in
  ((9 <=? n) && (n <=? 13) || (28 <=? n) && (n <=? 32) || (n =? 133) || (n =? 160))%nat.

Fixpoint lstrip (s : string) : string :=
  match s with
  | EmptyString => EmptyString
  | String c s' => if is_space c then lstrip s' else s
  end.

Definition is_empty (s : string) : bool :=
  match s with EmptyString => true | String _ _ => false end.

Fixpoint rstrip (s : string) : string :=
  match s with
  | EmptyString => EmptyString
  | String c s' =>
      let r := rstrip s' in
      if is_space c && is_empty r then EmptyString else String c r
  end.

(** [s.strip()] *)
Definition strip (s : string) : string := rstrip (lstrip s).

(** [s[n:]] for [n >= 0] *)
Fixpoint skipn (n : nat) (s : string) : string :=
  match n, s with
  | O, _ => s
  | S _, EmptyString => EmptyString
  | S n', String _ s' => skipn n' s'
  end.

(** [s[:n]] for [n >= 0] *)
Fixpoint firstn (n : nat) (s : string) : string :=
  match n, s with
  | O, _ => EmptyString
  | S _, EmptyString => EmptyString
  | S n', String c s' => String c (firstn n' s')
  end.

(** [s[start:stop]] for [0 <= start]; an empty slice when [stop <= start]. *)
Definition slice (s : string) (start stop : Z) : string :=
  firstn (Z.to_nat (stop - start)) (skipn (Z.to_nat start) s).

(** [s.startswith(p)] *)
Definition startswith (p s : string) : bool := String.prefix p s.

(** [s.endswith(p)] *)
Definition endswith (p s : string) : bool :=
  let n := String.length s in
  let m := String.length p in
  (m <=? n)%nat && String.eqb (skipn (n - m) s) p.

(** [s[:-k]] for [k > 0] *)
Definition drop_last (k : nat) (s : string) : string :=
  firstn (String.length s - k) s.

(** [c in s] for a one-character string [c] *)
Fixpoint has_char (c : ascii) (s : string) : bool :=
  match s with
  | EmptyString => false
  | String a s' => Ascii.eqb a c || has_char c s'
  end.

(** [sub in s] *)
Fixpoint contains (sub s : string) : bool :=
  String.prefix sub s ||
  match s with
  | EmptyString => false
  | String _ s' => contains sub s'
  end.

Fixpoint find_from (c : ascii) (s : string) (i : Z) : Z :=
  match s with
  | EmptyString => -1
  | String a s' => if Ascii.eqb a c then i else find_from c s' (i + 1)
  end.

(** [s.find(c)]: the first index of [c], or [-1] *)
Definition find (c : ascii) (s : string) : Z := find_from c s 0.

Fixpoint rfind_from (c : ascii) (s : string) (i last : Z) : Z :=
  match s with
  | EmptyString => last
  | String a s' => rfind_from c s' (i + 1) (if Ascii.eqb a c then i else last)
  end.

(** [s.rfind(c)]: the last index of [c], or [-1] *)
Definition rfind (c : ascii) (s : string) : Z := rfind_from c s 0 (-1).

(** [str.lower] on one code point below 256: A..Z and the Latin-1 capitals
    (0xC0..0xDE except the multiplication sign 0xD7) move up by 32. *)
Definition lower_char (c : ascii) : ascii :=
  let n := nat_of_ascii c in
  if ((65 <=? n) && (n <=? 90) ||
      (192 <=? n) && (n <=? 222) && negb (n =? 215))%nat
  then ascii_of_nat (n + 32) else c.

Fixpoint lower (s : string) : string :=
  match s with
  | EmptyString => EmptyString
  | String c s' => String (lower_char c) (lower s')
  end.

End PyStr.

(* ================================================================== *)
(** ** Exceptions and results *)
(* ================================================================== *)

(** The exception classes the sources tell apart.  [JSONDecodeError] and
    pydantic's [ValidationError] are subclasses of [ValueError]. *)
Inductive exn : Type :=
| ValueError (msg : string)
| JSONDecodeError
| ValidationError
| TypeError
| AttributeError
| OverflowError
| IndexError
| KeyError
| RecursionError
| ExternalError (msg : string).

(** [isinstance(e, ValueError)] *)
Definition is_ValueError (e : exn) : bool :=
  match e with
  | ValueError _ | JSONDecodeError | ValidationError => true
  | _ => false
  end.

(** [isinstance(e, (ValueError, TypeError))] *)
Definition is_ValueError_or_TypeError (e : exn) : bool :=
  match e with
  | TypeError => true
  | _ => is_ValueError e
  end.

Inductive result (A : Type) : Type :=
| Ok (a : A)
| Raise (e : exn).
Arguments Ok {A} a.
Arguments Raise {A} e.

Definition bind {A B : Type} (r : result A) (k : A -> result B) : result B :=
  match r with
  | Ok a => k a
  | Raise e => Raise e
  end.

Notation "'let*' x ':=' r 'in' k" := (bind r (fun x => k))
  (at level 10, x name, r at level 100, k at level 200).

Definition is_Ok {A : Type} (r : result A) : bool :=
  match r with Ok _ => true | Raise _ => false end.

(* ================================================================== *)
(** ** JSON values *)
(* ================================================================== *)

(** What [json.loads] returns.  A [JDict] lists the object's items; a key
    is looked up at its first binding. *)
Inductive json : Type :=
| JNull
| JBool (b : bool)
| JInt (z : Z)
| JFloat (f : float)
| JStr (s : string)
| JList (l : list json)
| JDict (d : list (string * json)).

Fixpoint lookup_key (k : string) (d : list (string * json)) : option json :=
  match d with
  | [] => None
  | (k', v) :: d' => if String.eqb k' k then Some v else lookup_key k d'
  end.

(** [item.get(k, default)] on a dict *)
Definition dict_get (d : list (string * json)) (k : string) (default : json) : json :=
  match lookup_key k d with
  | Some v => v
  | None => default
  end.

(** [x.strip()] on an arbitrary value: only a [str] has the method. *)
Definition py_strip (x : json) : result string :=
  match x with
  | JStr s => Ok (PyStr.strip s)
  | _ => Raise AttributeError
  end.

(** [x.lower()] on an arbitrary value *)
Definition py_lower (x : json) : result string :=
  match x with
  | JStr s => Ok (PyStr.lower s)
  | _ => Raise AttributeError
  end.

(** Python truthiness, [bool(x)] *)
Definition py_bool (x : json) : bool :=
  match x with
  | JNull => false
  | JBool b => b
  | JInt z => negb (z =? 0)
  | JFloat f => negb (PrimFloat.eqb f 0%float)
  | JStr s => negb (PyStr.is_empty s)
  | JList l => match l with [] => false | _ => true end
  | JDict d => match d with [] => false | _ => true end
  end.

(* ================================================================== *)
(** ** Python numbers *)
(* ================================================================== *)

Module PyNum.

(** [float(z)] for an [int]: the nearest binary64 value, ties to even;
    [OverflowError] when that value is not finite. *)
Definition float_of_int (z : Z) : result float :=
  match binary_normalize 53 1024 z 0 false with
  | S754_infinity _ => Raise OverflowError
  | sf => Ok (SF2Prim sf)
  end.

(** The exact order between a float and an integer, as Python's mixed
    comparisons compute it; [None] for a NaN, which is unordered. *)
Definition compare_float_int (f : float) (z : Z) : option comparison :=
  match Prim2SF f with
  | S754_nan => None
  | S754_zero _ => Some (0 ?= z)
  | S754_infinity true => Some Lt
  | S754_infinity false => Some Gt
  | S754_finite s m e =>
      let v := if s then Z.neg m else Z.pos m in
      if 0 <=? e then Some (v * 2 ^ e ?= z) else Some (v ?= z * 2 ^ (- e))
  end.

(** [f > z] *)
Definition float_gt_int (f : float) (z : Z) : bool :=
  match compare_float_int f z with Some Gt => true | _ => false end.

(** [f <= z] *)
Definition float_le_int (f : float) (z : Z) : bool :=
  match compare_float_int f z with Some Lt | Some Eq => true | _ => false end.

(** [format(x, ".2f")], as used by an f-string field [{x:.2f}]: defined on
    [float], [int] and [bool] only; the text itself is not modelled. *)
Definition format_2f (x : json) : result unit :=
  match x with
  | JFloat _ => Ok tt
  | JBool _ => Ok tt
  | JInt z => let* _ := float_of_int z in Ok tt
  | JStr _ => Raise (ValueError "Unknown format code 'f' for object of type 'str'")
  | _ => Raise TypeError
  end.

(** [x >= t] for a float [t] *)
Definition ge_float (x : json) (t : float) : result bool :=
  match x with
  | JFloat f => Ok (PrimFloat.leb t f)
  | JInt z => Ok (float_le_int t z)
  | JBool b => Ok (float_le_int t (if b then 1 else 0))
  | _ => Raise TypeError
  end.

End PyNum.

(* ================================================================== *)
(** ** The data model ([src/api/models.py]) *)
(* ================================================================== *)

Inductive ProficiencyLevel : Type := BEGINNER | INTERMEDIATE | ADVANCED | EXPERT.

Inductive Priority : Type := CRITICAL | IMPORTANT | NICE_TO_HAVE.

Inductive ResourceType : Type :=
  COURSE | TUTORIAL | DOCUMENTATION | VIDEO | BOOK | ARTICLE.

Inductive AnalysisStatus : Type := PENDING | IN_PROGRESS | COMPLETED | FAILED.

Definition ResourceType_eqb (a b : ResourceType) : bool :=
  match a, b with
  | COURSE, COURSE | TUTORIAL, TUTORIAL | DOCUMENTATION, DOCUMENTATION
  | VIDEO, VIDEO | BOOK, BOOK | ARTICLE, ARTICLE => true
  | _, _ => false
  end.

(** The enum's value, [t.value] *)
Definition ResourceType_value (t : ResourceType) : string :=
  match t with
  | COURSE => "course"
  | TUTORIAL => "tutorial"
  | DOCUMENTATION => "documentation"
  | VIDEO => "video"
  | BOOK => "book"
  | ARTICLE => "article"
  end.

(** [ResourceType(s)]: lookup by value, [ValueError] when no member has it. *)
Definition ResourceType_of_value (s : string) : result ResourceType :=
  if String.eqb s "course" then Ok COURSE
  else if String.eqb s "tutorial" then Ok TUTORIAL
  else if String.eqb s "documentation" then Ok DOCUMENTATION
  else if String.eqb s "video" then Ok VIDEO
  else if String.eqb s "book" then Ok BOOK
  else if String.eqb s "article" then Ok ARTICLE
  else Raise (ValueError "not a valid ResourceType").

(** [t in types] *)
Definition ResourceType_in (t : ResourceType) (types : list ResourceType) : bool :=
  existsb (ResourceType_eqb t) types.

Record ResourceFilters : Type := {
  free_only : bool;
  max_duration_hours : Z;
  resource_types : list ResourceType
}.

(** [ResourceFilters()] *)
Definition default_filters : ResourceFilters :=
  {| free_only := true; max_duration_hours := 100;
     resource_types := [COURSE; TUTORIAL; VIDEO] |}.

Record AnalysisRequest : Type := {
  resume_text : string;
  job_description : string;
  target_job_title : string;
  filters : option ResourceFilters
}.

Record ExistingSkill : Type := {
  existing_skill_name : string;
  proficiency_level : ProficiencyLevel;
  years_experience : Z
}.

Record SkillGap : Type := {
  skill_name : string;
  required_level : ProficiencyLevel;
  priority : Priority;
  recommended_starting_level : string
}.

Record Resource : Type := {
  title : string;
  url : string;
  provider : string;
  resource_type : ResourceType;
  difficulty_level : string;
  duration_hours : float;
  is_free : bool;
  rating : option float;
  description : string;
  tech_stack_match : list string
}.

Record MarketInsights : Type := {
  demand_level : string;
  key_findings : list string;
  data_sources : list string
}.

Record AnalysisResult : Type := {
  existing_skills : list ExistingSkill;
  skill_gaps : list SkillGap;
  tech_stack : list string;
  job_category : string;
  market_insights : option MarketInsights
}.

Record AnalysisResponse : Type := {
  job_id : string;
  status : AnalysisStatus;
  analysis_result : option AnalysisResult;
  curated_resources : gmap string (list Resource);
  notebooklm_generated : gmap string string;
  error_message : option string
}.

Record AnalyzerInput : Type := {
  ai_resume_text : string;
  ai_job_description : string;
  ai_target_job_title : string
}.

(* ================================================================== *)
(** ** The agent session (the [claude_agent_sdk] client, as it is used) *)
(* ================================================================== *)

(** A content block of a message: a [TextBlock] or any other block. *)
Inductive block : Type :=
| TextBlock (text : string)
| OtherBlock.

Record message : Type := {
  role : string;
  content : list block
}.

(** What the iteration over [client.receive_messages()] yields next. *)
Inductive stream_item : Type :=
| Message (m : message)
| StreamRaises (e : exn).

(** The script of one client: the outcome of each call the agents make
    on it ([None]: the call returns). *)
Record session : Type := {
  ctor : option exn;                  (* ClaudeSDKClient() *)
  connect : option exn;               (* await client.connect() *)
  send_message : option exn;          (* await client.send_message(..) *)
  receive_messages : list stream_item;
  disconnect : option exn;            (* await client.disconnect(), in the body *)
  disconnect_in_handler : option exn  (* await client.disconnect(), in the except handler *)
}.

Definition call (outcome : option exn) : result unit :=
  match outcome with
  | None => Ok tt
  | Some e => Raise e
  end.

(** The code-fence stripping every agent applies before it looks for JSON:
[[
    text = text.strip()
    if text.startswith("```json"): text = text[7:]
    if text.startswith("```"):     text = text[3:]
    if text.endswith("```"):       text = text[:-3]
    text = text.strip()
]] *)
Definition strip_fences (text : string) : string :=
  let text := PyStr.strip text in
  let text := if PyStr.startswith "```json" text then PyStr.skipn 7 text else text in
  let text := if PyStr.startswith "```" text then PyStr.skipn 3 text else text in
  let text := if PyStr.endswith "```" text then PyStr.drop_last 3 text else text in
  PyStr.strip text.

(* ================================================================== *)
(** ** Analyzer agent ([src/agents/analyzer.py]) *)
(* ================================================================== *)

Module Analyzer.

(** The loop of [_extract_json_with_fallback] that looks for the matching
    closing brace:
[[
    brace_count = 0
    end_idx = -1
    for i in range(start_idx, len(response)):
        if response[i] == "{": brace_count += 1
        elif response[i] == "}":
            brace_count -= 1
            if brace_count == 0:
                end_idx = i + 1
                break
]]
    [rest] is [response[i:]]; the value is [end_idx]. *)
Fixpoint matching_brace (rest : string) (i brace_count : Z) : Z :=
  match rest with
  | EmptyString => -1
  | String c rest' =>
      if Ascii.eqb c "{" then matching_brace rest' (i + 1) (brace_count + 1)
      else if Ascii.eqb c "}" then
        let brace_count := brace_count - 1 in
        if brace_count =? 0 then i + 1
        else matching_brace rest' (i + 1) brace_count
      else matching_brace rest' (i + 1) brace_count
  end.

(** The text handed to [json.loads] for an already fence-stripped
    [response], when the code reaches that call. *)
Definition json_text (response : string) : option string :=
  if PyStr.has_char "{" response then
    let start_idx := PyStr.find "{" response in
    let end_idx :=
      matching_brace (PyStr.skipn (Z.to_nat start_idx) response) start_idx 0 in
    if end_idx >? start_idx then Some (PyStr.slice response start_idx end_idx)
    else None
  else None.

Section WithJson.

Variable json_loads : string -> result json.
Variable validate_ExistingSkill : json -> result ExistingSkill.
Variable validate_SkillGap : json -> result SkillGap.
Variable validate_MarketInsights : json -> result MarketInsights.

(** The [except json.JSONDecodeError] clause around a call of [json.loads]:
    a [JSONDecodeError] is raised again as a [ValueError] with [msg] (the
    decoder's own message, which the code appends, is left out); any other
    exception of [json.loads], a [RecursionError] on a deeply nested text
    for one, is not caught and passes through. *)
Definition except_JSONDecodeError (msg : string) (r : result json) : result json :=
  match r with
  | Ok data => Ok data
  | Raise JSONDecodeError => Raise (ValueError msg)
  | Raise e => Raise e
  end.

(** [_extract_json_with_fallback].  The [ValueError] of the missing object
    is raised inside the [try], and is no [JSONDecodeError]. *)
Definition _extract_json_with_fallback (response : string) : result json :=
  let response := strip_fences response in
  match json_text response with
  | Some text => except_JSONDecodeError "Invalid JSON in response" (json_loads text)
  | None => Raise (ValueError "No JSON object found in response")
  end.

(** Iterating over a value: a list yields its items, a dict its keys, a
    string its characters; anything else is not iterable. *)
Definition py_iter (x : json) : result (list json) :=
  match x with
  | JList l => Ok l
  | JDict d => Ok (map (fun kv => JStr (fst kv)) d)
  | JStr s => Ok (map (fun c => JStr (String c EmptyString)) (list_ascii_of_string s))
  | _ => Raise TypeError
  end.

Fixpoint mapM {A B : Type} (f : A -> result B) (l : list A) : result (list B) :=
  match l with
  | [] => Ok []
  | a :: l' =>
      let* b := f a in
      let* bs := mapM f l' in
      Ok (b :: bs)
  end.

(** pydantic's validation of a [str] field and of a [List[str]] field *)
Definition validate_str (x : json) : result string :=
  match x with
  | JStr s => Ok s
  | _ => Raise ValidationError
  end.

Definition validate_str_list (x : json) : result (list string) :=
  match x with
  | JList l => mapM validate_str l
  | _ => Raise ValidationError
  end.

Definition _convert_to_model (data : json) : result AnalysisResult :=
  match data with
  | JDict d =>
      let* skills := py_iter (dict_get d "existing_skills" (JList [])) in
      let* existing_skills := mapM validate_ExistingSkill skills in
      let* gaps := py_iter (dict_get d "skill_gaps" (JList [])) in
      let* skill_gaps := mapM validate_SkillGap gaps in
      let* market_insights :=
        match lookup_key "market_insights" d with
        | Some mi => let* m := validate_MarketInsights mi in Ok (Some m)
        | None => Ok None
        end in
      let* tech_stack := validate_str_list (dict_get d "tech_stack" (JList [])) in
      let* job_category := validate_str (dict_get d "job_category" (JStr "Unknown")) in
      Ok {| existing_skills := existing_skills;
            skill_gaps := skill_gaps;
            tech_stack := tech_stack;
            job_category := job_category;
            market_insights := market_insights |}
  | _ => Raise AttributeError
  end.

Definition mk_gap (name : string) (level : ProficiencyLevel) (p : Priority)
    (start : string) : SkillGap :=
  {| skill_name := name; required_level := level; priority := p;
     recommended_starting_level := start |}.

Definition _generate_mock_analysis (input_data : AnalyzerInput) : AnalysisResult :=
  let job_title_lower := PyStr.lower (ai_target_job_title input_data) in
  let mock_gaps :=
    if PyStr.contains "cloud" job_title_lower
       || PyStr.contains "infrastructure" job_title_lower then
      [ mk_gap "AWS/Cloud Platforms" ADVANCED CRITICAL "intermediate";
        mk_gap "Kubernetes" ADVANCED CRITICAL "intermediate";
        mk_gap "Infrastructure as Code" INTERMEDIATE IMPORTANT "beginner";
        mk_gap "Docker" INTERMEDIATE IMPORTANT "beginner";
        mk_gap "System Performance Optimization" ADVANCED CRITICAL "intermediate" ]
    else if PyStr.contains "data" job_title_lower then
      [ mk_gap "SQL" ADVANCED CRITICAL "intermediate";
        mk_gap "Python Data Science" ADVANCED CRITICAL "intermediate";
        mk_gap "Machine Learning" INTERMEDIATE IMPORTANT "beginner" ]
    else
      [ mk_gap "System Design" ADVANCED CRITICAL "intermediate";
        mk_gap "Algorithms" INTERMEDIATE IMPORTANT "beginner" ] in
  {| existing_skills :=
       [ {| existing_skill_name := "Python"; proficiency_level := INTERMEDIATE;
            years_experience := 3 |};
         {| existing_skill_name := "Git"; proficiency_level := INTERMEDIATE;
            years_experience := 5 |} ];
     skill_gaps := mock_gaps;
     tech_stack := ["Python"; "Cloud"; "DevOps"];
     job_category := ai_target_job_title input_data;
     market_insights := None |}.

(** The first [TextBlock] of a message whose text contains an opening brace. *)
Fixpoint first_brace_text (blocks : list block) : option string :=
  match blocks with
  | [] => None
  | TextBlock text :: rest =>
      if PyStr.has_char "{" text then Some text else first_brace_text rest
  | OtherBlock :: rest => first_brace_text rest
  end.

(** [final_response and "existing_skills" in final_response] *)
Definition has_final_result (final_response : option string) : bool :=
  match final_response with
  | Some text => negb (PyStr.is_empty text) && PyStr.contains "existing_skills" text
  | None => false
  end.

(** The [async for message in self.client.receive_messages()] loop. *)
Fixpoint collect (stream : list stream_item) (agent_actions : list message)
    (final_response : option string) : result (list message * option string) :=
  match stream with
  | [] => Ok (agent_actions, final_response)
  | StreamRaises e :: _ => Raise e
  | Message m :: rest =>
      let assistant := String.eqb (role m) "assistant" in
      let agent_actions := if assistant then agent_actions ++ [m] else agent_actions in
      let final_response :=
        if assistant then
          match first_brace_text (content m) with
          | Some text => Some text
          | None => final_response
          end
        else final_response in
      if has_final_result final_response then Ok (agent_actions, final_response)
      else collect rest agent_actions final_response
  end.

(** [agent_actions[-1].content[0].text if agent_actions else ""] *)
Definition last_message_text (agent_actions : list message) : result string :=
  match last agent_actions with
  | None => Ok ""
  | Some m =>
      match content m with
      | [] => Raise IndexError
      | TextBlock text :: _ => Ok text
      | OtherBlock :: _ => Raise AttributeError
      end
  end.

(** The summary logged after a successful conversion ends with
[[
    if hasattr(result, 'market_insights'):
        ... result.market_insights.get('demand_level', 'N/A') ...
]]
    Every [AnalysisResult] has the attribute, and neither [None] nor a
    [MarketInsights] model has a [get] method. *)
Definition log_market_insights (r : AnalysisResult) : result unit :=
  match market_insights r with
  | None => Raise AttributeError
  | Some _ => Raise AttributeError
  end.

(** [self.SYSTEM_PROMPT.format(job_title=...)].  The prompt is a constant
    of the class; after the [{job_title}] fields it shows the expected JSON
    with literal braces, so [str.format] meets the replacement field
    [{\n    "existing_skills": ...}] and raises [KeyError]. *)
Definition format_system_prompt : result string := Raise KeyError.

(** The [try] block of [analyze], after the client has been created. *)
Definition analyze_body (s : session) : result AnalysisResult :=
  let* _ := call (connect s) in
  let* _ := format_system_prompt in
  let* _ := call (send_message s) in
  let* collected := collect (receive_messages s) [] None in
  let* _ := call (disconnect s) in
  let* final_response :=
    match snd collected with
    | Some text =>
        if PyStr.is_empty text then last_message_text (fst collected) else Ok text
    | None => last_message_text (fst collected)
    end in
  let* analysis_data := _extract_json_with_fallback final_response in
  let* r := _convert_to_model analysis_data in
  let* _ := log_market_insights r in
  Ok r.

(** The whole [try] block of [analyze]: the creation of the client, then
    the rest. *)
Definition try_block (s : session) : result AnalysisResult :=
  let* _ := call (ctor s) in
  analyze_body s.

(** Whether [self.client] is set after the [try] block; [had_client] tells
    whether an earlier call had set it. *)
Definition client_set (had_client : bool) (s : session) : bool :=
  match ctor s with None => true | Some _ => had_client end.

(** [analyze]; the second component is whether [self.client] is set
    afterwards. *)
Definition analyze (had_client : bool) (s : session) (input_data : AnalyzerInput)
    : result AnalysisResult * bool :=
  let has_client := client_set had_client s in
  match try_block s with
  | Ok r => (Ok r, has_client)
  | Raise _ =>
      match (if has_client then call (disconnect_in_handler s) else Ok tt) with
      | Raise e => (Raise e, has_client)
      | Ok _ => (Ok (_generate_mock_analysis input_data), has_client)
      end
  end.

End WithJson.

End Analyzer.

(* ================================================================== *)
(** ** Search API client ([src/integrations/parallel_api.py]) *)
(* ================================================================== *)

(** The object held in [CuratorAgent.parallel_api], by the two methods the
    Curator calls on it. *)
Record parallel_api_object : Type := {
  search_educational_resources :
    string -> string -> bool -> Z -> result (list json);
  _get_mock_resources : string -> string -> result (list json)
}.

Module ParallelTaskAPI.

Definition mock_item (title url description provider type level : string)
    (free : bool) (reasoning : string) (confidence : float) : json :=
  JDict [ ("title", JStr title); ("url", JStr url);
          ("description", JStr description); ("provider", JStr provider);
          ("type", JStr type); ("difficulty", JStr level);
          ("is_free", JBool free); ("reasoning", JStr reasoning);
          ("confidence", JFloat confidence) ].

Definition _get_mock_resources (skill level : string) : list json :=
  let skill_lower := PyStr.lower skill in
  [ mock_item (skill +:+ " for Beginners - Complete Guide")
      ("https://www.udemy.com/course/" +:+ skill_lower +:+ "-beginners")
      ("Comprehensive " +:+ skill +:+ " course covering fundamentals to advanced concepts")
      "Udemy" "course" level false "Highly rated comprehensive course" 0.9;
    mock_item ("Learn " +:+ skill +:+ " - Free Interactive Tutorial")
      ("https://www.freecodecamp.org/learn/" +:+ skill_lower)
      ("Free interactive " +:+ skill +:+ " tutorial with hands-on exercises")
      "freeCodeCamp" "tutorial" level true
      "Interactive learning with practical examples" 0.85;
    mock_item (skill +:+ " Tutorial for Beginners")
      ("https://www.youtube.com/results?search_query=" +:+ skill_lower +:+ "+tutorial")
      ("Step-by-step " +:+ skill +:+ " video tutorial for beginners")
      "YouTube" "video" level true
      "Visual learning with practical demonstrations" 0.8;
    mock_item (skill +:+ " Complete Course")
      ("https://www.coursera.org/learn/" +:+ skill_lower)
      ("University-level " +:+ skill +:+ " course with certificate")
      "Coursera" "course" level true
      "Academic quality with structured curriculum" 0.88 ].

(** [search_educational_resources]; [found] is what [_search_resources]
    returns for the request (it returns [[]] on any error of the SDK). *)
Definition search_educational_resources (api_key : string) (found : list json)
    (skill level : string) (free_only : bool) (max_results : Z) : list json :=
  if PyStr.is_empty api_key then _get_mock_resources skill level
  else
    match found with
    | [] => _get_mock_resources skill level
    | _ => found
    end.

(** A [ParallelTaskAPI] instance, as the Curator sees it. *)
Definition instance (api_key : string) (found : list json) : parallel_api_object :=
  Build_parallel_api_object
    (fun skill level free_only max_results =>
       Ok (search_educational_resources api_key found skill level free_only max_results))
    (fun skill level => Ok (_get_mock_resources skill level)).

End ParallelTaskAPI.

(* ================================================================== *)
(** ** Curator agent ([src/agents/curator.py]) *)
(* ================================================================== *)

(** The tiers of the Curator's per-skill protocol, as entries of the
    trace a per-skill task leaves. *)
Inductive tier : Type :=
| AutonomousTier     (* the agent session *)
| SearchApiTier      (* parallel_api.search_educational_resources *)
| StaticTier.        (* parallel_api._get_mock_resources *)

Module Curator.

Section WithCollaborators.

Variable json_loads : string -> result json.
(** [float(s)] for a [str]; [None] stands for [ValueError]. *)
Variable float_of_str : string -> option float.
(** pydantic's validation of the [Optional[float]] field [rating]. *)
Variable validate_rating : json -> result (option float).

(** [float(x)] *)
Definition py_float (x : json) : result float :=
  match x with
  | JFloat f => Ok f
  | JInt z => PyNum.float_of_int z
  | JBool b => Ok (if b then 1%float else 0%float)
  | JStr s =>
      match float_of_str s with
      | Some f => Ok f
      | None => Raise (ValueError "could not convert string to float")
      end
  | _ => Raise TypeError
  end.

(** pydantic's validation of the [str] field [difficulty_level] *)
Definition validate_str (x : json) : result string :=
  match x with
  | JStr s => Ok s
  | _ => Raise ValidationError
  end.

(** [s or "Unknown"] *)
Definition or_unknown (s : string) : string :=
  if PyStr.is_empty s then "Unknown" else s.

(** The filter tests applied after construction; [true] when none of the
    three [continue] statements is taken. *)
Definition passes_filters (filters : ResourceFilters) (resource : Resource) : bool :=
  if free_only filters && negb (is_free resource) then false
  else if PyNum.float_gt_int (duration_hours resource) (max_duration_hours filters)
  then false
  else if negb (ResourceType_in (resource_type resource) (resource_types filters))
  then false
  else true.

(** The construction of one [Resource] from a dict item: [Ok None] when
    the item is skipped for a blank title or url. *)
Definition build_resource (item : list (string * json)) (skill_gap : SkillGap)
    : result (option Resource) :=
  let* title := py_strip (dict_get item "title" (JStr "")) in
  let* url := py_strip (dict_get item "url" (JStr "")) in
  if PyStr.is_empty title || PyStr.is_empty url then Ok None
  else
    let* resource_type_str := py_lower (dict_get item "resource_type" (JStr "tutorial")) in
    let resource_type :=
      match ResourceType_of_value resource_type_str with
      | Ok t => t
      | Raise _ => TUTORIAL
      end in
    let* duration_hours :=
      match py_float (dict_get item "duration_hours" (JFloat 10%float)) with
      | Ok f => Ok f
      | Raise e => if is_ValueError_or_TypeError e then Ok 10%float else Raise e
      end in
    let* provider := py_strip (dict_get item "provider" (JStr "Unknown")) in
    let* difficulty_level :=
      validate_str (dict_get item "difficulty_level"
                      (JStr (recommended_starting_level skill_gap))) in
    let* rating := validate_rating (dict_get item "rating" JNull) in
    let* description := py_strip (dict_get item "description" (JStr "")) in
    Ok (Some {| title := title;
                url := url;
                provider := or_unknown provider;
                resource_type := resource_type;
                difficulty_level := difficulty_level;
                duration_hours := duration_hours;
                is_free := py_bool (dict_get item "is_free" (JBool true));
                rating := rating;
                description := description;
                tech_stack_match := [skill_name skill_gap] |}).

(** One turn of the loop of [_convert_to_resources]: the resource
    appended for [item], if any.  Every exception is caught and the item
    skipped. *)
Definition convert_item (item : json) (skill_gap : SkillGap)
    (filters : ResourceFilters) : option Resource :=
  match item with
  | JDict d =>
      match build_resource d skill_gap with
      | Ok (Some resource) =>
          if passes_filters filters resource then Some resource else None
      | Ok None => None
      | Raise _ => None
      end
  | _ => None
  end.

Fixpoint _convert_to_resources (json_data : list json) (skill_gap : SkillGap)
    (filters : ResourceFilters) : list Resource :=
  match json_data with
  | [] => []
  | item :: rest =>
      match convert_item item skill_gap filters with
      | Some resource => resource :: _convert_to_resources rest skill_gap filters
      | None => _convert_to_resources rest skill_gap filters
      end
  end.

(** The text handed to [json.loads] for one text block, when the code
    reaches that call:
[[
    if "[" in text:
        start_idx = text.find("[")
        end_idx = text.rfind("]") + 1
        if start_idx >= 0 and end_idx > start_idx:
            json_text = text[start_idx:end_idx]
]] *)
Definition array_text (block_text : string) : option string :=
  let text := strip_fences block_text in
  if PyStr.has_char "[" text then
    let start_idx := PyStr.find "[" text in
    let end_idx := PyStr.rfind "]" text + 1 in
    if (start_idx >=? 0) && (end_idx >? start_idx)
    then Some (PyStr.slice text start_idx end_idx)
    else None
  else None.

(** The value of [final_json] a text block sets, if it sets one. *)
Definition block_json (b : block) : option (list json) :=
  match b with
  | TextBlock text =>
      match array_text text with
      | Some json_text =>
          match json_loads json_text with
          | Ok (JList (x :: l)) => Some (x :: l)
          | _ => None
          end
      | None => None
      end
  | OtherBlock => None
  end.

(** The inner [for block in message.content] loop, up to its [break]. *)
Fixpoint scan_blocks (blocks : list block) (final_json : option (list json))
    : option (list json) :=
  match blocks with
  | [] => final_json
  | b :: rest =>
      match block_json b with
      | Some parsed => Some parsed
      | None => scan_blocks rest final_json
      end
  end.

(** The [async for message in client.receive_messages()] loop. *)
Fixpoint scan_stream (stream : list stream_item) (final_json : option (list json))
    : result (option (list json)) :=
  match stream with
  | [] => Ok final_json
  | StreamRaises e :: _ => Raise e
  | Message m :: rest =>
      let final_json :=
        if String.eqb (role m) "assistant" then scan_blocks (content m) final_json
        else final_json in
      match final_json with
      | Some (_ :: _) => Ok final_json
      | _ => scan_stream rest final_json
      end
  end.

(** [self.SYSTEM_PROMPT.format(skill_name=.., level=..)].  The prompt is a
    constant of the class; after the [{skill_name}] and [{level}] fields it
    shows the expected JSON array with literal braces, so [str.format] meets
    the replacement field [{\n        "title": ...}] and raises [KeyError]. *)
Definition format_system_prompt : result string := Raise KeyError.

(** The agent session of [_curate_for_skill], from [client.connect()] to
    the [client.disconnect()] after the loop; the value is [final_json]. *)
Definition autonomous_session (s : session) : result (option (list json)) :=
  let* _ := call (connect s) in
  let* _ := format_system_prompt in
  let* _ := call (send_message s) in
  let* final_json := scan_stream (receive_messages s) None in
  let* _ := call (disconnect s) in
  Ok final_json.

(** Tier 1: the [try] block of [_curate_for_skill] up to that
    [disconnect()], the creation of the client included. *)
Definition tier1 (s : session) : result (option (list json)) :=
  let* _ := call (ctor s) in
  autonomous_session s.

(** The outcome of a per-skill task: what it returns or raises, the value
    of [self.parallel_api] afterwards, and the tiers it ran, in order. *)
Record task_outcome : Type := {
  returned : result (list Resource);
  parallel_api_after : option parallel_api_object;
  tiers_run : list tier
}.

(** The search-API fallback:
[[
    if self.parallel_api:
        try:
            api_results = await self.parallel_api.search_educational_resources(..)
            resources = self._convert_to_resources(api_results, skill_gap, filters)
            if resources: return resources
        except Exception: ...
]]
    [Some resources] when it returns, with the tiers it ran. *)
Definition search_fallback (parallel_api : option parallel_api_object)
    (skill_gap : SkillGap) (filters : ResourceFilters)
    : option (list Resource) * list tier :=
  match parallel_api with
  | Some api =>
      match search_educational_resources api (skill_name skill_gap)
              (recommended_starting_level skill_gap) (free_only filters) 10 with
      | Ok api_results =>
          match _convert_to_resources api_results skill_gap filters with
          | [] => (None, [SearchApiTier])
          | resources => (Some resources, [SearchApiTier])
          end
      | Raise _ => (None, [SearchApiTier])
      end
  | None => (None, [])
  end.

(** The final fallback:
[[
    if not self.parallel_api:
        config = get_config()
        self.parallel_api = ParallelTaskAPI(api_key=.., endpoint=..)
    mock_results = self.parallel_api._get_mock_resources(skill_name, ..)
    resources = self._convert_to_resources(mock_results, skill_gap, filters)
    return resources
]]
    [new_api] is the outcome of constructing the [ParallelTaskAPI]. *)
Definition static_fallback (parallel_api : option parallel_api_object)
    (new_api : result parallel_api_object)
    (skill_gap : SkillGap) (filters : ResourceFilters) (ran : list tier)
    : task_outcome :=
  match parallel_api with
  | Some api =>
      {| returned :=
           (let* mock_results := _get_mock_resources api (skill_name skill_gap)
                                   (recommended_starting_level skill_gap) in
            Ok (_convert_to_resources mock_results skill_gap filters));
         parallel_api_after := Some api;
         tiers_run := ran ++ [StaticTier] |}
  | None =>
      match new_api with
      | Ok api =>
          {| returned :=
               (let* mock_results := _get_mock_resources api (skill_name skill_gap)
                                       (recommended_starting_level skill_gap) in
                Ok (_convert_to_resources mock_results skill_gap filters));
             parallel_api_after := Some api;
             tiers_run := ran ++ [StaticTier] |}
      | Raise e =>
          {| returned := Raise e; parallel_api_after := None; tiers_run := ran |}
      end
  end.

(** The [except Exception] handler of [_curate_for_skill]. *)
Definition handler (client : bool) (parallel_api : option parallel_api_object)
    (new_api : result parallel_api_object) (s : session)
    (skill_gap : SkillGap) (filters : ResourceFilters) (ran : list tier)
    : task_outcome :=
  match (if client then call (disconnect_in_handler s) else Ok tt) with
  | Raise e =>
      {| returned := Raise e; parallel_api_after := parallel_api; tiers_run := ran |}
  | Ok _ =>
      match search_fallback parallel_api skill_gap filters with
      | (Some resources, ran2) =>
          {| returned := Ok resources; parallel_api_after := parallel_api;
             tiers_run := ran ++ ran2 |}
      | (None, ran2) =>
          static_fallback parallel_api new_api skill_gap filters (ran ++ ran2)
      end
  end.

(** [_curate_for_skill] from the end of tier 1 on.  [outcome] is what tier 1
    left: the value of [final_json], or the exception raised in the [try];
    [client] tells whether [client] is set when the handler runs. *)
Definition after_tier1 (outcome : result (option (list json))) (client : bool)
    (parallel_api : option parallel_api_object)
    (new_api : result parallel_api_object) (s : session)
    (skill_gap : SkillGap) (filters : ResourceFilters) : task_outcome :=
  match outcome with
  | Ok (Some (x :: l)) =>
      {| returned := Ok (_convert_to_resources (x :: l) skill_gap filters);
         parallel_api_after := parallel_api;
         tiers_run := [AutonomousTier] |}
  | Ok _ =>
      (* no JSON from the session: the fallbacks, still inside the [try] *)
      match search_fallback parallel_api skill_gap filters with
      | (Some resources, ran2) =>
          {| returned := Ok resources; parallel_api_after := parallel_api;
             tiers_run := AutonomousTier :: ran2 |}
      | (None, ran2) =>
          let o := static_fallback parallel_api new_api skill_gap filters
                     (AutonomousTier :: ran2) in
          match returned o with
          | Ok _ => o
          | Raise _ =>
              handler client (parallel_api_after o) new_api s skill_gap filters
                (tiers_run o)
          end
      end
  | Raise _ =>
      handler client parallel_api new_api s skill_gap filters [AutonomousTier]
  end.

Definition _curate_for_skill (parallel_api : option parallel_api_object)
    (new_api : result parallel_api_object) (s : session)
    (skill_gap : SkillGap) (tech_stack : list string) (filters : ResourceFilters)
    : task_outcome :=
  let client := match ctor s with None => true | Some _ => false end in
  after_tier1 (tier1 s) client parallel_api new_api s skill_gap filters.

(** [curate_resources].  The per-skill tasks run concurrently under
    [asyncio.gather(.., return_exceptions=True)], which yields one entry
    per task, in task order: [task i gap] is the entry of the [i]-th task
    (what [_curate_for_skill] returned, or the exception it raised).
    The filters are dereferenced before any task starts. *)
Fixpoint compile_results (i : nat) (skill_gaps : list SkillGap)
    (task : nat -> SkillGap -> result (list Resource))
    (curated_resources : gmap string (list Resource))
    : gmap string (list Resource) :=
  match skill_gaps with
  | [] => curated_resources
  | skill_gap :: rest =>
      let entry :=
        match task i skill_gap with
        | Raise _ => []
        | Ok r => r
        end in
      compile_results (S i) rest task (<[skill_name skill_gap := entry]> curated_resources)
  end.

Definition curate_resources (task : nat -> SkillGap -> result (list Resource))
    (skill_gaps : list SkillGap) (tech_stack : list string)
    (filters : option ResourceFilters) : result (gmap string (list Resource)) :=
  match filters with
  | None => Raise AttributeError
  | Some _ => Ok (compile_results 0 skill_gaps task ∅)
  end.

End WithCollaborators.

End Curator.

(* ================================================================== *)
(** ** Judge agent ([src/agents/judge.py]) *)
(* ================================================================== *)

Module Judge.

(** The text handed to [json.loads] for one text block, when the code
    reaches that call:
[[
    if isinstance(block, TextBlock) and "{" in block.text:
        text = block.text.strip()   # then the fences, then strip again
        if "{" in text:
            start = text.find("{")
            end = text.rfind("}") + 1
            if start >= 0 and end > start:
                json_str = text[start:end]
]] *)
Definition json_str (block_text : string) : option string :=
  if PyStr.has_char "{" block_text then
    let text := strip_fences block_text in
    if PyStr.has_char "{" text then
      let start := PyStr.find "{" text in
      let end_ := PyStr.rfind "}" text + 1 in
      if (start >=? 0) && (end_ >? start)
      then Some (PyStr.slice text start end_)
      else None
    else None
  else None.

(** [x == "relevance_score"] for a list item *)
Definition is_the_key (x : json) : bool :=
  match x with
  | JStr s => String.eqb s "relevance_score"
  | _ => false
  end.

(** ["relevance_score" in parsed] *)
Definition has_relevance_score (parsed : json) : result bool :=
  match parsed with
  | JDict d => Ok (match lookup_key "relevance_score" d with Some _ => true | None => false end)
  | JList l => Ok (existsb is_the_key l)
  | JStr s => Ok (PyStr.contains "relevance_score" s)
  | _ => Raise TypeError
  end.

(** [x[:100]]: defined on strings and lists; the slice itself is only logged. *)
Definition py_slice_100 (x : json) : result unit :=
  match x with
  | JStr _ | JList _ => Ok tt
  | _ => Raise TypeError
  end.

(** [judgement.get(key, default)] *)
Definition py_get (judgement : json) (key : string) (default : json) : result json :=
  match judgement with
  | JDict d => Ok (dict_get d key default)
  | _ => Raise AttributeError
  end.

(** [resources[:n]] and [resources[n:]] split the list at this position. *)
Definition slice_position {A : Type} (l : list A) (n : Z) : nat :=
  if n <? 0 then Z.to_nat (Z.of_nat (length l) + n) else Z.to_nat n.

Section WithJson.

Variable json_loads : string -> result json.

(** The value of [final_judgement] a block sets, if it sets one; every
    exception inside the [try] is swallowed by [except: continue]. *)
Definition block_judgement (b : block) : option json :=
  match b with
  | TextBlock text =>
      match json_str text with
      | Some js =>
          match json_loads js with
          | Ok parsed =>
              match has_relevance_score parsed with
              | Ok true => Some parsed
              | _ => None
              end
          | Raise _ => None
          end
      | None => None
      end
  | OtherBlock => None
  end.

Fixpoint scan_blocks (blocks : list block) (final_judgement : option json)
    : option json :=
  match blocks with
  | [] => final_judgement
  | b :: rest =>
      match block_judgement b with
      | Some parsed => Some parsed
      | None => scan_blocks rest final_judgement
      end
  end.

(** [if final_judgement] *)
Definition truthy (final_judgement : option json) : bool :=
  match final_judgement with
  | Some j => py_bool j
  | None => false
  end.

Fixpoint scan_stream (stream : list stream_item) (final_judgement : option json)
    : result (option json) :=
  match stream with
  | [] => Ok final_judgement
  | StreamRaises e :: _ => Raise e
  | Message m :: rest =>
      let final_judgement :=
        if String.eqb (role m) "assistant"
        then scan_blocks (content m) final_judgement
        else final_judgement in
      if truthy final_judgement then Ok final_judgement
      else scan_stream rest final_judgement
  end.

(** [_autonomous_validate]: the judgement, [None] when the session gave
    none or failed; it raises only when the handler's own
    [client.disconnect()] does. *)
Definition _autonomous_validate (s : session) : result (option json) :=
  let client := match ctor s with None => true | Some _ => false end in
  let body :=
    let* _ := call (ctor s) in
    let* _ := call (connect s) in
    let* _ := call (send_message s) in
    let* final_judgement := scan_stream (receive_messages s) None in
    let* _ := call (disconnect s) in
    Ok final_judgement in
  match body with
  | Ok final_judgement => Ok final_judgement
  | Raise _ =>
      let* _ := (if client then call (disconnect_in_handler s) else Ok tt) in
      Ok None
  end.

(** The [try] block of one turn of the loop of [validate_resources]:
    the list of validated resources when the block ends, and how it ends. *)
Definition validate_body (relevance_threshold : float) (s : session)
    (resource : Resource) (validated_resources : list Resource)
    : list Resource * result unit :=
  match _autonomous_validate s with
  | Raise e => (validated_resources, Raise e)
  | Ok judgement =>
      if truthy judgement then
        let j := match judgement with Some j => j | None => JNull end in
        match (let* _ := py_get j "code_tests_passed" (JInt 0) in
               let* _ := py_get j "code_tests_failed" (JInt 0) in
               let* score := py_get j "relevance_score" (JFloat 0%float) in
               let* _ := py_get j "technical_quality" (JStr "unknown") in
               let* _ := PyNum.format_2f score in
               let* keep := PyNum.ge_float score relevance_threshold in
               Ok keep) with
        | Raise e => (validated_resources, Raise e)
        | Ok true =>
            let validated_resources := validated_resources ++ [resource] in
            (validated_resources,
             let* reasoning := py_get j "reasoning" (JStr "No reason provided") in
             py_slice_100 reasoning)
        | Ok false =>
            (validated_resources,
             let* reasoning := py_get j "reasoning" (JStr "No reason provided") in
             py_slice_100 reasoning)
        end
      else (validated_resources ++ [resource], Ok tt)
  end.

(** The loop over [resources_to_validate]; [sessions i] is the script of
    the client created for the [i]-th resource. *)
Fixpoint validate_loop (relevance_threshold : float) (sessions : nat -> session)
    (i : nat) (resources_to_validate : list Resource)
    (validated_resources : list Resource) : list Resource :=
  match resources_to_validate with
  | [] => validated_resources
  | resource :: rest =>
      let validated_resources :=
        match validate_body relevance_threshold (sessions i) resource
                validated_resources with
        | (v, Ok _) => v
        | (v, Raise _) => v ++ [resource]
        end in
      validate_loop relevance_threshold sessions (S i) rest validated_resources
  end.

Definition validate_resources (relevance_threshold : float) (validate_top_n : Z)
    (sessions : nat -> session) (skill_gap : SkillGap) (resources : list Resource)
    : list Resource :=
  match resources with
  | [] => []
  | _ =>
      let resources_to_validate :=
        take (slice_position resources validate_top_n) resources in
      let validated_resources :=
        validate_loop relevance_threshold sessions 0 resources_to_validate [] in
      if Z.of_nat (length resources) >? validate_top_n
      then validated_resources ++ drop (slice_position resources validate_top_n) resources
      else validated_resources
  end.

End WithJson.

End Judge.

(* ================================================================== *)
(** ** Redis cache ([src/integrations/redis_cache.py]) *)
(* ================================================================== *)

Module RedisCache.

Section WithSerialization.

(** [hashlib.sha256(s.encode()).hexdigest()] *)
Variable sha256_hexdigest : string -> string.
(** [analysis_result.model_dump_json()] *)
Variable model_dump_json : AnalysisResult -> string.
(** [json.loads(cached_data)] followed by the validation of the result
    as an [AnalysisResult] *)
Variable model_validate_json : string -> result AnalysisResult.

Definition _generate_cache_key (resume_text job_description : string) : string :=
  let combined := resume_text +:+ "|" +:+ job_description in
  "skill_analysis:" +:+ sha256_hexdigest combined.

(** [get_analysis]; [store] is the content of the Redis database and
    [client_get] the outcome of the [GET] command. *)
Definition get_analysis (store : gmap string string) (client_get : option exn)
    (resume_text job_description : string) : option AnalysisResult :=
  let cache_key := _generate_cache_key resume_text job_description in
  match call client_get with
  | Raise _ => None
  | Ok _ =>
      match store !! cache_key with
      | Some cached_data =>
          if PyStr.is_empty cached_data then None
          else
            match model_validate_json cached_data with
            | Ok r => Some r
            | Raise _ => None
            end
      | None => None
      end
  end.

(** [cache_analysis]; the value is the database afterwards, [client_setex]
    the outcome of the [SETEX] command. *)
Definition cache_analysis (store : gmap string string) (client_setex : option exn)
    (resume_text job_description : string) (analysis_result : AnalysisResult)
    : gmap string string :=
  let cache_key := _generate_cache_key resume_text job_description in
  let data := model_dump_json analysis_result in
  match call client_setex with
  | Raise _ => store
  | Ok _ => <[cache_key := data]> store
  end.

End WithSerialization.

End RedisCache.

(* ================================================================== *)
(** ** Orchestrator ([src/agents/orchestrator.py]) *)
(* ================================================================== *)

Module Orchestrator.

(** The fields of [OrchestratorAgent] fixed by [__init__]. *)
Record config : Type := {
  enable_judge : bool;       (* self.enable_judge and self.judge *)
  enable_cache : bool;       (* enable_cache and redis_cache is not None *)
  relevance_threshold : float;
  validate_top_n : Z
}.

(** The mutable state: the Redis database, whether the Analyzer holds a
    client from an earlier request, the job table, and the number of
    calls of [_run_analyzer] so far. *)
Record state : Type := {
  redis : gmap string string;
  analyzer_has_client : bool;
  jobs : gmap string AnalysisResponse;
  analyzer_runs : nat
}.

(** What the environment does during one request. *)
Record environment : Type := {
  uuid4 : string;
  redis_get : option exn;
  redis_setex : option exn;
  analyzer_session : session;
  curator_task : nat -> SkillGap -> result (list Resource);
  judge_session : string -> nat -> session
}.

Section WithCollaborators.

Variable json_loads : string -> result json.
Variable validate_ExistingSkill : json -> result ExistingSkill.
Variable validate_SkillGap : json -> result SkillGap.
Variable validate_MarketInsights : json -> result MarketInsights.
Variable sha256_hexdigest : string -> string.
Variable model_dump_json : AnalysisResult -> string.
Variable model_validate_json : string -> result AnalysisResult.

(** [next((sg for sg in skill_gaps if sg.skill_name == skill_name), None)] *)
Definition find_gap (skill_gaps : list SkillGap) (name : string) : option SkillGap :=
  List.find (fun sg => String.eqb (skill_name sg) name) skill_gaps.

(** Phase 3: the entry of [validated_resources] written for one item of
    [curated_resources]. *)
Definition judge_entry (c : config) (w : environment) (analysis_result : AnalysisResult)
    (name : string) (resources : list Resource) : list Resource :=
  match resources with
  | [] => []
  | _ =>
      match find_gap (skill_gaps analysis_result) name with
      | Some skill_gap =>
          Judge.validate_resources json_loads (relevance_threshold c) (validate_top_n c)
            (judge_session w name) skill_gap resources
      | None => resources
      end
  end.

Definition judge_phase (c : config) (w : environment) (analysis_result : AnalysisResult)
    (curated_resources : gmap string (list Resource)) : gmap string (list Resource) :=
  map_imap (fun name resources => Some (judge_entry c w analysis_result name resources))
    curated_resources.

Definition _run_analyzer (st : state) (w : environment) (request : AnalysisRequest)
    : result AnalysisResult * state :=
  let analyzer_input :=
    {| ai_resume_text := resume_text request;
       ai_job_description := job_description request;
       ai_target_job_title := target_job_title request |} in
  let r := Analyzer.analyze json_loads validate_ExistingSkill validate_SkillGap
             validate_MarketInsights (analyzer_has_client st) (analyzer_session w)
             analyzer_input in
  (fst r,
   {| redis := redis st; analyzer_has_client := snd r; jobs := jobs st;
      analyzer_runs := S (analyzer_runs st) |}).

(** The response object as [process_request] leaves it.  The object is
    stored in [self.jobs] when it is created and updated in place, so the
    job table holds the same final value. *)
Definition finish (st : state) (response : AnalysisResponse) : AnalysisResponse * state :=
  (response,
   {| redis := redis st; analyzer_has_client := analyzer_has_client st;
      jobs := <[job_id response := response]> (jobs st);
      analyzer_runs := analyzer_runs st |}).

(** [process_request].  The log lines, the performance counters and
    [_learn_from_execution] (phase 4) only read the results; they raise
    nothing and are left out. *)
Definition process_request (c : config) (st : state) (w : environment)
    (request : AnalysisRequest) : AnalysisResponse * state :=
  let response (s : AnalysisStatus) (a : option AnalysisResult)
               (r : gmap string (list Resource)) :=
    {| job_id := uuid4 w; status := s; analysis_result := a;
       curated_resources := r; notebooklm_generated := ∅;
       error_message := None |} in
  (* Phase 1: the cache, then the Analyzer *)
  let cached_result :=
    if enable_cache c
    then RedisCache.get_analysis sha256_hexdigest model_validate_json (redis st)
           (redis_get w) (resume_text request) (job_description request)
    else None in
  let analysed :=
    match cached_result with
    | Some r => (Ok r, st)
    | None => _run_analyzer st w request
    end in
  match analysed with
  | (Raise _, st) => finish st (response FAILED None ∅)
  | (Ok analysis_result, st) =>
      let st :=
        if enable_cache c
        then {| redis := RedisCache.cache_analysis sha256_hexdigest model_dump_json
                           (redis st) (redis_setex w) (resume_text request)
                           (job_description request) analysis_result;
                analyzer_has_client := analyzer_has_client st;
                jobs := jobs st;
                analyzer_runs := analyzer_runs st |}
        else st in
      (* Phase 2: the Curator *)
      match Curator.curate_resources (curator_task w) (skill_gaps analysis_result)
              (tech_stack analysis_result) (filters request) with
      | Raise _ => finish st (response FAILED (Some analysis_result) ∅)
      | Ok curated_resources =>
          (* Phase 3: the Judge *)
          let curated_resources :=
            if enable_judge c
            then judge_phase c w analysis_result curated_resources
            else curated_resources in
          finish st (response COMPLETED (Some analysis_result) curated_resources)
      end
  end.

End WithCollaborators.

End Orchestrator.

(* ================================================================== *)
(** ** Instances of the external functions, for concrete runs *)
(* ================================================================== *)

(** The properties below hold for every [json.loads], every [float], every
    validator, digest and serializer.  The concrete runs (examples,
    witnesses, failing inputs) use the instances of this module, which
    cover a fragment of each function: a reader for JSON texts made of
    objects, arrays, strings with the simple escapes, integers, decimal
    numbers whose digits and exponent let one float operation round them
    correctly, [true], [false], [null] and [NaN]; [float] on such numerals,
    signed, and on the names of infinity and NaN; validators for the models
    of [src/api/models.py] on dicts read that way whose fields are of the
    JSON type the model names (a whole float or a bool for an [int] is
    converted as pydantic does).  Outside the fragment the answers of this
    module are not Python's: [json.loads] also reads [\u] escapes and the
    infinities and gives up with a [RecursionError] on a text nested deeper
    than the interpreter allows, [float] reads digits grouped by underscores
    and numerals without an integer or a fraction part, and pydantic converts
    numeric strings.  No run below uses such an input. *)

Module Reference.

Definition quote : ascii := "034"%char.

Definition is_ws (c : ascii) : bool :=
  let n := nat_of_ascii c in
  ((n =? 32) || (n =? 9) || (n =? 10) || (n =? 13))%nat.

Fixpoint skip_ws (l : list ascii) : list ascii :=
  match l with
  | c :: l' => if is_ws c then skip_ws l' else l
  | [] => []
  end.

Definition digit (c : ascii) : option Z :=
  let n := nat_of_ascii c in
  if ((48 <=? n) && (n <=? 57))%nat then Some (Z.of_nat n - 48) else None.

(** The digits at the head of [l]: their value after [acc], how many
    there are, and the rest. *)
Fixpoint read_digits (l : list ascii) (acc : Z) (count : nat) : Z * nat * list ascii :=
  match l with
  | c :: l' =>
      match digit c with
      | Some d => read_digits l' (10 * acc + d) (S count)
      | None => (acc, count, l)
      end
  | [] => (acc, count, [])
  end.

(** The nearest float to [mantissa * 10^exponent], for a mantissa below
    [2^53] and an exponent between -22 and 22: the mantissa and the power
    of ten are floats, and one multiplication or division rounds
    correctly. *)
Definition scaled (negative : bool) (mantissa : Z) (exponent : Z) : option float :=
  if (mantissa <? 2 ^ 53) && (-22 <=? exponent) && (exponent <=? 22) then
    match PyNum.float_of_int mantissa, PyNum.float_of_int (10 ^ Z.abs exponent) with
    | Ok m, Ok p =>
        let f := if 0 <=? exponent then PrimFloat.mul m p else PrimFloat.div m p in
        Some (if negative then PrimFloat.opp f else f)
    | _, _ => None
    end
  else None.

(** The exponent part of a numeral, after its [e]: an optional sign and
    digits. *)
Definition read_exponent (l : list ascii) : option (Z * list ascii) :=
  let (negative, l) :=
    match l with
    | c :: l' =>
        if Ascii.eqb c "-" then (true, l')
        else if Ascii.eqb c "+" then (false, l')
        else (false, l)
    | [] => (false, l)
    end in
  match read_digits l 0 0 with
  | (_, O, _) => None
  | (x, S _, rest) => Some (if negative then - x else x, rest)
  end.

(** What follows the digits of a numeral: an exponent part makes it a
    float; [digits] counts those of the fraction. *)
Definition read_scale (negative : bool) (mantissa : Z) (digits : nat)
    (is_float : bool) (rest : list ascii) : option (json * list ascii) :=
  match rest with
  | e :: rest' =>
      if Ascii.eqb e "e" || Ascii.eqb e "E" then
        match read_exponent rest' with
        | Some (x, rest'') =>
            option_map (fun f => (JFloat f, rest''))
              (scaled negative mantissa (x - Z.of_nat digits))
        | None => None
        end
      else if is_float
      then option_map (fun f => (JFloat f, rest))
             (scaled negative mantissa (- Z.of_nat digits))
      else Some (JInt (if negative then - mantissa else mantissa), rest)
  | [] =>
      if is_float
      then option_map (fun f => (JFloat f, rest))
             (scaled negative mantissa (- Z.of_nat digits))
      else Some (JInt (if negative then - mantissa else mantissa), rest)
  end.

(** A JSON number. *)
Definition read_number (l : list ascii) : option (json * list ascii) :=
  let (negative, l) :=
    match l with
    | c :: l' => if Ascii.eqb c "-" then (true, l') else (false, l)
    | [] => (false, l)
    end in
  let leading_zero :=
    match l with
    | z :: d :: _ =>
        Ascii.eqb z "0" && match digit d with Some _ => true | None => false end
    | _ => false
    end in
  match read_digits l 0 0 with
  | (_, O, _) => None
  | (whole, S _, rest) =>
      if leading_zero then None else
      match rest with
      | c :: rest' =>
          if Ascii.eqb c "." then
            match read_digits rest' whole 0 with
            | (_, O, _) => None
            | (mantissa, S k, rest'') => read_scale negative mantissa (S k) true rest''
            end
          else read_scale negative whole 0 false rest
      | [] => Some (JInt (if negative then - whole else whole), rest)
      end
  end.

(** The characters of a string literal after its opening quote. *)
Fixpoint read_string (l : list ascii) (acc : string) : option (string * list ascii) :=
  match l with
  | [] => None
  | c :: l' =>
      if Ascii.eqb c quote then Some (acc, l')
      else if (nat_of_ascii c <? 32)%nat then None
      else if Ascii.eqb c "\" then
        match l' with
        | e :: l'' =>
            if Ascii.eqb e quote || Ascii.eqb e "\" || Ascii.eqb e "/"
            then read_string l'' (acc +:+ String e EmptyString)
            else if Ascii.eqb e "n"
            then read_string l'' (acc +:+ String "010"%char EmptyString)
            else if Ascii.eqb e "t"
            then read_string l'' (acc +:+ String "009"%char EmptyString)
            else if Ascii.eqb e "r"
            then read_string l'' (acc +:+ String "013"%char EmptyString)
            else None
        | [] => None
        end
      else read_string l' (acc +:+ String c EmptyString)
  end.

(** [d[k] = v] *)
Fixpoint dict_set (k : string) (v : json) (d : list (string * json))
    : list (string * json) :=
  match d with
  | [] => [(k, v)]
  | (k', v') :: d' =>
      if String.eqb k' k then (k, v) :: d' else (k', v') :: dict_set k v d'
  end.

Definition read_word (w : string) (v : json) (l : list ascii)
    : option (json * list ascii) :=
  let n := String.length w in
  if String.eqb (string_of_list_ascii (List.firstn n l)) w
  then Some (v, List.skipn n l) else None.

Fixpoint read_value (fuel : nat) (l : list ascii) {struct fuel}
    : option (json * list ascii) :=
  match fuel with
  | O => None
  | S fuel =>
      match skip_ws l with
      | [] => None
      | c :: rest =>
          if Ascii.eqb c "[" then
            match skip_ws rest with
            | c' :: rest' =>
                if Ascii.eqb c' "]" then Some (JList [], rest')
                else read_items fuel rest []
            | [] => None
            end
          else if Ascii.eqb c "{" then
            match skip_ws rest with
            | c' :: rest' =>
                if Ascii.eqb c' "}" then Some (JDict [], rest')
                else read_members fuel rest []
            | [] => None
            end
          else if Ascii.eqb c quote then
            option_map (fun sr => (JStr (fst sr), snd sr)) (read_string rest "")
          else if Ascii.eqb c "t" then read_word "true" (JBool true) (c :: rest)
          else if Ascii.eqb c "f" then read_word "false" (JBool false) (c :: rest)
          else if Ascii.eqb c "n" then read_word "null" JNull (c :: rest)
          else if Ascii.eqb c "N" then read_word "NaN" (JFloat nan) (c :: rest)
          else read_number (c :: rest)
      end
  end
with read_items (fuel : nat) (l : list ascii) (acc : list json) {struct fuel}
    : option (json * list ascii) :=
  match fuel with
  | O => None
  | S fuel =>
      match read_value fuel l with
      | Some (v, rest) =>
          match skip_ws rest with
          | c :: rest' =>
              if Ascii.eqb c "," then read_items fuel rest' (acc ++ [v])
              else if Ascii.eqb c "]" then Some (JList (acc ++ [v]), rest')
              else None
          | [] => None
          end
      | None => None
      end
  end
with read_members (fuel : nat) (l : list ascii) (acc : list (string * json))
    {struct fuel} : option (json * list ascii) :=
  match fuel with
  | O => None
  | S fuel =>
      match skip_ws l with
      | q :: l' =>
          if Ascii.eqb q quote then
            match read_string l' "" with
            | Some (k, rest) =>
                match skip_ws rest with
                | c :: rest' =>
                    if Ascii.eqb c ":" then
                      match read_value fuel rest' with
                      | Some (v, rest'') =>
                          match skip_ws rest'' with
                          | c' :: rest3 =>
                              if Ascii.eqb c' ","
                              then read_members fuel rest3 (dict_set k v acc)
                              else if Ascii.eqb c' "}"
                              then Some (JDict (dict_set k v acc), rest3)
                              else None
                          | [] => None
                          end
                      | None => None
                      end
                    else None
                | [] => None
                end
            | None => None
            end
          else None
      | [] => None
      end
  end.

(** The value a text of the fragment denotes. *)
Definition read_json (s : string) : option json :=
  match read_value (2 * String.length s + 2) (list_ascii_of_string s) with
  | Some (v, rest) =>
      match skip_ws rest with
      | [] => Some v
      | _ => None
      end
  | None => None
  end.

(** [json.loads] on the fragment: the value read, or a [JSONDecodeError]. *)
Definition json_loads (s : string) : result json :=
  match read_json s with
  | Some v => Ok v
  | None => Raise JSONDecodeError
  end.

(** [float(s)] on an unsigned text. *)
Definition float_of_unsigned (s : string) : option float :=
  let name := PyStr.lower s in
  if String.eqb name "nan" then Some nan
  else if String.eqb name "inf" || String.eqb name "infinity" then Some infinity
  else
    match s with
    | String c _ =>
        if Ascii.eqb c "-" then None
        else
          match read_number (list_ascii_of_string s) with
          | Some (JFloat f, []) => Some f
          | Some (JInt z, []) =>
              match PyNum.float_of_int z with
              | Ok f => Some f
              | Raise _ => None
              end
          | _ => None
          end
    | EmptyString => None
    end.

(** [float(s)] on decimal numerals, ["inf"], ["infinity"] and ["nan"], with
    a sign or without. *)
Definition float_of_str (s : string) : option float :=
  match PyStr.strip s with
  | String c s' =>
      if Ascii.eqb c "-" then option_map PrimFloat.opp (float_of_unsigned s')
      else if Ascii.eqb c "+" then float_of_unsigned s'
      else float_of_unsigned (String c s')
  | EmptyString => None
  end.

(** pydantic's validation of an [Optional[float]] field *)
Definition validate_rating (x : json) : result (option float) :=
  match x with
  | JNull => Ok None
  | JFloat f => Ok (Some f)
  | JBool b => Ok (Some (if b then 1%float else 0%float))
  | JInt z =>
      match PyNum.float_of_int z with
      | Ok f => Ok (Some f)
      | Raise _ => Raise ValidationError
      end
  | JStr s =>
      match float_of_str s with
      | Some f => Ok (Some f)
      | None => Raise ValidationError
      end
  | _ => Raise ValidationError
  end.

Definition field_str (d : list (string * json)) (k : string) : result string :=
  match lookup_key k d with
  | Some (JStr s) => Ok s
  | _ => Raise ValidationError
  end.

Definition ProficiencyLevel_of_value (s : string) : result ProficiencyLevel :=
  if String.eqb s "beginner" then Ok BEGINNER
  else if String.eqb s "intermediate" then Ok INTERMEDIATE
  else if String.eqb s "advanced" then Ok ADVANCED
  else if String.eqb s "expert" then Ok EXPERT
  else Raise ValidationError.

Definition Priority_of_value (s : string) : result Priority :=
  if String.eqb s "critical" then Ok CRITICAL
  else if String.eqb s "important" then Ok IMPORTANT
  else if String.eqb s "nice_to_have" then Ok NICE_TO_HAVE
  else Raise ValidationError.

(** The integer a float stands for, when it is a whole number. *)
Definition int_of_whole_float (f : float) : option Z :=
  match Prim2SF f with
  | S754_zero _ => Some 0
  | S754_finite negative m e =>
      let v := if negative then Z.neg m else Z.pos m in
      if 0 <=? e then Some (v * 2 ^ e)
      else if v mod 2 ^ (- e) =? 0 then Some (v / 2 ^ (- e))
      else None
  | _ => None
  end.

(** pydantic's validation of an [int] field, on a number or a bool. *)
Definition validate_int (x : json) : result Z :=
  match x with
  | JInt z => Ok z
  | JBool b => Ok (if b then 1 else 0)
  | JFloat f =>
      match int_of_whole_float f with
      | Some z => Ok z
      | None => Raise ValidationError
      end
  | _ => Raise ValidationError
  end.

(** The validation of a dict as an [ExistingSkill] *)
Definition validate_ExistingSkill (x : json) : result ExistingSkill :=
  match x with
  | JDict d =>
      let* name := field_str d "skill_name" in
      let* level := field_str d "proficiency_level" in
      let* level := ProficiencyLevel_of_value level in
      let* years :=
        match lookup_key "years_experience" d with
        | Some x => validate_int x
        | None => Raise ValidationError
        end in
      Ok {| existing_skill_name := name; proficiency_level := level;
            years_experience := years |}
  | _ => Raise TypeError
  end.

(** The validation of a dict as a [SkillGap] *)
Definition validate_SkillGap (x : json) : result SkillGap :=
  match x with
  | JDict d =>
      let* name := field_str d "skill_name" in
      let* level := field_str d "required_level" in
      let* level := ProficiencyLevel_of_value level in
      let* p := field_str d "priority" in
      let* p := Priority_of_value p in
      let* start := field_str d "recommended_starting_level" in
      Ok {| skill_name := name; required_level := level; priority := p;
            recommended_starting_level := start |}
  | _ => Raise TypeError
  end.

(** The validation of a dict as a [MarketInsights] *)
Definition validate_MarketInsights (x : json) : result MarketInsights :=
  match x with
  | JDict d =>
      let* demand := field_str d "demand_level" in
      let* findings := Analyzer.validate_str_list (dict_get d "key_findings" (JList [])) in
      let* sources := Analyzer.validate_str_list (dict_get d "data_sources" (JList [])) in
      Ok {| demand_level := demand; key_findings := findings; data_sources := sources |}
  | _ => Raise TypeError
  end.

(** The digest of the examples: the text itself, in place of its SHA-256
    digest. *)
Definition digest (s : string) : string := s.

(** [model_dump_json] for strings that need no escape. *)
Definition dump_str (s : string) : string :=
  String quote s +:+ String quote EmptyString.

Fixpoint dump_list {A : Type} (dump : A -> string) (l : list A) : string :=
  match l with
  | [] => ""
  | [a] => dump a
  | a :: l' => dump a +:+ "," +:+ dump_list dump l'
  end.

Definition dump_array {A : Type} (dump : A -> string) (l : list A) : string :=
  "[" +:+ dump_list dump l +:+ "]".

Definition dump_field (k v : string) : string := dump_str k +:+ ":" +:+ v.

Definition dump_level (l : ProficiencyLevel) : string :=
  dump_str match l with
           | BEGINNER => "beginner" | INTERMEDIATE => "intermediate"
           | ADVANCED => "advanced" | EXPERT => "expert"
           end.

Definition dump_priority (p : Priority) : string :=
  dump_str match p with
           | CRITICAL => "critical" | IMPORTANT => "important"
           | NICE_TO_HAVE => "nice_to_have"
           end.

Definition dump_ExistingSkill (e : ExistingSkill) : string :=
  "{" +:+ dump_field "skill_name" (dump_str (existing_skill_name e)) +:+ "," +:+
  dump_field "proficiency_level" (dump_level (proficiency_level e)) +:+ "," +:+
  dump_field "years_experience" (pretty (years_experience e)) +:+ "}".

Definition dump_SkillGap (g : SkillGap) : string :=
  "{" +:+ dump_field "skill_name" (dump_str (skill_name g)) +:+ "," +:+
  dump_field "required_level" (dump_level (required_level g)) +:+ "," +:+
  dump_field "priority" (dump_priority (priority g)) +:+ "," +:+
  dump_field "recommended_starting_level"
    (dump_str (recommended_starting_level g)) +:+ "}".

Definition dump_MarketInsights (m : MarketInsights) : string :=
  "{" +:+ dump_field "demand_level" (dump_str (demand_level m)) +:+ "," +:+
  dump_field "key_findings" (dump_array dump_str (key_findings m)) +:+ "," +:+
  dump_field "data_sources" (dump_array dump_str (data_sources m)) +:+ "}".

Definition model_dump_json (a : AnalysisResult) : string :=
  "{" +:+ dump_field "existing_skills"
            (dump_array dump_ExistingSkill (existing_skills a)) +:+ "," +:+
  dump_field "skill_gaps" (dump_array dump_SkillGap (skill_gaps a)) +:+ "," +:+
  dump_field "tech_stack" (dump_array dump_str (tech_stack a)) +:+ "," +:+
  dump_field "job_category" (dump_str (job_category a)) +:+ "," +:+
  dump_field "market_insights"
    match market_insights a with
    | Some m => dump_MarketInsights m
    | None => "null"
    end +:+ "}".

(** A list field with [default_factory=list]. *)
Definition field_list (d : list (string * json)) (k : string) : result (list json) :=
  match lookup_key k d with
  | None => Ok []
  | Some (JList l) => Ok l
  | Some _ => Raise ValidationError
  end.

(** The validation of a dict as an [AnalysisResult]. *)
Definition validate_AnalysisResult (d : list (string * json)) : result AnalysisResult :=
  let* existing := field_list d "existing_skills" in
  let* existing := Analyzer.mapM validate_ExistingSkill existing in
  let* gaps := field_list d "skill_gaps" in
  let* gaps := Analyzer.mapM validate_SkillGap gaps in
  let* stack := Analyzer.validate_str_list (dict_get d "tech_stack" (JList [])) in
  let* category := field_str d "job_category" in
  let* insights :=
    match dict_get d "market_insights" JNull with
    | JNull => Ok None
    | mi => let* m := validate_MarketInsights mi in Ok (Some m)
    end in
  Ok {| existing_skills := existing; skill_gaps := gaps; tech_stack := stack;
        job_category := category; market_insights := insights |}.

(** [model_validate_json]: a text that is no JSON object, or whose object
    does not validate, gives a [ValidationError]. *)
Definition model_validate_json (s : string) : result AnalysisResult :=
  match read_json s with
  | Some (JDict d) =>
      match validate_AnalysisResult d with
      | Ok a => Ok a
      | Raise _ => Raise ValidationError
      end
  | _ => Raise ValidationError
  end.

End Reference.

(* ================================================================== *)
(** * The vocabulary of the properties *)
(* ================================================================== *)

(** ** Balanced brace spans *)

Module ExtractorSpec.

(** The change of brace depth a character makes. *)
Definition brace_value (c : ascii) : Z :=
  if Ascii.eqb c "{" then 1 else if Ascii.eqb c "}" then -1 else 0.

(** The brace depth at the end of [s]: opening braces minus closing ones. *)
Fixpoint depth (s : string) : Z :=
  match s with
  | EmptyString => 0
  | String c s' => brace_value c + depth s'
  end.

(** [span] is the balanced brace span of [text]: it starts at the first
    opening brace of [text] and ends where the depth first returns to zero. *)
Definition balanced_span (text span : string) : Prop :=
  exists pre body post,
    text = pre +:+ span +:+ post /\
    PyStr.has_char "{" pre = false /\
    span = String "{" body /\
    depth span = 0 /\
    (forall p q, span = p +:+ q -> p <> "" -> q <> "" -> 0 < depth p).

(** [span] runs from the first opening brace of [text] to its last closing
    brace. *)
Definition first_to_last_span (text span : string) : Prop :=
  exists pre mid post,
    text = pre +:+ span +:+ post /\
    PyStr.has_char "{" pre = false /\
    span = "{" +:+ mid +:+ "}" /\
    PyStr.has_char "}" post = false.

(** The Extractor's failure: a [ValueError]. *)
Definition MalformedOutput (r : result json) : Prop :=
  exists msg, r = Raise (ValueError msg).

(** Starting at depth [bc], the depth first reaches zero at the end of [span]. *)
Definition closes_first (bc : Z) (span : string) : Prop :=
  bc + depth span = 0 /\
  (forall p q, span = p +:+ q -> q <> "" -> 0 < bc + depth p).

End ExtractorSpec.

(** ** Titles and keywords *)

Module AnalyzerSpec.

(** A keyword (in lower case) occurs in the title, whatever the case. *)
Definition title_mentions (keyword title : string) : bool :=
  PyStr.contains keyword (PyStr.lower title).

End AnalyzerSpec.

(** ** Normalized resources *)

Module NormalizerSpec.

(** The item has a title and a url that are strings with something other
    than white space in them. *)
Definition has_title_and_url (item : json) : bool :=
  match item with
  | JDict d =>
      match dict_get d "title" (JStr ""), dict_get d "url" (JStr "") with
      | JStr t, JStr u =>
          negb (PyStr.is_empty (PyStr.strip t)) && negb (PyStr.is_empty (PyStr.strip u))
      | _, _ => false
      end
  | _ => false
  end.

(** The resource type a type string stands for: the member with that
    value, in any case, and [TUTORIAL] when there is none. *)
Definition coerced_type (s : string) (t : ResourceType) : Prop :=
  (ResourceType_value t = PyStr.lower s) \/
  ((forall t', ResourceType_value t' <> PyStr.lower s) /\ t = TUTORIAL).

(** The item gives no value for [k], or a string. *)
Definition absent_or_str (d : list (string * json)) (k : string) : bool :=
  match lookup_key k d with
  | None | Some (JStr _) => true
  | Some _ => false
  end.

(** The fields of a dict item other than its title, url and [is_free]
    convert: those it gives among the type, provider, difficulty and
    description are strings, its rating validates, and its duration is no
    integer beyond the range of a float. *)
Definition other_fields_convert (validate_rating : json -> result (option float))
    (d : list (string * json)) : bool :=
  absent_or_str d "resource_type" && absent_or_str d "provider" &&
  absent_or_str d "difficulty_level" && absent_or_str d "description" &&
  is_Ok (validate_rating (dict_get d "rating" JNull)) &&
  match lookup_key "duration_hours" d with
  | Some (JInt z) => is_Ok (PyNum.float_of_int z)
  | _ => true
  end.

(** [math.isnan(f)] *)
Definition is_NaN (f : float) : bool :=
  match Prim2SF f with
  | S754_nan => true
  | _ => false
  end.

(** The filter predicates, with the duration test as the code makes it:
    the duration is not greater than the maximum. *)
Definition satisfies_filters (filters : ResourceFilters) (r : Resource) : Prop :=
  (free_only filters = true -> is_free r = true) /\
  PyNum.float_gt_int (duration_hours r) (max_duration_hours filters) = false /\
  In (resource_type r) (resource_types filters).

End NormalizerSpec.

(** ** The tiers of a per-skill task *)

Module CuratorSpec.

Section WithCollaborators.

Variable json_loads : string -> result json.
Variable float_of_str : string -> option float.
Variable validate_rating : json -> result (option float).

(** Tier 1 raised, or its session ended without a parsed array. *)
Definition tier1_gave_no_array (outcome : result (option (list json))) : Prop :=
  match outcome with
  | Ok (Some (_ :: _)) => False
  | _ => True
  end.

(** Tier 1 raised, or produced zero usable resources: its session ended
    without a parsed array, or with one that normalizes to the empty list. *)
Definition tier1_gave_nothing (outcome : result (option (list json)))
    (skill_gap : SkillGap) (filters : ResourceFilters) : Prop :=
  match outcome with
  | Ok (Some items) =>
      Curator._convert_to_resources float_of_str validate_rating items
        skill_gap filters = []
  | Ok None => True
  | Raise _ => True
  end.

(** The object the final fallback builds, when it builds one, is a
    [ParallelTaskAPI]. *)
Definition builds_ParallelTaskAPI (new_api : result parallel_api_object) : Prop :=
  forall a, new_api = Ok a ->
    exists api_key found, a = ParallelTaskAPI.instance api_key found.

(** [r] is the static list of a [ParallelTaskAPI], normalized. *)
Definition static_answer (skill_gap : SkillGap) (filters : ResourceFilters)
    (r : list Resource) : Prop :=
  r = Curator._convert_to_resources float_of_str validate_rating
        (ParallelTaskAPI._get_mock_resources (skill_name skill_gap)
           (recommended_starting_level skill_gap))
        skill_gap filters.

(** Tier 2 found nothing usable: the search raised, or its results
    normalize to the empty list. *)
Definition search_gave_nothing (api : parallel_api_object) (skill_gap : SkillGap)
    (filters : ResourceFilters) : Prop :=
  match search_educational_resources api (skill_name skill_gap)
          (recommended_starting_level skill_gap) (free_only filters) 10 with
  | Ok api_results =>
      Curator._convert_to_resources float_of_str validate_rating api_results
        skill_gap filters = []
  | Raise _ => True
  end.

(** The tiers the handler adds to the trace. *)
Definition fallback_suffix (api : option parallel_api_object) (skill_gap : SkillGap)
    (filters : ResourceFilters) (ok : bool) (t : list tier) : Prop :=
  match api with
  | Some a => (ok = true -> In SearchApiTier t) /\
              (In StaticTier t -> search_gave_nothing a skill_gap filters)
  | None => ~ In SearchApiTier t
  end.

End WithCollaborators.

End CuratorSpec.

(** ** Sample data for the concrete runs *)

Module Samples.

(** A candidate resource, and a validation session whose only assistant
    message is a judgement object with the given score and
    ["reasoning": null]. *)
Definition quoted (s : string) : string :=
  String Reference.quote s +:+ String Reference.quote EmptyString.

Definition judgement_text (score : string) : string :=
  "{" +:+ quoted "relevance_score" +:+ ": " +:+ score +:+ ", " +:+
  quoted "reasoning" +:+ ": null}".

Definition answering (text : string) : session :=
  {| ctor := None; connect := None; send_message := None;
     receive_messages :=
       [Message {| role := "assistant"; content := [TextBlock text] |}];
     disconnect := None; disconnect_in_handler := None |}.

Definition react_gap : SkillGap :=
  {| skill_name := "React"; required_level := ADVANCED; priority := CRITICAL;
     recommended_starting_level := "intermediate" |}.

Definition react_course : Resource :=
  {| title := "React Advanced Concepts"; url := "https://example.com/react-advanced";
     provider := "Example"; resource_type := COURSE; difficulty_level := "advanced";
     duration_hours := 20%float; is_free := true; rating := None;
     description := "Advanced React patterns"; tech_stack_match := ["React"] |}.

(** A session whose connection is refused. *)
Definition refused : session :=
  {| ctor := None; connect := Some (ExternalError "connection refused");
     send_message := None; receive_messages := [];
     disconnect := None; disconnect_in_handler := None |}.

(** The same, with a [disconnect()] that raises in the handler too. *)
Definition refused_and_stuck : session :=
  {| ctor := None; connect := Some (ExternalError "connection refused");
     send_message := None; receive_messages := [];
     disconnect := None;
     disconnect_in_handler := Some (ExternalError "disconnect failed") |}.

Definition devops_input : AnalyzerInput :=
  {| ai_resume_text := "3 years Python, Flask, PostgreSQL";
     ai_job_description := "Kubernetes, Terraform, CI/CD";
     ai_target_job_title := "Senior DevOps Engineer" |}.

Definition devops_request : AnalysisRequest :=
  {| resume_text := "3 years Python, Flask, PostgreSQL";
     job_description := "Kubernetes, Terraform, CI/CD";
     target_job_title := "Senior DevOps Engineer";
     filters := Some default_filters |}.

Definition rust_gap : SkillGap :=
  {| skill_name := "Rust"; required_level := INTERMEDIATE; priority := IMPORTANT;
     recommended_starting_level := "beginner" |}.

(** A raw item whose duration is NaN, and the resource built from it. *)
Definition nan_item : json :=
  JDict [ ("title", JStr "Rust in a Weekend"); ("url", JStr "https://example.com/rust");
          ("duration_hours", JFloat nan) ].

Definition nan_resource : Resource :=
  {| title := "Rust in a Weekend"; url := "https://example.com/rust";
     provider := "Unknown"; resource_type := TUTORIAL; difficulty_level := "beginner";
     duration_hours := nan; is_free := true; rating := None; description := "";
     tech_stack_match := ["Rust"] |}.

(** A raw item with a title and a url and nothing else, and the resource
    built from it for [rust_gap]. *)
Definition bare_item : list (string * json) :=
  [ ("title", JStr " The Rust Book "); ("url", JStr "https://doc.rust-lang.org/book/") ].

Definition bare_resource : Resource :=
  {| title := "The Rust Book"; url := "https://doc.rust-lang.org/book/";
     provider := "Unknown"; resource_type := TUTORIAL; difficulty_level := "beginner";
     duration_hours := 10%float; is_free := true; rating := None; description := "";
     tech_stack_match := ["Rust"] |}.

(** An Orchestrator with the cache and the Judge enabled, and an
    environment in which no agent can be reached. *)
Definition cached_config : Orchestrator.config :=
  {| Orchestrator.enable_judge := true; Orchestrator.enable_cache := true;
     Orchestrator.relevance_threshold := 0.7%float;
     Orchestrator.validate_top_n := 5 |}.

Definition fresh : Orchestrator.state :=
  {| Orchestrator.redis := ∅; Orchestrator.analyzer_has_client := false;
     Orchestrator.jobs := ∅; Orchestrator.analyzer_runs := 0 |}.

Definition offline (id : string) : Orchestrator.environment :=
  {| Orchestrator.uuid4 := id;
     Orchestrator.redis_get := None; Orchestrator.redis_setex := None;
     Orchestrator.analyzer_session := refused;
     Orchestrator.curator_task := fun _ _ => Ok [];
     Orchestrator.judge_session := fun _ _ => refused |}.

Definition run (st : Orchestrator.state) (w : Orchestrator.environment)
    (request : AnalysisRequest) : AnalysisResponse * Orchestrator.state :=
  Orchestrator.process_request Reference.json_loads Reference.validate_ExistingSkill
    Reference.validate_SkillGap Reference.validate_MarketInsights Reference.digest
    Reference.model_dump_json Reference.model_validate_json cached_config st w request.

End Samples.

(* ================================================================== *)
(** * More of the code *)
(* ================================================================== *)

(** The functions of the cited files that the parts above leave out, the
    job-status route that reads the Orchestrator's job table, and the
    configuration helper every agent calls at construction. *)

(** ** More of Python's [str] *)

Module PyText.

(** [s.split(sep)] for a one-character separator: the pieces between the
    occurrences of [sep], so at least one piece. *)
Fixpoint split (sep : ascii) (s : string) : list string :=
  match s with
  | EmptyString => [EmptyString]
  | String c s' =>
      if Ascii.eqb c sep then EmptyString :: split sep s'
      else
        match split sep s' with
        | piece :: pieces => String c piece :: pieces
        | [] => [String c EmptyString]
        end
  end.

(** [sep.join(pieces)] *)
Fixpoint join (sep : string) (pieces : list string) : string :=
  match pieces with
  | [] => EmptyString
  | [piece] => piece
  | piece :: rest => piece +:+ sep +:+ join sep rest
  end.

(** The line feed, and the one-character string ["\n"]. *)
Definition LF : ascii := "010"%char.
Definition newline : string := String LF EmptyString.

(** Every character of [s] is white space ([s.strip()] is empty). *)
Fixpoint blank (s : string) : bool :=
  match s with
  | EmptyString => true
  | String c s' => PyStr.is_space c && blank s'
  end.

End PyText.

(** ** The Analyzer's strict reader ([src/agents/analyzer.py]) *)

Module AnalyzerParser.

Section WithJson.

Variable json_loads : string -> result json.

(** [_parse_response]: the whole fence-stripped response goes to
    [json.loads]; a [JSONDecodeError] becomes a [ValueError] (whose message
    ends with the decoder's own, left out here). *)
Definition _parse_response (response : string) : result json :=
  Analyzer.except_JSONDecodeError "Invalid JSON response from LLM"
    (json_loads (strip_fences response)).

End WithJson.

End AnalyzerParser.

(** ** The search half of the search client ([src/integrations/parallel_api.py]) *)

Module SearchClient.

(** The [title] of a result object of the search SDK, as the client reads
    it: the attribute is missing, is [None], or is a string. *)
Inductive title_attribute : Type :=
| NoTitle
| TitleNone
| Title (s : string).

(** The [excerpts] of a result object: missing or falsy, a non-empty list
    of strings, or another truthy value, given by [str(result.excerpts)]. *)
Inductive excerpts_attribute : Type :=
| NoExcerpts
| ExcerptList (first : string) (others : list string)
| ExcerptOther (text : string).

Record search_result : Type := {
  result_title : title_attribute;
  result_url : option string;        (* None: no attribute, or None *)
  result_excerpts : excerpts_attribute
}.

(** [_extract_description] *)
Definition _extract_description (r : search_result) : string :=
  let described (excerpt : string) :=
    let excerpt :=
      if PyStr.contains "Last updated" excerpt then
        let lines := PyText.split PyText.LF excerpt in
        if (1 <? length lines)%nat then PyText.join PyText.newline (tl lines)
        else excerpt
      else excerpt in
    PyStr.firstn 500 (PyStr.strip excerpt) in
  match result_excerpts r with
  | ExcerptList first _ => described first
  | ExcerptOther text => described text
  | NoExcerpts =>
      let title :=
        match result_title r with
        | NoTitle => "topic"
        | TitleNone => "None"
        | Title s => s
        end in
      "Resource about " +:+ title
  end.

(** [_extract_provider] *)
Definition _extract_provider (url : string) : string :=
  if PyStr.contains "udemy.com" url then "Udemy"
  else if PyStr.contains "coursera.org" url then "Coursera"
  else if PyStr.contains "youtube.com" url || PyStr.contains "youtu.be" url then "YouTube"
  else if PyStr.contains "freecodecamp.org" url then "freeCodeCamp"
  else if PyStr.contains "github.com" url then "GitHub"
  else if PyStr.contains "stackoverflow.com" url then "Stack Overflow"
  else if PyStr.contains "docs." url || PyStr.contains "/docs" url
          || PyStr.contains "/documentation" url then "Documentation"
  else if PyStr.contains "medium.com" url then "Medium"
  else if PyStr.contains "dev.to" url then "Dev.to"
  else if PyStr.contains "linkedin.com" url then "LinkedIn Learning"
  else if PyStr.contains "pluralsight.com" url then "Pluralsight"
  else if PyStr.contains "educative.io" url then "Educative"
  else "Web".

(** [any(word in title_lower for word in words)] *)
Definition any_word (words : list string) (title_lower : string) : bool :=
  existsb (fun word => PyStr.contains word title_lower) words.

(** [_infer_type] *)
Definition _infer_type (title : string) : string :=
  let title_lower := PyStr.lower title in
  if any_word ["course"; "complete"; "master"] title_lower then "course"
  else if any_word ["tutorial"; "guide"; "how to"; "learn"] title_lower then "tutorial"
  else if any_word ["doc"; "reference"; "api"] title_lower then "documentation"
  else if any_word ["video"; "youtube"] title_lower then "video"
  else "article".

(** The dict built for one result whose url is [url]:
[[
    resource = {
        "title": result.title if hasattr(result, 'title') else "Unknown Resource",
        "url": result.url,
        "description": description,
        "provider": self._extract_provider(result.url),
        "type": self._infer_type(result.title if hasattr(result, 'title') else ""),
        ...
    }
]]
    A title that is [None] has no [lower] method. *)
Definition resource_of (r : search_result) (url : string) : result json :=
  let description := _extract_description r in
  let title :=
    match result_title r with
    | NoTitle => JStr "Unknown Resource"
    | TitleNone => JNull
    | Title s => JStr s
    end in
  let provider := _extract_provider url in
  let* type :=
    match result_title r with
    | NoTitle => Ok (_infer_type "")
    | TitleNone => Raise AttributeError
    | Title s => Ok (_infer_type s)
    end in
  Ok (JDict [ ("title", title); ("url", JStr url);
              ("description", JStr description); ("provider", JStr provider);
              ("type", JStr type); ("difficulty", JStr "intermediate");
              ("is_free", JBool true);
              ("reasoning", JStr "Search result ranked by relevance");
              ("confidence", JFloat 0.85) ]).

(** The loop over [search_results]; a result without a url is skipped. *)
Fixpoint resources_of (search_results : list search_result) : result (list json) :=
  match search_results with
  | [] => Ok []
  | r :: rest =>
      match result_url r with
      | None => resources_of rest
      | Some url =>
          if PyStr.is_empty url then resources_of rest
          else
            let* resource := resource_of r url in
            let* resources := resources_of rest in
            Ok (resource :: resources)
      end
  end.

(** [_search_resources]; [sdk] is the outcome of [self.client.beta.search(..)]
    followed by the reading of its [results].  Every exception gives [[]]. *)
Definition _search_resources (sdk : result (list search_result)) : list json :=
  match (let* search_results := sdk in resources_of search_results) with
  | Ok resources => resources
  | Raise _ => []
  end.

(** [search_educational_resources], with the search it makes. *)
Definition search (api_key : string) (sdk : result (list search_result))
    (skill level : string) (free_only : bool) (max_results : Z) : list json :=
  ParallelTaskAPI.search_educational_resources api_key (_search_resources sdk)
    skill level free_only max_results.

End SearchClient.

(** ** Cache maintenance ([src/integrations/redis_cache.py]) *)

Module RedisCacheAdmin.

(** The keys [scan_iter(match="skill_analysis:*")] yields: the pattern
    holds no other glob character than the final star. *)
Definition in_namespace (key : string) : bool :=
  PyStr.startswith "skill_analysis:" key.

Section WithDigest.

Variable sha256_hexdigest : string -> string.

(** [invalidate]; the value is the database afterwards, [client_delete]
    the outcome of the [DEL] command. *)
Definition invalidate (store : gmap string string) (client_delete : option exn)
    (resume_text job_description : string) : gmap string string :=
  let cache_key := RedisCache._generate_cache_key sha256_hexdigest resume_text
                     job_description in
  match call client_delete with
  | Raise _ => store
  | Ok _ => delete cache_key store
  end.

End WithDigest.

(** [clear_all]: the keys are collected first, then deleted by one [DEL];
    [client_scan] and [client_delete] are the outcomes of the two commands. *)
Definition clear_all (store : gmap string string) (client_scan client_delete : option exn)
    : gmap string string :=
  match call client_scan with
  | Raise _ => store
  | Ok _ =>
      let keys := List.filter in_namespace (elements (dom store)) in
      match keys with
      | [] => store
      | _ =>
          match call client_delete with
          | Raise _ => store
          | Ok _ => foldr delete store keys
          end
      end
  end.

(** [health_check] *)
Definition health_check (client_ping : option exn) : bool :=
  match call client_ping with
  | Ok _ => true
  | Raise _ => false
  end.

End RedisCacheAdmin.

(** ** The job table ([src/agents/orchestrator.py]) *)

Module JobTable.

(** [get_status]: [self.jobs.get(job_id)] *)
Definition get_status (st : Orchestrator.state) (job_id : string)
    : option AnalysisResponse :=
  Orchestrator.jobs st !! job_id.

End JobTable.

(** ** The performance counters ([src/agents/orchestrator.py]) *)

Module Metrics.

(** [self.performance_metrics], by its six counters. *)
Record performance_metrics : Type := {
  searches_performed : nat;      (* ["analyzer"]["searches_performed"] *)
  insights_generated : nat;      (* ["analyzer"]["insights_generated"] *)
  resources_found : nat;         (* ["curator"]["resources_found"] *)
  resources_validated : nat;     (* ["curator"]["resources_validated"] *)
  tests_executed : nat;          (* ["judge"]["tests_executed"] *)
  resources_approved : nat       (* ["judge"]["resources_approved"] *)
}.

(** The counters [__init__] sets. *)
Definition initial : performance_metrics :=
  {| searches_performed := 0; insights_generated := 0; resources_found := 0;
     resources_validated := 0; tests_executed := 0; resources_approved := 0 |}.

(** [sum(len(r) for r in curated_resources.values())] *)
Definition total_resources (curated_resources : gmap string (list Resource)) : nat :=
  map_fold (fun _ resources total => (total + length resources)%nat) 0%nat
    curated_resources.

Section WithJson.

Variable json_loads : string -> result json.

(** What the loop of phase 3 adds to [resources_approved]: [len(validated)]
    for every skill whose list is not empty and whose skill gap is found. *)
Definition approved_in_phase (c : Orchestrator.config) (w : Orchestrator.environment)
    (analysis_result : AnalysisResult)
    (curated_resources : gmap string (list Resource)) : nat :=
  map_fold
    (fun name resources total =>
       (total +
        match resources with
        | [] => 0
        | _ =>
            match Orchestrator.find_gap (skill_gaps analysis_result) name with
            | Some skill_gap =>
                length (Judge.validate_resources json_loads
                          (Orchestrator.relevance_threshold c)
                          (Orchestrator.validate_top_n c)
                          (Orchestrator.judge_session w name) skill_gap resources)
            | None => 0
            end
        end)%nat)
    0%nat curated_resources.

(** The counters after [process_request], from the counters before it and
    the analysis the request obtained ([None] when the Analyzer raised):
[[
    self.performance_metrics["analyzer"]["searches_performed"] += 1
    if analysis_result.market_insights:
        self.performance_metrics["analyzer"]["insights_generated"] += 1
    ...
    self.performance_metrics["curator"]["resources_found"] += total_curated
    ...   # phase 3, when the Judge is enabled
    self.performance_metrics["judge"]["resources_approved"] += approved
    self.performance_metrics["curator"]["resources_validated"] += sum(len(r) ..)
]] *)
Definition count_request (c : Orchestrator.config) (w : Orchestrator.environment)
    (request : AnalysisRequest) (obtained : option AnalysisResult)
    (m : performance_metrics) : performance_metrics :=
  match obtained with
  | None => m
  | Some analysis_result =>
      let m :=
        {| searches_performed := S (searches_performed m);
           insights_generated :=
             match market_insights analysis_result with
             | Some _ => S (insights_generated m)
             | None => insights_generated m
             end;
           resources_found := resources_found m;
           resources_validated := resources_validated m;
           tests_executed := tests_executed m;
           resources_approved := resources_approved m |} in
      match Curator.curate_resources (Orchestrator.curator_task w)
              (skill_gaps analysis_result) (tech_stack analysis_result)
              (filters request) with
      | Raise _ => m
      | Ok curated_resources =>
          let m :=
            {| searches_performed := searches_performed m;
               insights_generated := insights_generated m;
               resources_found :=
                 (resources_found m + total_resources curated_resources)%nat;
               resources_validated := resources_validated m;
               tests_executed := tests_executed m;
               resources_approved := resources_approved m |} in
          if Orchestrator.enable_judge c then
            {| searches_performed := searches_performed m;
               insights_generated := insights_generated m;
               resources_found := resources_found m;
               resources_validated :=
                 (resources_validated m +
                  total_resources
                    (Orchestrator.judge_phase json_loads c w analysis_result
                       curated_resources))%nat;
               tests_executed := tests_executed m;
               resources_approved :=
                 (resources_approved m +
                  approved_in_phase c w analysis_result curated_resources)%nat |}
          else m
      end
  end.

End WithJson.

End Metrics.

(** ** The job-status route ([src/api/routes.py]) *)

Module Routes.

(** [HTTPException(status_code=.., detail=..)] *)
Record HTTPException : Type := {
  status_code : Z;
  detail : string
}.

Record StatusResponse : Type := {
  response_job_id : string;
  response_status : AnalysisStatus;
  progress : option float;
  message : option string;
  result_ : option AnalysisResponse
}.

(** The attributes of an [OrchestratorAgent]: those [__init__] sets and the
    methods of the class. *)
Definition OrchestratorAgent_attributes : list string :=
  [ "config"; "api_key"; "analyzer"; "curator"; "judge"; "redis_cache";
    "enable_judge"; "enable_cache"; "min_quality_resources"; "logger";
    "performance_metrics"; "jobs";
    "process_request"; "_run_analyzer"; "_learn_from_execution";
    "get_status"; "get_performance_metrics" ].

(** [orchestrator.<name>]: the attribute lookup, which raises
    [AttributeError] for a name the object does not have. *)
Definition getattr (name : string) : result unit :=
  if existsb (String.eqb name) OrchestratorAgent_attributes then Ok tt
  else Raise AttributeError.

(** The progress shown for a status. *)
Definition progress_of (s : AnalysisStatus) : option float :=
  match s with
  | IN_PROGRESS => Some 50%float
  | COMPLETED => Some 100%float
  | FAILED => Some 0%float
  | PENDING => None
  end.

(** [get_job_status].  The route calls [orchestrator.get_job_status(job_id)];
    [found] is what that call returns when the attribute exists.  An
    [HTTPException] raised in the body is re-raised, any other exception
    becomes a 500 whose detail ends with the exception's text. *)
Definition get_job_status (found : option AnalysisResponse) (job_id : string)
    : StatusResponse + HTTPException :=
  match getattr "get_job_status" with
  | Raise _ =>
      inr {| status_code := 500;
             detail := "Failed to get status: 'OrchestratorAgent' object has no attribute 'get_job_status'" |}
  | Ok _ =>
      match found with
      | None =>
          inr {| status_code := 404; detail := "Job " +:+ job_id +:+ " not found" |}
      | Some result =>
          inl {| response_job_id := job_id;
                 response_status := status result;
                 progress := progress_of (status result);
                 message :=
                   match error_message result with
                   | Some m => if PyStr.is_empty m then None else Some m
                   | None => None
                   end;
                 result_ :=
                   match status result with
                   | COMPLETED => Some result
                   | _ => None
                   end |}
      end
  end.

End Routes.

(** ** The configuration helper ([src/utils/config.py]) *)

Module Config.

(** [f"{parent_key}{sep}{k}" if parent_key else k] *)
Definition new_key (parent_key sep k : string) : string :=
  if PyStr.is_empty parent_key then k else parent_key +:+ sep +:+ k.

(** The list [items] of [_flatten_dict(d, parent_key, sep)], for a dict
    with string keys given by its items in order. *)
Fixpoint flatten_value (v : json) (key sep : string) : list (string * json) :=
  match v with
  | JDict d =>
      (fix flatten_items (d : list (string * json)) : list (string * json) :=
         match d with
         | [] => []
         | (k, v') :: rest =>
             flatten_value v' (new_key key sep k) sep ++ flatten_items rest
         end) d
  | _ => [(key, v)]
  end.

Fixpoint flatten_items (d : list (string * json)) (parent_key sep : string)
    : list (string * json) :=
  match d with
  | [] => []
  | (k, v) :: rest =>
      flatten_value v (new_key parent_key sep k) sep ++ flatten_items rest parent_key sep
  end.

(** [_flatten_dict]: [dict(items)], in which a later item replaces an
    earlier one of the same key. *)
Definition _flatten_dict (d : list (string * json)) (parent_key sep : string)
    : gmap string json :=
  list_to_map (reverse (flatten_items d parent_key sep)).

End Config.


(** ** The vocabulary of the further properties *)

Module SearchSpec.

(** The result has a url the client keeps: a non-empty string. *)
Definition usable (r : SearchClient.search_result) : bool :=
  match SearchClient.result_url r with
  | Some url => negb (PyStr.is_empty url)
  | None => false
  end.

(** The result has a [title] attribute that is [None]. *)
Definition untitled (r : SearchClient.search_result) : bool :=
  match SearchClient.result_title r with
  | SearchClient.TitleNone => true
  | _ => false
  end.

(** What the Normalizer makes of an item that has none of the keys
    [resource_type], [duration_hours] and [difficulty_level]. *)
Definition plain_tutorial (skill_gap : SkillGap) (r : Resource) : Prop :=
  resource_type r = TUTORIAL /\
  duration_hours r = 10%float /\
  difficulty_level r = recommended_starting_level skill_gap.

End SearchSpec.

Module JudgeSpec.

(** The resources of a list whose position, counted from [i], is kept. *)
Fixpoint kept (keep : nat -> bool) (i : nat) (resources : list Resource)
    : list Resource :=
  match resources with
  | [] => []
  | resource :: rest =>
      if keep i then resource :: kept keep (S i) rest else kept keep (S i) rest
  end.

Section WithJson.

Variable json_loads : string -> result json.

(** The validator's session ends with a judgement object whose
    [relevance_score] is the float [score] and whose [reasoning], when it
    has one, is a string. *)
Definition clean_verdict (s : session) (score : float) : Prop :=
  exists d,
    Judge._autonomous_validate json_loads s = Ok (Some (JDict d)) /\
    lookup_key "relevance_score" d = Some (JFloat score) /\
    (lookup_key "reasoning" d = None \/
     exists t, lookup_key "reasoning" d = Some (JStr t)).

(** The validator's session gives no judgement: it raises, or it ends
    without one. *)
Definition inconclusive (s : session) : Prop :=
  (exists e, Judge._autonomous_validate json_loads s = Raise e) \/
  Judge._autonomous_validate json_loads s = Ok None.

End WithJson.

End JudgeSpec.

Module JobSpec.

(** The Analyzer's input for a request, as [_run_analyzer] builds it. *)
Definition analyzer_input (request : AnalysisRequest) : AnalyzerInput :=
  {| ai_resume_text := resume_text request;
     ai_job_description := job_description request;
     ai_target_job_title := target_job_title request |}.

End JobSpec.

Module ConfigSpec.

Definition is_dict (v : json) : bool :=
  match v with JDict _ => true | _ => false end.

(** The key of a nested entry: the keys on the way to it, joined. *)
Fixpoint key_of (parent_key sep : string) (path : list string) : string :=
  match path with
  | [] => parent_key
  | k :: rest => key_of (Config.new_key parent_key sep k) sep rest
  end.

(** [v] is a value that is not a dict, found in [d] by following [path]
    through nested dicts. *)
Fixpoint leaf_at (path : list string) (d : list (string * json)) (v : json) : Prop :=
  match path with
  | [] => False
  | k :: rest =>
      (rest = [] /\ In (k, v) d /\ is_dict v = false) \/
      (exists d', In (k, JDict d') d /\ leaf_at rest d' v)
  end.

End ConfigSpec.

(** ** Sample data for the further runs *)

Module MoreSamples.

Import Samples.

(** A judgement with a score and a reasoning that is a string. *)
Definition verdict_text (score : string) : string :=
  "{" +:+ quoted "relevance_score" +:+ ": " +:+ score +:+ ", " +:+
  quoted "reasoning" +:+ ": " +:+ quoted "tested two examples" +:+ "}".

(** The validators' sessions: 0.9 for the first resource, 0.3 for the
    others. *)
Definition verdict_sessions (i : nat) : session :=
  answering (verdict_text (if Nat.eqb i 0 then "0.9" else "0.3")).

Definition verdict_scores (i : nat) : float :=
  if Nat.eqb i 0 then 0.9%float else 0.3%float.

Definition html_course : Resource :=
  {| title := "Intro to HTML"; url := "https://example.com/html";
     provider := "Example"; resource_type := TUTORIAL;
     difficulty_level := "beginner"; duration_hours := 5%float; is_free := true;
     rating := None; description := "Learn HTML basics"; tech_stack_match := [] |}.

(** Two results of a search: one with a title and excerpts, one whose
    title is [None]. *)
Definition titled_result : SearchClient.search_result :=
  {| SearchClient.result_title := SearchClient.Title "The Rust Book - Complete Guide";
     SearchClient.result_url := Some "https://doc.rust-lang.org/book/";
     SearchClient.result_excerpts :=
       SearchClient.ExcerptList
         ("Section 1" +:+ PyText.newline +:+ "Ownership. Last updated: 2024")
         [] |}.

Definition untitled_result : SearchClient.search_result :=
  {| SearchClient.result_title := SearchClient.TitleNone;
     SearchClient.result_url := Some "https://example.com/rust";
     SearchClient.result_excerpts := SearchClient.NoExcerpts |}.

(** A parsed analysis that has a single skill gap and nothing else. *)
Definition gap_only : list (string * json) :=
  [ ("skill_gaps",
     JList [ JDict [ ("skill_name", JStr "Rust");
                     ("required_level", JStr "intermediate");
                     ("priority", JStr "important");
                     ("recommended_starting_level", JStr "beginner") ] ]) ].

(** A nested configuration in which two paths give the same joined key. *)
Definition nested_config : list (string * json) :=
  [ ("redis", JDict [("host", JStr "cache"); ("port", JInt 6380)]);
    ("redis_host", JStr "localhost");
    ("debug", JBool true) ].

End MoreSamples.

(* ================================================================== *)
(** * Properties *)
(* ================================================================== *)

(** ** Facts about the string operations *)

Module PyStrFacts.

Import PyStr.

#[local] Arguments String.append : simpl nomatch.

Lemma append_nil_r (s : string) : s +:+ "" = s.
Proof. induction s as [|c s IH]; simpl; [reflexivity | now rewrite IH]. Qed.

Lemma append_assoc (a b c : string) : (a +:+ b) +:+ c = a +:+ (b +:+ c).
Proof. induction a as [|x a IH]; simpl; [reflexivity | now rewrite IH]. Qed.

Lemma length_append (a b : string) :
  String.length (a +:+ b) = (String.length a + String.length b)%nat.
Proof. induction a as [|x a IH]; simpl; [reflexivity | now rewrite IH]. Qed.

Lemma skipn_append (a b : string) : skipn (String.length a) (a +:+ b) = b.
Proof. induction a as [|x a IH]; simpl; [now destruct b | exact IH]. Qed.

Lemma firstn_append (a b : string) (n : nat) :
  firstn (String.length a + n) (a +:+ b) = a +:+ firstn n b.
Proof. induction a as [|x a IH]; simpl; [reflexivity | now rewrite IH]. Qed.

Lemma firstn_append_exact (a b : string) : firstn (String.length a) (a +:+ b) = a.
Proof.
  replace (String.length a) with (String.length a + 0)%nat by lia.
  rewrite firstn_append. destruct b; simpl; apply append_nil_r.
Qed.

Lemma firstn_nonempty (n : nat) (s : string) :
  s <> "" -> firstn (S n) s <> "".
Proof. destruct s; simpl; congruence. Qed.

Lemma has_char_append (c : ascii) (a b : string) :
  has_char c (a +:+ b) = has_char c a || has_char c b.
Proof.
  induction a as [|x a IH]; simpl; [reflexivity|].
  rewrite IH. now rewrite orb_assoc.
Qed.

Lemma has_char_split (c : ascii) (s : string) :
  has_char c s = true ->
  exists pre rest, s = pre +:+ String c rest /\ has_char c pre = false.
Proof.
  induction s as [|x s IH]; simpl; [discriminate|].
  destruct (Ascii.eqb_spec x c) as [->|Hne]; simpl.
  - intros _. now exists "", s.
  - intros H. destruct (IH H) as (pre & rest & -> & Hpre).
    exists (String x pre), rest. simpl. split; [reflexivity|].
    rewrite Hpre. destruct (Ascii.eqb_spec x c); [contradiction | reflexivity].
Qed.

Lemma find_from_first (c : ascii) (pre rest : string) (i : Z) :
  has_char c pre = false ->
  find_from c (pre +:+ String c rest) i = i + Z.of_nat (String.length pre).
Proof.
  revert i. induction pre as [|x pre IH]; simpl; intros i H.
  - rewrite Ascii.eqb_refl. lia.
  - apply orb_false_iff in H as [Hx Hpre]. rewrite Hx, (IH _ Hpre). lia.
Qed.

Lemma rfind_from_append (c : ascii) (a b : string) (i last : Z) :
  rfind_from c (a +:+ b) i last =
  rfind_from c b (i + Z.of_nat (String.length a)) (rfind_from c a i last).
Proof.
  revert i last. induction a as [|x a IH]; simpl; intros i last.
  - f_equal. lia.
  - rewrite IH. f_equal. lia.
Qed.

Lemma rfind_from_absent (c : ascii) (s : string) (i last : Z) :
  has_char c s = false -> rfind_from c s i last = last.
Proof.
  revert i last. induction s as [|x s IH]; simpl; intros i last H; [reflexivity|].
  apply orb_false_iff in H as [Hx Hs]. now rewrite Hx, IH.
Qed.

Lemma rfind_from_present (c : ascii) (s : string) (i last : Z) :
  has_char c s = true ->
  exists k : nat, (k < String.length s)%nat /\ rfind_from c s i last = i + Z.of_nat k.
Proof.
  revert i last. induction s as [|x s IH]; simpl; intros i last H; [discriminate|].
  destruct (has_char c s) eqn:Hs.
  - destruct (IH (i + 1) (if Ascii.eqb x c then i else last) eq_refl) as (k & Hk & ->).
    exists (S k). split; lia.
  - rewrite orb_false_r in H. rewrite H, rfind_from_absent by assumption.
    exists 0%nat. split; lia.
Qed.

(** The stripping and slicing operations only remove characters. *)

Lemma has_char_split_last (c : ascii) (s : string) :
  has_char c s = true ->
  exists mid post, s = mid +:+ String c post /\ has_char c post = false.
Proof.
  induction s as [|x s IH]; simpl; [discriminate|].
  destruct (has_char c s) eqn:Hs.
  - intros _. destruct (IH eq_refl) as (mid & post & -> & Hpost).
    now exists (String x mid), post.
  - rewrite orb_false_r. intros Hx. apply Ascii.eqb_eq in Hx as ->.
    now exists "", s.
Qed.

Lemma rfind_lt_length (c : ascii) (s : string) :
  rfind c s < Z.of_nat (String.length s).
Proof.
  unfold rfind. destruct (has_char c s) eqn:E.
  - destruct (rfind_from_present c s 0 (-1) E) as (k & Hk & ->). lia.
  - rewrite rfind_from_absent by assumption. lia.
Qed.

Lemma has_char_lstrip (c : ascii) (s : string) :
  has_char c (lstrip s) = true -> has_char c s = true.
Proof.
  induction s as [|x s IH]; simpl; [trivial|].
  destruct (is_space x); simpl; [|trivial].
  intros H. rewrite (IH H). apply orb_true_r.
Qed.

Lemma has_char_rstrip (c : ascii) (s : string) :
  has_char c (rstrip s) = true -> has_char c s = true.
Proof.
  induction s as [|x s IH]; simpl; [trivial|].
  destruct (is_space x && is_empty (rstrip s)); simpl; [discriminate|].
  destruct (Ascii.eqb x c); simpl; [trivial | exact IH].
Qed.

Lemma has_char_strip (c : ascii) (s : string) :
  has_char c (strip s) = true -> has_char c s = true.
Proof. intros H. now apply has_char_lstrip, has_char_rstrip. Qed.

Lemma has_char_skipn (c : ascii) (n : nat) (s : string) :
  has_char c (skipn n s) = true -> has_char c s = true.
Proof.
  revert s. induction n as [|n IH]; intros [|x s]; simpl; trivial.
  intros H. rewrite (IH _ H). apply orb_true_r.
Qed.

Lemma has_char_firstn (c : ascii) (n : nat) (s : string) :
  has_char c (firstn n s) = true -> has_char c s = true.
Proof.
  revert s. induction n as [|n IH]; intros [|x s]; simpl; trivial; try discriminate.
  destruct (Ascii.eqb x c); simpl; [trivial | apply IH].
Qed.

Lemma has_char_strip_fences (c : ascii) (s : string) :
  has_char c (strip_fences s) = true -> has_char c s = true.
Proof.
  unfold strip_fences, drop_last. intros H.
  apply has_char_strip in H.
  repeat match type of H with
  | context [if ?b then _ else _] => destruct b
  end;
  repeat first [ apply has_char_firstn in H | apply has_char_skipn in H ];
  now apply has_char_strip in H.
Qed.

End PyStrFacts.

(** ** The Structured-Output Extractor *)


Module ExtractorFacts.

Import PyStr PyStrFacts ExtractorSpec.

#[local] Arguments String.append : simpl nomatch.

Lemma gtb_true (a b : Z) : b < a -> (a >? b) = true.
Proof. intros H. rewrite Z.gtb_ltb. now apply Z.ltb_lt. Qed.

Lemma gtb_false (a b : Z) : a <= b -> (a >? b) = false.
Proof. intros H. rewrite Z.gtb_ltb. now apply Z.ltb_ge. Qed.

Lemma closes_first_tail (bc : Z) (c : ascii) (s : string) :
  closes_first bc (String c s) -> s <> "" ->
  closes_first (bc + brace_value c) s.
Proof.
  intros [Hd Hp] Hs. split.
  - simpl in Hd. lia.
  - intros p q -> Hq.
    specialize (Hp (String c p) q eq_refl Hq). simpl in Hp. lia.
Qed.

Lemma closes_first_single (bc : Z) (c : ascii) (s : string) :
  closes_first bc (String c s) -> bc + brace_value c = 0 -> s = "".
Proof.
  intros [_ Hp] H0. destruct s as [|x s]; [reflexivity|].
  specialize (Hp (String c "") (String x s) eq_refl ltac:(discriminate)).
  simpl in Hp. lia.
Qed.

Lemma closes_first_positive (bc : Z) (c : ascii) (s : string) :
  closes_first bc (String c s) -> 0 < bc.
Proof.
  intros [_ Hp].
  specialize (Hp "" (String c s) eq_refl ltac:(discriminate)). simpl in Hp. lia.
Qed.

Lemma brace_value_open : brace_value "{" = 1.
Proof. reflexivity. Qed.

Lemma brace_value_cases (c : ascii) :
  (c = "{"%char /\ brace_value c = 1) \/
  (c = "}"%char /\ brace_value c = -1) \/
  (Ascii.eqb c "{" = false /\ Ascii.eqb c "}" = false /\ brace_value c = 0).
Proof.
  unfold brace_value.
  destruct (Ascii.eqb_spec c "{") as [->|H1]; [now left|].
  destruct (Ascii.eqb_spec c "}") as [->|H2]; [right; now left|].
  right; right. repeat split.
Qed.

(** The loop returns the end of the span on which the depth first closes. *)
Lemma matching_brace_complete (span post : string) (i bc : Z) :
  span <> "" -> closes_first bc span ->
  Analyzer.matching_brace (span +:+ post) i bc = i + Z.of_nat (String.length span).
Proof.
  revert i bc. induction span as [|c s IH]; intros i bc Hne Hc; [congruence|].
  pose proof (closes_first_positive _ _ _ Hc) as Hpos.
  simpl.
  destruct (brace_value_cases c) as [[-> Hv]|[[-> Hv]|(H1 & H2 & Hv)]].
  - destruct s as [|x s].
    + destruct Hc as [Hd _]. simpl in Hd. lia.
    + simpl Ascii.eqb. cbv iota.
      rewrite IH; [ | discriminate | ].
      * simpl String.length. lia.
      * apply (closes_first_tail _ _ _ Hc). discriminate.
  - simpl Ascii.eqb. cbv iota.
    destruct (Z.eqb_spec (bc - 1) 0) as [H0|H0].
    + rewrite (closes_first_single _ _ _ Hc); [simpl; lia | rewrite Hv; lia].
    + destruct s as [|x s].
      * destruct Hc as [Hd _]. simpl in Hd. unfold brace_value in Hd. simpl in Hd. lia.
      * rewrite IH; [ | discriminate | ].
        -- simpl String.length. lia.
        -- replace (bc - 1) with (bc + brace_value "}") by (rewrite Hv; lia).
           apply (closes_first_tail _ _ _ Hc). discriminate.
  - rewrite H1, H2.
    destruct s as [|x s].
    + destruct Hc as [Hd _]. simpl in Hd. lia.
    + rewrite IH; [ | discriminate | ].
      * simpl String.length. lia.
      * replace bc with (bc + brace_value c) at 1 by lia.
        apply (closes_first_tail _ _ _ Hc). discriminate.
Qed.

Lemma closes_first_cons (bc : Z) (c : ascii) (s : string) :
  0 < bc -> closes_first (bc + brace_value c) s -> s <> "" ->
  closes_first bc (String c s).
Proof.
  intros Hpos [Hd Hp] Hs. split.
  - simpl. lia.
  - intros [|x p] q Heq Hq.
    + simpl. lia.
    + simpl in Heq. injection Heq as -> ->.
      specialize (Hp p q eq_refl Hq). simpl. lia.
Qed.

Lemma closes_first_last (bc : Z) : bc = 1 -> closes_first bc "}".
Proof.
  intros ->. split; [reflexivity|].
  intros [|x p] q Heq Hq.
  - simpl. lia.
  - simpl in Heq. injection Heq as _ Heq.
    destruct p; simpl in Heq; [congruence | discriminate].
Qed.

(** Whatever index the loop returns ends a span on which the depth first
    closes, and that span ends with the closing brace. *)
Lemma matching_brace_sound (rest : string) (i bc : Z) :
  0 < bc -> 0 <= i ->
  Analyzer.matching_brace rest i bc <> -1 ->
  exists span post,
    rest = span +:+ post /\ span <> "" /\ closes_first bc span /\
    (exists s0, span = s0 +:+ "}") /\
    Analyzer.matching_brace rest i bc = i + Z.of_nat (String.length span).
Proof.
  revert i bc. induction rest as [|c rest IH]; intros i bc Hbc Hi; simpl; [congruence|].
  destruct (brace_value_cases c) as [[-> Hv]|[[-> Hv]|(H1 & H2 & Hv)]].
  - simpl Ascii.eqb. cbv iota. intros H.
    destruct (IH (i + 1) (bc + 1) ltac:(lia) ltac:(lia) H)
      as (span & post & -> & Hne & Hc & (s0 & Hs0) & ->).
    exists (String "{" span), post. refine (conj eq_refl (conj _ (conj _ (conj _ _)))).
    + discriminate.
    + apply closes_first_cons; [lia | now rewrite Hv | assumption].
    + exists (String "{" s0). now rewrite Hs0.
    + simpl String.length. lia.
  - simpl Ascii.eqb. cbv iota.
    destruct (Z.eqb_spec (bc - 1) 0) as [H0|H0].
    + intros _. exists "}", rest.
      refine (conj eq_refl (conj _ (conj _ (conj _ _)))).
      * discriminate.
      * apply closes_first_last. lia.
      * now exists "".
      * simpl String.length. lia.
    + intros H.
      destruct (IH (i + 1) (bc - 1) ltac:(lia) ltac:(lia) H)
        as (span & post & -> & Hne & Hc & (s0 & Hs0) & ->).
      exists (String "}" span), post. refine (conj eq_refl (conj _ (conj _ (conj _ _)))).
      * discriminate.
      * apply closes_first_cons; [lia | | assumption].
        rewrite Hv. now replace (bc + -1) with (bc - 1) by lia.
      * exists (String "}" s0). now rewrite Hs0.
      * simpl String.length. lia.
  - rewrite H1, H2. intros H.
    destruct (IH (i + 1) bc ltac:(lia) ltac:(lia) H)
      as (span & post & -> & Hne & Hc & (s0 & Hs0) & ->).
    exists (String c span), post. refine (conj eq_refl (conj _ (conj _ (conj _ _)))).
    + discriminate.
    + apply closes_first_cons; [lia | | assumption].
      rewrite Hv. now replace (bc + 0) with bc by lia.
    + exists (String c s0). now rewrite Hs0.
    + simpl String.length. lia.
Qed.

Lemma matching_brace_range (rest : string) (i bc : Z) :
  0 <= i ->
  Analyzer.matching_brace rest i bc = -1 \/ i < Analyzer.matching_brace rest i bc.
Proof.
  revert i bc. induction rest as [|c rest IH]; intros i bc Hi; simpl; [now left|].
  destruct (Ascii.eqb c "{").
  - destruct (IH (i + 1) (bc + 1) ltac:(lia)); [now left | right; lia].
  - destruct (Ascii.eqb c "}").
    + destruct (bc - 1 =? 0); [right; lia|].
      destruct (IH (i + 1) (bc - 1) ltac:(lia)); [now left | right; lia].
    + destruct (IH (i + 1) bc ltac:(lia)); [now left | right; lia].
Qed.

(** The two depth conditions of [balanced_span], from depth 1 after the
    opening brace. *)
Lemma balanced_closes (body : string) :
  depth (String "{" body) = 0 ->
  (forall p q, String "{" body = p +:+ q -> p <> "" -> q <> "" -> 0 < depth p) ->
  closes_first 1 body.
Proof.
  intros Hd Hp. split.
  - simpl in Hd. rewrite brace_value_open in Hd. lia.
  - intros p q -> Hq.
    specialize (Hp (String "{" p) q eq_refl ltac:(discriminate) Hq).
    simpl in Hp. rewrite brace_value_open in Hp. lia.
Qed.

Lemma closes_balanced (body : string) :
  closes_first 1 body ->
  depth (String "{" body) = 0 /\
  (forall p q, String "{" body = p +:+ q -> p <> "" -> q <> "" -> 0 < depth p).
Proof.
  intros [Hd Hp]. split.
  - simpl. rewrite brace_value_open. lia.
  - intros [|x p] q Heq Hne Hq; [congruence|].
    simpl in Heq. injection Heq as <- ->.
    specialize (Hp p q eq_refl Hq). simpl. rewrite brace_value_open. lia.
Qed.

Lemma json_text_complete (text span : string) :
  balanced_span text span -> Analyzer.json_text text = Some span.
Proof.
  intros (pre & body & post & -> & Hpre & -> & Hd & Hp).
  unfold Analyzer.json_text.
  rewrite has_char_append, Hpre. simpl has_char. simpl orb.
  unfold find. simpl String.append.
  rewrite find_from_first by assumption.
  rewrite Z.add_0_l, Nat2Z.id, skipn_append.
  assert (Hbody : body <> "").
  { intros ->. simpl in Hd. rewrite brace_value_open in Hd. lia. }
  simpl Analyzer.matching_brace.
  rewrite matching_brace_complete;
    [ | assumption | now apply balanced_closes ].
  rewrite gtb_true by lia.
  f_equal. unfold slice.
  rewrite Nat2Z.id, skipn_append.
  replace (Z.to_nat _) with (String.length (String "{" body)) by (simpl; lia).
  change (String "{" (body +:+ post)) with (String "{" body +:+ post).
  apply firstn_append_exact.
Qed.

(** The decomposition behind a located span. *)
Lemma json_text_decompose (text span : string) :
  Analyzer.json_text text = Some span ->
  exists pre body post s0,
    text = pre +:+ span +:+ post /\
    PyStr.has_char "{" pre = false /\
    span = String "{" body /\
    span = s0 +:+ "}" /\
    closes_first 1 body.
Proof.
  unfold Analyzer.json_text.
  destruct (has_char "{" text) eqn:Hhas; [|discriminate].
  destruct (has_char_split _ _ Hhas) as (pre & rest & -> & Hpre).
  unfold find. rewrite find_from_first by assumption.
  rewrite Z.add_0_l, Nat2Z.id, skipn_append.
  simpl Analyzer.matching_brace. change (0 + 1) with 1.
  set (i := Z.of_nat (String.length pre)).
  destruct (matching_brace_range rest (i + 1) 1 ltac:(lia)) as [Hm|Hm].
  - rewrite Hm, gtb_false by lia. discriminate.
  - destruct (matching_brace_sound rest (i + 1) 1 ltac:(lia) ltac:(lia) ltac:(lia))
      as (body & post & -> & Hne & Hc & (s0 & Hs0) & Heq).
    rewrite Heq.
    rewrite gtb_true by lia.
    intros [= <-].
    assert (Hslice : slice (pre +:+ String "{" (body +:+ post)) i
                       (i + 1 + Z.of_nat (String.length body)) = String "{" body).
    { unfold slice, i. rewrite Nat2Z.id, skipn_append.
      replace (Z.to_nat _) with (String.length (String "{" body)) by (simpl; lia).
      change (String "{" (body +:+ post)) with (String "{" body +:+ post).
      apply firstn_append_exact. }
    rewrite Hslice.
    exists pre, body, post, (String "{" s0).
    refine (conj eq_refl (conj Hpre (conj eq_refl (conj _ Hc)))).
    now rewrite Hs0.
Qed.

Lemma json_text_sound (text span : string) :
  Analyzer.json_text text = Some span -> balanced_span text span.
Proof.
  intros H. destruct (json_text_decompose _ _ H)
    as (pre & body & post & s0 & Ht & Hpre & Hs & _ & Hc).
  destruct (closes_balanced _ Hc) as [Hd Hp].
  exists pre, body, post. rewrite Hs in *.
  exact (conj Ht (conj Hpre (conj eq_refl (conj Hd Hp)))).
Qed.

End ExtractorFacts.

Module ExtractorTheorems.

Import PyStr PyStrFacts ExtractorSpec ExtractorFacts.

#[local] Arguments String.append : simpl nomatch.

Section WithJson.

Variable json_loads : string -> result json.

(** A proper prefix of a balanced object holds no balanced span. *)
Lemma truncated_has_no_span (p q span : string) :
  balanced_span (p +:+ q) (p +:+ q) -> q <> "" -> ~ balanced_span p span.
Proof.
  intros (pre & body & post & Ht & Hpre & Hs & Hd & Hp) Hq
         (pre' & body' & post' & Ht' & Hpre' & Hs' & Hd' & _).
  destruct pre' as [|x pre'].
  - simpl in Ht'. subst span.
    specialize (Hp (String "{" body') (post' +:+ q)).
    rewrite Hd' in Hp. apply (Z.lt_irrefl 0), Hp.
    + rewrite Ht'. now rewrite append_assoc.
    + discriminate.
    + destruct post'; [exact Hq | discriminate].
  - rewrite Ht' in Hs. simpl in Hs. injection Hs as -> _.
    simpl in Hpre'. discriminate.
Qed.

(** C7.  The Extractor ([_extract_json_with_fallback]) on any text: when the
    fence-stripped text holds no balanced brace span the call fails with a
    [ValueError] (the spec's MalformedOutput), and so does a text that is a
    balanced object cut short; when it holds one, that span -- from the
    first opening brace to where the depth returns to zero -- is what
    [json.loads] is given: its value is returned, its [JSONDecodeError]
    becomes the [ValueError], and any other exception it raises (a
    [RecursionError] on a deeply nested span) leaves the call as it is.
    Data is returned only as the parse of that whole span; a failure is
    MalformedOutput unless it is such an exception of [json.loads] on the
    located span. *)
Theorem extract_balanced_span_or_malformed (text : string) :
  let response := strip_fences text in
  let r := Analyzer._extract_json_with_fallback json_loads text in
  ((forall span, ~ balanced_span response span) ->
     r = Raise (ValueError "No JSON object found in response") /\
     MalformedOutput r) /\
  (forall p q, balanced_span (p +:+ q) (p +:+ q) -> q <> "" -> response = p ->
     MalformedOutput r) /\
  (forall span, balanced_span response span ->
     r = match json_loads span with
         | Ok data => Ok data
         | Raise JSONDecodeError => Raise (ValueError "Invalid JSON in response")
         | Raise e => Raise e
         end) /\
  (forall data, r = Ok data ->
     exists span, balanced_span response span /\ json_loads span = Ok data) /\
  (forall e, r = Raise e ->
     MalformedOutput r \/
     exists span, balanced_span response span /\ json_loads span = Raise e /\
                  e <> JSONDecodeError /\ forall msg, e <> ValueError msg).
Proof.
  intros response r. subst r. unfold Analyzer._extract_json_with_fallback.
  fold response.
  assert (Hnone : (forall span, ~ balanced_span response span) ->
                  Analyzer.json_text response = None).
  { intros H. destruct (Analyzer.json_text response) as [span|] eqn:E; [|reflexivity].
    exfalso. exact (H span (json_text_sound _ _ E)). }
  split; [|split; [|split; [|split]]].
  - intros H. rewrite (Hnone H). split; [reflexivity | now eexists].
  - intros p q Hb Hq Hr. rewrite Hnone; [now eexists|].
    intros span. rewrite Hr. now apply (truncated_has_no_span p q).
  - intros span H. rewrite (json_text_complete _ _ H).
    unfold Analyzer.except_JSONDecodeError.
    now destruct (json_loads span) as [d|[]].
  - intros data. destruct (Analyzer.json_text response) as [span|] eqn:E; [|discriminate].
    unfold Analyzer.except_JSONDecodeError.
    destruct (json_loads span) as [d|[]] eqn:Ed; try discriminate.
    intros [= <-]. exists span. split; [now apply json_text_sound | exact Ed].
  - intros e. destruct (Analyzer.json_text response) as [span|] eqn:E.
    + unfold Analyzer.except_JSONDecodeError.
      destruct (json_loads span) as [d|e'] eqn:Ed; [discriminate|].
      destruct e'; intros [= <-];
        first [ left; now eexists
              | right; exists span;
                split; [now apply json_text_sound|];
                split; [exact Ed|]; split; [discriminate|];
                intros ?; discriminate ].
    + intros _. left. now eexists.
Qed.

End WithJson.

(** The Judge's span when the fence-stripped text has a closing brace
    after its first opening one. *)
Lemma judge_span_located (text pre mid post : string) :
  strip_fences text = pre +:+ "{" +:+ mid +:+ "}" +:+ post ->
  has_char "{" pre = false ->
  has_char "}" post = false ->
  Judge.json_str text = Some ("{" +:+ mid +:+ "}").
Proof.
  intros Ht Hpre Hpost. unfold Judge.json_str.
  assert (Hhas : has_char "{" (strip_fences text) = true).
  { rewrite Ht, has_char_append. simpl. apply orb_true_r. }
  rewrite (has_char_strip_fences _ _ Hhas), Hhas, Ht.
  assert (Hfind : find "{" (pre +:+ "{" +:+ mid +:+ "}" +:+ post)
                  = Z.of_nat (String.length pre)).
  { unfold find. simpl String.append. rewrite find_from_first by assumption. lia. }
  assert (Hrfind : rfind "}" (pre +:+ "{" +:+ mid +:+ "}" +:+ post)
                   = Z.of_nat (String.length pre) + 1 + Z.of_nat (String.length mid)).
  { unfold rfind.
    replace (pre +:+ "{" +:+ mid +:+ "}" +:+ post)
      with ((pre +:+ "{" +:+ mid) +:+ String "}" post)
      by (rewrite !append_assoc; reflexivity).
    rewrite rfind_from_append. simpl rfind_from.
    rewrite rfind_from_absent by assumption.
    rewrite !length_append. simpl String.length. lia. }
  rewrite Hfind, Hrfind.
  replace (Z.of_nat (String.length pre) >=? 0) with true
    by (symmetry; apply Z.geb_le; lia).
  rewrite gtb_true by lia. simpl andb. cbv iota. f_equal.
  unfold slice. rewrite Nat2Z.id, skipn_append.
  replace (Z.to_nat _) with (String.length ("{" +:+ mid +:+ "}")).
  - replace ("{" +:+ mid +:+ "}" +:+ post) with (("{" +:+ mid +:+ "}") +:+ post)
      by (rewrite !append_assoc; reflexivity).
    apply firstn_append_exact.
  - rewrite !length_append. simpl String.length. lia.
Qed.

(** No closing brace after the first opening one: the Judge has no span. *)
Lemma judge_span_missing (text pre post : string) :
  strip_fences text = pre +:+ "{" +:+ post ->
  has_char "{" pre = false ->
  has_char "}" post = false ->
  Judge.json_str text = None.
Proof.
  intros Ht Hpre Hpost. unfold Judge.json_str.
  destruct (has_char "{" text); [|reflexivity].
  rewrite Ht.
  assert (Hhas : has_char "{" (pre +:+ "{" +:+ post) = true).
  { rewrite has_char_append. simpl. apply orb_true_r. }
  rewrite Hhas.
  assert (Hfind : find "{" (pre +:+ "{" +:+ post) = Z.of_nat (String.length pre)).
  { unfold find. simpl String.append. rewrite find_from_first by assumption. lia. }
  assert (Hrfind : rfind "}" (pre +:+ "{" +:+ post) = rfind "}" pre).
  { unfold rfind. rewrite rfind_from_append. simpl String.append.
    simpl rfind_from. now rewrite rfind_from_absent by assumption. }
  rewrite Hfind, Hrfind. pose proof (rfind_lt_length "}" pre).
  rewrite gtb_false by lia. now rewrite andb_false_r.
Qed.

(** The Judge's span, for every text. *)
Lemma judge_span_exact (text j : string) :
  Judge.json_str text = Some j <-> first_to_last_span (strip_fences text) j.
Proof.
  split.
  - intros H.
    destruct (has_char "{" (strip_fences text)) eqn:Hhas.
    + destruct (has_char_split _ _ Hhas) as (pre & rest & Ht & Hpre).
      destruct (has_char "}" rest) eqn:Hrest.
      * destruct (has_char_split_last _ _ Hrest) as (mid & post & -> & Hpost).
        assert (Ht' : strip_fences text = pre +:+ "{" +:+ mid +:+ "}" +:+ post)
          by exact Ht.
        rewrite (judge_span_located _ _ _ _ Ht' Hpre Hpost) in H.
        injection H as <-.
        exists pre, mid, post.
        refine (conj _ (conj Hpre (conj eq_refl Hpost))).
        rewrite Ht'. repeat (rewrite ?append_assoc; simpl String.append); reflexivity.
      * assert (Ht' : strip_fences text = pre +:+ "{" +:+ rest) by exact Ht.
        rewrite (judge_span_missing _ _ _ Ht' Hpre Hrest) in H. discriminate.
    + unfold Judge.json_str in H. rewrite Hhas in H.
      destruct (has_char "{" text); discriminate.
  - intros (pre & mid & post & Ht & Hpre & -> & Hpost).
    apply (judge_span_located text pre mid post); [|assumption..].
    rewrite Ht. repeat (rewrite ?append_assoc; simpl String.append); reflexivity.
Qed.

(** When the Judge has no span. *)
Lemma judge_span_none (text : string) :
  Judge.json_str text = None <->
  has_char "{" (strip_fences text) = false \/
  exists pre post,
    strip_fences text = pre +:+ "{" +:+ post /\
    has_char "{" pre = false /\ has_char "}" post = false.
Proof.
  split.
  - intros H.
    destruct (has_char "{" (strip_fences text)) eqn:Hhas; [right | now left].
    destruct (has_char_split _ _ Hhas) as (pre & rest & Ht & Hpre).
    exists pre, rest. split; [exact Ht|]. split; [exact Hpre|].
    destruct (has_char "}" rest) eqn:Hrest; [|reflexivity].
    destruct (has_char_split_last _ _ Hrest) as (mid & post & -> & Hpost).
    assert (Ht' : strip_fences text = pre +:+ "{" +:+ mid +:+ "}" +:+ post)
      by exact Ht.
    rewrite (judge_span_located _ _ _ _ Ht' Hpre Hpost) in H. discriminate.
  - intros [Hno|(pre & post & Ht & Hpre & Hpost)].
    + unfold Judge.json_str. rewrite Hno. now destruct (has_char "{" text).
    + exact (judge_span_missing _ _ _ Ht Hpre Hpost).
Qed.

(** C9, as the code has it.  For every message text the span the Judge
    hands to [json.loads] is the text from the first opening brace of the
    fence-stripped message to its LAST closing brace, and nothing else; it
    has none exactly when that text has no opening brace, or no closing
    brace after the first opening one.
    Whenever the brace-counting Extractor selects a span, the Judge's span
    starts at the same opening brace and is the Extractor's span followed by
    a tail: all that follows it up to the last closing brace of the text.
    The two spans are equal exactly when no closing brace follows the
    Extractor's span.  On some texts the Judge selects a span where the
    Extractor finds none. *)
Theorem judge_span_is_first_to_last_brace :
  (forall text j,
     Judge.json_str text = Some j <-> first_to_last_span (strip_fences text) j) /\
  (forall text,
     Judge.json_str text = None <->
     has_char "{" (strip_fences text) = false \/
     exists pre post,
       strip_fences text = pre +:+ "{" +:+ post /\
       has_char "{" pre = false /\ has_char "}" post = false) /\
  (forall text span,
     Analyzer.json_text (strip_fences text) = Some span ->
     exists pre tail rest,
       strip_fences text = pre +:+ span +:+ tail +:+ rest /\
       has_char "{" pre = false /\
       has_char "}" rest = false /\
       (tail = "" \/ exists t, tail = t +:+ "}") /\
       Judge.json_str text = Some (span +:+ tail) /\
       (Judge.json_str text = Some span <-> has_char "}" (tail +:+ rest) = false)) /\
  (exists text j,
     Analyzer.json_text (strip_fences text) = None /\
     Judge.json_str text = Some j).
Proof.
  split; [exact judge_span_exact | split; [exact judge_span_none | split]].
  - intros text span H.
    destruct (json_text_decompose _ _ H)
      as (pre & body & post & s0 & Ht & Hpre & Hs & Hs0 & _).
    assert (Hmid : exists mid, span = "{" +:+ mid +:+ "}").
    { destruct s0 as [|x s0]; [rewrite Hs in Hs0; discriminate|].
      rewrite Hs in Hs0. injection Hs0 as <- ->. now exists s0. }
    destruct Hmid as (mid & Hmid).
    destruct (has_char "}" post) eqn:Hpost.
    + destruct (has_char_split_last _ _ Hpost) as (m & rest & -> & Hrest).
      exists pre, (m +:+ "}"), rest.
      assert (Hj : Judge.json_str text = Some (span +:+ m +:+ "}")).
      { apply judge_span_exact. exists pre, (mid +:+ "}" +:+ m), rest.
        refine (conj _ (conj Hpre (conj _ Hrest))).
        - rewrite Ht. repeat (rewrite ?append_assoc; simpl String.append); reflexivity.
        - rewrite Hmid. repeat (rewrite ?append_assoc; simpl String.append); reflexivity. }
      refine (conj _ (conj Hpre (conj Hrest (conj _ (conj Hj _))))).
      * rewrite Ht. repeat (rewrite ?append_assoc; simpl String.append); reflexivity.
      * right. now exists m.
      * rewrite Hj, !has_char_append. simpl has_char.
        rewrite orb_true_r. simpl. split; [|discriminate].
        intros [= E]. apply (f_equal String.length) in E.
        rewrite !length_append in E. simpl in E. lia.
    + exists pre, "", post.
      assert (Hj : Judge.json_str text = Some span).
      { apply judge_span_exact. exists pre, mid, post.
        exact (conj Ht (conj Hpre (conj Hmid Hpost))). }
      refine (conj Ht (conj Hpre (conj Hpost (conj (or_introl eq_refl) (conj _ _))))).
      * now rewrite append_nil_r.
      * simpl. now rewrite Hpost.
  - exists "{a {b} c", "{a {b}". split; vm_compute; reflexivity.
Qed.

End ExtractorTheorems.

(** ** The Analyzer's fallback *)

Module AnalyzerTheorems.

Import PyStr AnalyzerSpec.

(** Lower-casing commutes with the substring test. *)
Lemma prefix_lower (a b : string) :
  String.prefix a b = true -> String.prefix (lower a) (lower b) = true.
Proof.
  revert b. induction a as [|x a IH]; intros [|y b]; simpl; trivial; try discriminate.
  destruct (ascii_dec x y) as [->|Hne]; [|discriminate].
  intros H. destruct (ascii_dec (lower_char y) (lower_char y)); [|contradiction].
  now apply IH.
Qed.

Lemma contains_lower (sub s : string) :
  contains sub s = true -> contains (lower sub) (lower s) = true.
Proof.
  induction s as [|y s IH].
  - simpl. rewrite !orb_false_r. apply (prefix_lower sub "").
  - cbn [contains lower]. intros H. apply orb_true_iff in H as [H|H].
    + apply orb_true_iff. left. exact (prefix_lower sub (String y s) H).
    + apply orb_true_iff. right. now apply IH.
Qed.

Section WithJson.

Variable json_loads : string -> result json.
Variable validate_ExistingSkill : json -> result ExistingSkill.
Variable validate_SkillGap : json -> result SkillGap.
Variable validate_MarketInsights : json -> result MarketInsights.

Abbreviation try_block :=
  (Analyzer.try_block json_loads validate_ExistingSkill validate_SkillGap
     validate_MarketInsights).
Abbreviation client_set := Analyzer.client_set.


(** The [try] block never gets past the formatting of the system prompt. *)
Lemma try_block_raises (s : session) : exists e, try_block s = Raise e.
Proof.
  unfold Analyzer.try_block, Analyzer.analyze_body, Analyzer.format_system_prompt.
  destruct (ctor s); simpl; [now eexists|].
  destruct (connect s); simpl; now eexists.
Qed.

End WithJson.

End AnalyzerTheorems.

(** ** The Resource Normalizer *)


Module NormalizerTheorems.

Import NormalizerSpec.

Lemma ResourceType_eqb_eq (a b : ResourceType) :
  ResourceType_eqb a b = true <-> a = b.
Proof. destruct a, b; simpl; split; congruence. Qed.

Lemma ResourceType_in_In (t : ResourceType) (types : list ResourceType) :
  ResourceType_in t types = true <-> In t types.
Proof.
  unfold ResourceType_in. rewrite existsb_exists. split.
  - intros (x & Hx & E). apply ResourceType_eqb_eq in E. now subst.
  - intros H. exists t. split; [assumption | now apply ResourceType_eqb_eq].
Qed.

Lemma ResourceType_of_value_coerced (s : string) :
  coerced_type s
    match ResourceType_of_value (PyStr.lower s) with
    | Ok t => t
    | Raise _ => TUTORIAL
    end.
Proof.
  unfold coerced_type, ResourceType_of_value.
  repeat match goal with
  | |- context [String.eqb ?a ?b] =>
      destruct (String.eqb_spec a b) as [E|?]; [left; now rewrite E|]
  end.
  right. split; [|reflexivity]. intros []; simpl; congruence.
Qed.

Section WithCollaborators.

Variable float_of_str : string -> option float.
Variable validate_rating : json -> result (option float).

(** What a successful construction tells about the item and the resource. *)
Lemma build_resource_inv (d : list (string * json)) (skill_gap : SkillGap) (r : Resource) :
  Curator.build_resource float_of_str validate_rating d skill_gap = Ok (Some r) ->
  exists t u s p dl desc,
    dict_get d "title" (JStr "") = JStr t /\
    dict_get d "url" (JStr "") = JStr u /\
    PyStr.is_empty (PyStr.strip t) = false /\
    PyStr.is_empty (PyStr.strip u) = false /\
    dict_get d "resource_type" (JStr "tutorial") = JStr s /\
    dict_get d "provider" (JStr "Unknown") = JStr p /\
    dict_get d "difficulty_level" (JStr (recommended_starting_level skill_gap)) = JStr dl /\
    dict_get d "description" (JStr "") = JStr desc /\
    title r = PyStr.strip t /\
    url r = PyStr.strip u /\
    coerced_type s (resource_type r) /\
    match Curator.py_float float_of_str (dict_get d "duration_hours" (JFloat 10%float)) with
    | Ok f => duration_hours r = f
    | Raise _ => duration_hours r = 10%float
    end /\
    provider r = Curator.or_unknown (PyStr.strip p) /\
    difficulty_level r = dl /\
    is_free r = py_bool (dict_get d "is_free" (JBool true)) /\
    validate_rating (dict_get d "rating" JNull) = Ok (rating r) /\
    description r = PyStr.strip desc /\
    tech_stack_match r = [skill_name skill_gap].
Proof.
  unfold Curator.build_resource, py_strip, py_lower, Curator.validate_str.
  destruct (dict_get d "title" (JStr "")) as [| | | |t| |]; simpl; try discriminate.
  destruct (dict_get d "url" (JStr "")) as [| | | |u| |]; simpl; try discriminate.
  destruct (PyStr.is_empty (PyStr.strip t)) eqn:Et; simpl; [discriminate|].
  destruct (PyStr.is_empty (PyStr.strip u)) eqn:Eu; simpl; [discriminate|].
  destruct (dict_get d "resource_type" (JStr "tutorial")) as [| | | |s| |];
    simpl; try discriminate.
  pose proof (ResourceType_of_value_coerced s) as Hty.
  destruct (Curator.py_float float_of_str (dict_get d "duration_hours" (JFloat 10%float)))
    as [f|e] eqn:Ef; simpl.
  2: destruct (is_ValueError_or_TypeError e); simpl; [|discriminate].
  all: destruct (dict_get d "provider" (JStr "Unknown")) as [| | | |p| |];
    simpl; try discriminate.
  all: destruct (dict_get d "difficulty_level"
                   (JStr (recommended_starting_level skill_gap))) as [| | | |dl| |];
    simpl; try discriminate.
  all: destruct (validate_rating (dict_get d "rating" JNull)) as [rt|] eqn:Er;
    simpl; try discriminate.
  all: destruct (dict_get d "description" (JStr "")) as [| | | |desc| |];
    simpl; try discriminate.
  all: intros [= <-]; exists t, u, s, p, dl, desc; simpl;
    repeat (split; [first [reflexivity | assumption]|]); reflexivity.
Qed.

Lemma convert_item_inv (item : json) (skill_gap : SkillGap) (filters : ResourceFilters)
    (r : Resource) :
  Curator.convert_item float_of_str validate_rating item skill_gap filters = Some r ->
  exists d, item = JDict d /\
    Curator.build_resource float_of_str validate_rating d skill_gap = Ok (Some r) /\
    Curator.passes_filters filters r = true.
Proof.
  unfold Curator.convert_item. destruct item as [| | | | | |d]; try discriminate.
  destruct (Curator.build_resource float_of_str validate_rating d skill_gap)
    as [[r'|]|] eqn:Eb; try discriminate.
  destruct (Curator.passes_filters filters r') eqn:Ep; [|discriminate].
  intros [= <-]. now exists d.
Qed.

Lemma passes_filters_sound (filters : ResourceFilters) (r : Resource) :
  Curator.passes_filters filters r = true <-> satisfies_filters filters r.
Proof.
  unfold Curator.passes_filters, satisfies_filters.
  rewrite <- ResourceType_in_In.
  destruct (free_only filters), (is_free r),
    (PyNum.float_gt_int (duration_hours r) (max_duration_hours filters)),
    (ResourceType_in (resource_type r) (resource_types filters)); simpl;
    intuition congruence.
Qed.

(** The output lists, in order, what the items yield. *)
Lemma in_convert (items : list json) (skill_gap : SkillGap) (filters : ResourceFilters)
    (r : Resource) :
  In r (Curator._convert_to_resources float_of_str validate_rating items skill_gap filters)
  <-> exists item, In item items /\
        Curator.convert_item float_of_str validate_rating item skill_gap filters = Some r.
Proof.
  induction items as [|item items IH]; simpl.
  - split; [contradiction | now intros (? & [] & _)].
  - destruct (Curator.convert_item float_of_str validate_rating item skill_gap filters)
      as [r'|] eqn:E; simpl; rewrite IH; split.
    + intros [<-|(x & Hx & Ex)]; [now exists item; split; [left|] |].
      exists x. split; [now right | assumption].
    + intros (x & [<-|Hx] & Ex); [left; congruence | right; now exists x].
    + intros (x & Hx & Ex). exists x. split; [now right | assumption].
    + intros (x & [<-|Hx] & Ex); [congruence | now exists x].
Qed.

Lemma convert_app (a b : list json) (skill_gap : SkillGap) (filters : ResourceFilters) :
  Curator._convert_to_resources float_of_str validate_rating (a ++ b) skill_gap filters =
  Curator._convert_to_resources float_of_str validate_rating a skill_gap filters ++
  Curator._convert_to_resources float_of_str validate_rating b skill_gap filters.
Proof.
  induction a as [|x a IH]; simpl; [reflexivity|].
  destruct (Curator.convert_item float_of_str validate_rating x skill_gap filters);
    simpl; now rewrite IH.
Qed.

Lemma convert_item_needs_title_and_url (item : json) (skill_gap : SkillGap)
    (filters : ResourceFilters) :
  has_title_and_url item = false ->
  Curator.convert_item float_of_str validate_rating item skill_gap filters = None.
Proof.
  intros H.
  destruct (Curator.convert_item float_of_str validate_rating item skill_gap filters)
    as [r|] eqn:E; [|reflexivity].
  destruct (convert_item_inv _ _ _ _ E) as (d & -> & Hb & _).
  destruct (build_resource_inv _ _ _ Hb)
    as (t & u & s & p & dl & desc & Ht & Hu & Et & Eu & _).
  simpl in H. rewrite Ht, Hu, Et, Eu in H. discriminate.
Qed.

Lemma float_of_int_raises (z : Z) (e : exn) :
  PyNum.float_of_int z = Raise e -> e = OverflowError.
Proof.
  unfold PyNum.float_of_int.
  destruct (binary_normalize 53 1024 z 0 false); congruence.
Qed.

Lemma absent_or_str_get (d : list (string * json)) (k default : string) :
  absent_or_str d k = true <-> exists s, dict_get d k (JStr default) = JStr s.
Proof.
  unfold absent_or_str, dict_get.
  destruct (lookup_key k d) as [[| | | |s| |]|]; split;
    try discriminate; try (intros (s' & H); discriminate); try reflexivity;
    intros _; now eexists.
Qed.

(** The duration of an item whose fields convert is read or defaulted. *)
Lemma duration_converts (d : list (string * json)) :
  match lookup_key "duration_hours" d with
  | Some (JInt z) => is_Ok (PyNum.float_of_int z)
  | _ => true
  end = true <->
  exists f,
    match Curator.py_float float_of_str (dict_get d "duration_hours" (JFloat 10%float)) with
    | Ok f => Ok f
    | Raise e => if is_ValueError_or_TypeError e then Ok 10%float else Raise e
    end = Ok f.
Proof.
  unfold dict_get, Curator.py_float.
  destruct (lookup_key "duration_hours" d) as [[|b|z|f|ds|l|dd]|]; simpl;
    try (split; [intros _; now eexists | reflexivity]).
  - destruct (PyNum.float_of_int z) as [f|e] eqn:Ez; simpl.
    + split; [intros _; now eexists | reflexivity].
    + rewrite (float_of_int_raises _ _ Ez). simpl.
      split; [discriminate | intros (f & H); discriminate].
  - destruct (float_of_str ds); simpl; split; try reflexivity; intros _; now eexists.
Qed.

(** A dict item is constructed exactly when it has a title and a url and
    its other fields convert. *)
Lemma build_resource_defined (d : list (string * json)) (skill_gap : SkillGap) :
  (exists r, Curator.build_resource float_of_str validate_rating d skill_gap = Ok (Some r))
  <-> has_title_and_url (JDict d) = true /\ other_fields_convert validate_rating d = true.
Proof.
  unfold has_title_and_url, other_fields_convert.
  rewrite !andb_true_iff, duration_converts,
    (absent_or_str_get d "resource_type" "tutorial"),
    (absent_or_str_get d "provider" "Unknown"),
    (absent_or_str_get d "difficulty_level" (recommended_starting_level skill_gap)),
    (absent_or_str_get d "description" "").
  unfold Curator.build_resource, py_strip, py_lower, Curator.validate_str.
  split.
  - intros (r & H). revert H.
    destruct (dict_get d "title" (JStr "")) as [| | | |t| |]; simpl; try discriminate.
    destruct (dict_get d "url" (JStr "")) as [| | | |u| |]; simpl; try discriminate.
    destruct (PyStr.is_empty (PyStr.strip t)); simpl; [discriminate|].
    destruct (PyStr.is_empty (PyStr.strip u)); simpl; [discriminate|].
    destruct (dict_get d "resource_type" (JStr "tutorial")) as [| | | |s| |];
      simpl; try discriminate.
    destruct (match Curator.py_float float_of_str
                      (dict_get d "duration_hours" (JFloat 10%float)) with
              | Ok f => Ok f
              | Raise e => if is_ValueError_or_TypeError e then Ok 10%float else Raise e
              end) as [f|e]; simpl; [|discriminate].
    destruct (dict_get d "provider" (JStr "Unknown")) as [| | | |p| |];
      simpl; try discriminate.
    destruct (dict_get d "difficulty_level"
                (JStr (recommended_starting_level skill_gap))) as [| | | |dl| |];
      simpl; try discriminate.
    destruct (validate_rating (dict_get d "rating" JNull)) as [rt|];
      simpl; try discriminate.
    destruct (dict_get d "description" (JStr "")) as [| | | |desc| |];
      simpl; try discriminate.
    intros _. repeat split; now eexists.
  - intros (Htu & ((((((s & ->) & (p & ->)) & (dl & ->)) & (desc & ->)) & Hr) & (f & ->))).
    destruct (dict_get d "title" (JStr "")) as [| | | |t| |]; try discriminate.
    destruct (dict_get d "url" (JStr "")) as [| | | |u| |]; try discriminate.
    apply andb_true_iff in Htu as [Ht Hu].
    apply negb_true_iff in Ht, Hu. simpl. rewrite Ht, Hu. simpl.
    destruct (validate_rating (dict_get d "rating" JNull)) as [rt|];
      [|discriminate]. simpl. now eexists.
Qed.

(** The duration test on a float that is no NaN. *)
Lemma not_greater_is_le (f : float) (z : Z) :
  is_NaN f = false ->
  (PyNum.float_gt_int f z = false <-> PyNum.float_le_int f z = true).
Proof.
  unfold is_NaN, PyNum.float_gt_int, PyNum.float_le_int, PyNum.compare_float_int.
  destruct (Prim2SF f) as [[|]|[|]| |s m e]; try discriminate; intros _.
  all: repeat match goal with
       | |- context [if ?b then _ else _] => destruct b
       | |- context [(?a ?= ?b)] => destruct (a ?= b)
       end; split; congruence.
Qed.

(** A NaN is neither greater than the maximum nor at most the maximum. *)
Lemma nan_is_unordered (f : float) (z : Z) :
  is_NaN f = true ->
  PyNum.float_gt_int f z = false /\ PyNum.float_le_int f z = false.
Proof.
  unfold is_NaN, PyNum.float_gt_int, PyNum.float_le_int, PyNum.compare_float_int.
  destruct (Prim2SF f); try discriminate. now split.
Qed.

(** What an item contributes to the output. *)
Lemma convert_cons_item (pre post : list json) (item : json) (skill_gap : SkillGap)
    (filters : ResourceFilters) :
  Curator._convert_to_resources float_of_str validate_rating (pre ++ item :: post)
    skill_gap filters =
  Curator._convert_to_resources float_of_str validate_rating pre skill_gap filters ++
  match Curator.convert_item float_of_str validate_rating item skill_gap filters with
  | Some r => [r]
  | None => []
  end ++
  Curator._convert_to_resources float_of_str validate_rating post skill_gap filters.
Proof.
  rewrite convert_app. f_equal. simpl.
  now destruct (Curator.convert_item float_of_str validate_rating item skill_gap filters).
Qed.

Lemma ResourceType_value_inj (a b : ResourceType) :
  ResourceType_value a = ResourceType_value b -> a = b.
Proof. destruct a, b; simpl; intros H; first [reflexivity | discriminate]. Qed.

(** What a constructed item contributes to the output. *)
Lemma convert_built_item (pre post : list json) (d : list (string * json))
    (skill_gap : SkillGap) (filters : ResourceFilters) (r : Resource) :
  Curator.build_resource float_of_str validate_rating d skill_gap = Ok (Some r) ->
  (satisfies_filters filters r ->
     Curator._convert_to_resources float_of_str validate_rating (pre ++ JDict d :: post)
       skill_gap filters =
     Curator._convert_to_resources float_of_str validate_rating pre skill_gap filters ++
     r :: Curator._convert_to_resources float_of_str validate_rating post skill_gap filters) /\
  (~ satisfies_filters filters r ->
     Curator._convert_to_resources float_of_str validate_rating (pre ++ JDict d :: post)
       skill_gap filters =
     Curator._convert_to_resources float_of_str validate_rating (pre ++ post)
       skill_gap filters).
Proof.
  intros Hb. rewrite convert_cons_item, convert_app.
  unfold Curator.convert_item. rewrite Hb.
  destruct (Curator.passes_filters filters r) eqn:Ep; split; intros H.
  - reflexivity.
  - exfalso. apply H. now apply passes_filters_sound.
  - apply passes_filters_sound in H. congruence.
  - reflexivity.
Qed.

(** C5, as the code has it.  For every list of raw items, skill gap and
    filters, [_convert_to_resources] returns a list (it never raises).  An
    item without a non-blank string title and url leaves no trace.  A dict
    item that has both, and whose other fields convert, is constructed: with
    the resource type its type string names and [TUTORIAL] when it names
    none, the duration it gives and 10.0 when that cannot be read as a
    float, its stripped provider and "Unknown" when that is blank, and the
    originating skill name as its only [tech_stack_match]; the resource is
    in the output, at the item's place, when it passes the filters, and
    left out when it does not.  Every resource of the output comes from a
    dict item of the input that way and passes the filters as the code tests
    them: free when [free_only], a duration that is not greater than the
    maximum, a type in the allowed set.  For a duration that is no NaN that
    test is [<=]; a NaN is neither greater than the maximum nor at most the
    maximum, and is let through. *)
Theorem convert_to_resources_normalizes (items : list json) (skill_gap : SkillGap)
    (filters : ResourceFilters) :
  let convert := Curator._convert_to_resources float_of_str validate_rating in
  let duration_of d :=
    Curator.py_float float_of_str (dict_get d "duration_hours" (JFloat 10%float)) in
  (forall pre item post, has_title_and_url item = false ->
     convert (pre ++ item :: post) skill_gap filters =
     convert (pre ++ post) skill_gap filters) /\
  (forall pre d post,
     has_title_and_url (JDict d) = true ->
     other_fields_convert validate_rating d = true ->
     exists r,
       Curator.build_resource float_of_str validate_rating d skill_gap = Ok (Some r) /\
       (satisfies_filters filters r ->
          convert (pre ++ JDict d :: post) skill_gap filters =
          convert pre skill_gap filters ++ r :: convert post skill_gap filters) /\
       (~ satisfies_filters filters r ->
          convert (pre ++ JDict d :: post) skill_gap filters =
          convert (pre ++ post) skill_gap filters) /\
       (forall s, dict_get d "resource_type" (JStr "tutorial") = JStr s ->
          (forall t, ResourceType_value t = PyStr.lower s -> resource_type r = t) /\
          ((forall t, ResourceType_value t <> PyStr.lower s) ->
             resource_type r = TUTORIAL)) /\
       (forall f, duration_of d = Ok f -> duration_hours r = f) /\
       (forall e, duration_of d = Raise e -> duration_hours r = 10%float) /\
       (forall p, dict_get d "provider" (JStr "Unknown") = JStr p ->
          provider r = if PyStr.is_empty (PyStr.strip p) then "Unknown"
                       else PyStr.strip p) /\
       tech_stack_match r = [skill_name skill_gap]) /\
  Forall (fun r =>
    satisfies_filters filters r /\
    (is_NaN (duration_hours r) = false ->
       PyNum.float_le_int (duration_hours r) (max_duration_hours filters) = true) /\
    exists d t u s p,
      In (JDict d) items /\
      dict_get d "title" (JStr "") = JStr t /\ title r = PyStr.strip t /\ title r <> "" /\
      dict_get d "url" (JStr "") = JStr u /\ url r = PyStr.strip u /\ url r <> "" /\
      dict_get d "resource_type" (JStr "tutorial") = JStr s /\
      coerced_type s (resource_type r) /\
      match duration_of d with
      | Ok f => duration_hours r = f
      | Raise _ => duration_hours r = 10%float
      end /\
      dict_get d "provider" (JStr "Unknown") = JStr p /\
      provider r = (if PyStr.is_empty (PyStr.strip p) then "Unknown" else PyStr.strip p) /\
      tech_stack_match r = [skill_name skill_gap])
    (convert items skill_gap filters) /\
  (forall f, is_NaN f = true ->
     PyNum.float_gt_int f (max_duration_hours filters) = false /\
     PyNum.float_le_int f (max_duration_hours filters) = false).
Proof.
  intros convert duration_of. split; [|split; [|split]].
  - intros pre item post H. subst convert.
    rewrite !convert_app. simpl.
    now rewrite (convert_item_needs_title_and_url _ _ _ H).
  - intros pre d post Htu Hother.
    destruct (proj2 (build_resource_defined d skill_gap) (conj Htu Hother)) as (r & Hb).
    exists r. split; [exact Hb|].
    destruct (convert_built_item pre post d skill_gap filters r Hb) as [Hin Hout].
    split; [exact Hin|]. split; [exact Hout|].
    destruct (build_resource_inv _ _ _ Hb)
      as (t & u & s & p & dl & desc & Ht & Hu & Et & Eu & Hs & Hpv & _ & _ &
          Htitle & Hurl & Hty & Hdur & Hprov & _ & _ & _ & _ & Htech).
    split; [|split; [|split; [|split]]].
    + intros s' Hs'. rewrite Hs in Hs'. injection Hs' as <-.
      destruct Hty as [Hv|[Hno ->]]; split.
      * intros t' Ht'. apply ResourceType_value_inj. congruence.
      * intros Hnone. now destruct (Hnone (resource_type r)).
      * intros t' Ht'. now destruct (Hno t').
      * reflexivity.
    + intros f Hf. subst duration_of. simpl in Hf. now rewrite Hf in Hdur.
    + intros e He. subst duration_of. simpl in He. now rewrite He in Hdur.
    + intros p' Hp'. rewrite Hpv in Hp'. injection Hp' as <-. exact Hprov.
    + exact Htech.
  - apply List.Forall_forall. intros r Hr.
    apply in_convert in Hr as (item & Hin & Hc).
    destruct (convert_item_inv _ _ _ _ Hc) as (d & -> & Hb & Hp).
    destruct (build_resource_inv _ _ _ Hb)
      as (t & u & s & p & dl & desc & Ht & Hu & Et & Eu & Hs & Hpv & _ & _ &
          Htitle & Hurl & Hty & Hdur & Hprov & _ & _ & _ & _ & Htech).
    apply passes_filters_sound in Hp.
    split; [exact Hp|]. split.
    { intros Hnan. apply not_greater_is_le; [exact Hnan | apply Hp]. }
    exists d, t, u, s, p.
    repeat (split; [first [assumption | reflexivity
                          | rewrite Htitle; intros E; now rewrite E in Et
                          | rewrite Hurl; intros E; now rewrite E in Eu ]|]).
    assumption.
  - intros f. apply nan_is_unordered.
Qed.


End WithCollaborators.

End NormalizerTheorems.

(** ** The Curator's tiers *)

Module CuratorTheorems.

Section WithCollaborators.

Variable json_loads : string -> result json.
Variable float_of_str : string -> option float.
Variable validate_rating : json -> result (option float).

Abbreviation tier1_gave_nothing :=
  (CuratorSpec.tier1_gave_nothing float_of_str validate_rating).
Abbreviation tier1_gave_no_array := CuratorSpec.tier1_gave_no_array.
Abbreviation builds_ParallelTaskAPI := CuratorSpec.builds_ParallelTaskAPI.
Abbreviation static_answer := (CuratorSpec.static_answer float_of_str validate_rating).
Abbreviation search_gave_nothing :=
  (CuratorSpec.search_gave_nothing float_of_str validate_rating).
Abbreviation fallback_suffix :=
  (CuratorSpec.fallback_suffix float_of_str validate_rating).

Lemma search_fallback_cases (api : option parallel_api_object) (skill_gap : SkillGap)
    (filters : ResourceFilters) :
  match api with
  | Some a =>
      (exists r, r <> [] /\
         Curator.search_fallback float_of_str validate_rating api skill_gap filters
         = (Some r, [SearchApiTier])) \/
      (search_gave_nothing a skill_gap filters /\
       Curator.search_fallback float_of_str validate_rating api skill_gap filters
       = (None, [SearchApiTier]))
  | None =>
      Curator.search_fallback float_of_str validate_rating api skill_gap filters
      = (None, [])
  end.
Proof.
  destruct api as [a|]; [|reflexivity].
  unfold Curator.search_fallback, CuratorSpec.search_gave_nothing.
  destruct (search_educational_resources a _ _ _ _) as [res|e]; [|now right].
  destruct (Curator._convert_to_resources _ _ res skill_gap filters) as [|r rs] eqn:E.
  - now right.
  - left. exists (r :: rs). split; [discriminate | reflexivity].
Qed.

Lemma search_fallback_spec (api : option parallel_api_object) (skill_gap : SkillGap)
    (filters : ResourceFilters) :
  exists res ran2,
    Curator.search_fallback float_of_str validate_rating api skill_gap filters
    = (res, ran2) /\
    match api with
    | Some a => ran2 = [SearchApiTier] /\
                (res = None -> search_gave_nothing a skill_gap filters)
    | None => res = None /\ ran2 = []
    end.
Proof.
  pose proof (search_fallback_cases api skill_gap filters) as H.
  destruct api as [a|].
  - destruct H as [(r & _ & H)|(Hn & H)]; rewrite H; eexists _, _;
      (split; [reflexivity|]); (split; [reflexivity|]); [discriminate | trivial].
  - rewrite H. now eexists _, _.
Qed.

Lemma static_fallback_spec (api : option parallel_api_object)
    (new_api : result parallel_api_object) (skill_gap : SkillGap)
    (filters : ResourceFilters) (ran : list tier) :
  let o := Curator.static_fallback float_of_str validate_rating api new_api
             skill_gap filters ran in
  (Curator.tiers_run o = ran ++ [StaticTier] \/
   (Curator.tiers_run o = ran /\ is_Ok (Curator.returned o) = false)) /\
  (forall a, api = Some a -> Curator.parallel_api_after o = Some a).
Proof.
  unfold Curator.static_fallback.
  destruct api as [a|]; [|destruct new_api as [a|e]]; simpl;
    (split; [first [now left | now right] | congruence]).
Qed.

Lemma handler_spec (client : bool) (api : option parallel_api_object)
    (new_api : result parallel_api_object) (s : session) (skill_gap : SkillGap)
    (filters : ResourceFilters) (ran : list tier) :
  let h := Curator.handler float_of_str validate_rating client api new_api s
             skill_gap filters ran in
  exists t, Curator.tiers_run h = ran ++ t /\
    fallback_suffix api skill_gap filters (is_Ok (Curator.returned h)) t.
Proof.
  unfold Curator.handler.
  destruct (if client then call (disconnect_in_handler s) else Ok tt) as [_|e].
  2:{ exists []. simpl. rewrite app_nil_r. split; [reflexivity|].
      unfold CuratorSpec.fallback_suffix. destruct api; simpl; [split|]; intuition discriminate. }
  destruct (search_fallback_spec api skill_gap filters) as (res & ran2 & -> & Hs).
  destruct res as [r|].
  - exists ran2. simpl. split; [reflexivity|].
    unfold CuratorSpec.fallback_suffix. destruct api as [a|].
    + destruct Hs as [-> _]. simpl. split; [now left | intros [|[]]; discriminate].
    + destruct Hs as [? _]. discriminate.
  - destruct (static_fallback_spec api new_api skill_gap filters (ran ++ ran2))
      as [[Ht|[Ht Hr]] _].
    + exists (ran2 ++ [StaticTier]). rewrite Ht, app_assoc. split; [reflexivity|].
      unfold CuratorSpec.fallback_suffix. destruct api as [a|].
      * destruct Hs as [-> Hn]. simpl. split; [now left | intros _; now apply Hn].
      * destruct Hs as [_ ->]. simpl. intros [|[]]; discriminate.
    + exists ran2. rewrite Ht. split; [reflexivity|].
      unfold CuratorSpec.fallback_suffix. destruct api as [a|].
      * destruct Hs as [-> Hn]. simpl. split; [now left | intros [|[]]; discriminate].
      * destruct Hs as [_ ->]. simpl. tauto.
Qed.

(** The tiers of a per-skill task from the end of tier 1 on, for every
    outcome of tier 1. *)
Lemma after_tier1_tiers (api : option parallel_api_object)
    (new_api : result parallel_api_object) (s : session) (skill_gap : SkillGap)
    (filters : ResourceFilters) (outcome : result (option (list json)))
    (client : bool) :
  let o := Curator.after_tier1 float_of_str validate_rating outcome client
             api new_api s skill_gap filters in
  (exists rest, Curator.tiers_run o = AutonomousTier :: rest) /\
  (In SearchApiTier (Curator.tiers_run o) \/ In StaticTier (Curator.tiers_run o) ->
     tier1_gave_nothing outcome skill_gap filters) /\
  (builds_ParallelTaskAPI new_api -> In SearchApiTier (Curator.tiers_run o) ->
     exists a, api = Some a) /\
  (In StaticTier (Curator.tiers_run o) ->
     api = None \/ exists a, api = Some a /\ search_gave_nothing a skill_gap filters) /\
  (forall a, api = Some a -> tier1_gave_no_array outcome ->
     forall r, Curator.returned o = Ok r -> In SearchApiTier (Curator.tiers_run o)) /\
  (api = None -> builds_ParallelTaskAPI new_api -> tier1_gave_no_array outcome ->
     forall r, Curator.returned o = Ok r ->
       In StaticTier (Curator.tiers_run o) /\ static_answer skill_gap filters r).
Proof.
  intros o. subst o.
  unfold Curator.after_tier1, Curator.handler, Curator.search_fallback,
    Curator.static_fallback, CuratorSpec.tier1_gave_nothing,
    CuratorSpec.tier1_gave_no_array, CuratorSpec.search_gave_nothing,
    CuratorSpec.static_answer, CuratorSpec.builds_ParallelTaskAPI.
  assert (Hnil : Curator._convert_to_resources float_of_str validate_rating []
                   skill_gap filters = []) by reflexivity.
  remember (Curator._convert_to_resources float_of_str validate_rating) as convert
    eqn:Hconvert.
  destruct outcome as [[[|x l]|]|e0]; simpl.
  all: destruct (if client then call (disconnect_in_handler s) else Ok tt) as [[]|ed].
  all: destruct api as [a|].
  all: try destruct (search_educational_resources a _ _ _ _) as [items|es] eqn:Es.
  all: try destruct (convert items skill_gap filters) as [|y ys] eqn:Ec.
  all: try destruct (_get_mock_resources a _ _) as [mock|em] eqn:Em.
  all: simpl.
  all: try destruct new_api as [a'|en].
  all: simpl.
  all: try destruct (_get_mock_resources a' _ _) as [mock'|em'] eqn:Em'.
  all: simpl.
  all: rewrite ?Es, ?Ec, ?Em, ?Em'; simpl.
  all: try destruct (search_educational_resources a' _ _ _ _) as [items'|es'] eqn:Es'.
  all: try destruct (convert items' skill_gap filters) as [|y' ys'] eqn:Ec'.
  all: simpl.
  all: rewrite ?Es, ?Ec, ?Em, ?Em'; simpl.
  all: repeat match goal with |- _ /\ _ => split end.
  all: try (eexists; reflexivity).
  all: try (intros _; first [exact I | exact Hnil]).
  all: try (intuition discriminate).
  all: try (intros _ _; now eexists).
  all: try (intros _; now left).
  all: try (intros _; right; exists a; split; [reflexivity|]; rewrite Es, ?Ec; trivial).
  all: try (intros a0 _ _ r _; simpl; tauto).
  all: try (intros Hb _; destruct (Hb a' eq_refl) as (key & found & ->);
            simpl in Em'; discriminate).
  all: try (intros _ Hb _ r Hr; destruct (Hb a' eq_refl) as (key & found & ->);
            simpl in Em';
            first [ discriminate
                  | injection Em' as <-; injection Hr as <-;
                    split; [simpl; tauto | reflexivity] ]).
Qed.


(** In this code tier 1 never ends with an array: the formatting of the
    system prompt raises in every session that gets that far. *)
Lemma tier1_gives_no_array (s : session) :
  tier1_gave_no_array (Curator.tier1 json_loads s).
Proof.
  unfold Curator.tier1, Curator.autonomous_session, Curator.format_system_prompt.
  destruct (ctor s); simpl; [exact I|].
  destruct (connect s); simpl; exact I.
Qed.


End WithCollaborators.

End CuratorTheorems.

(** ** The Judge *)

Module JudgeTheorems.

Import Samples.

Section WithJson.

Variable json_loads : string -> result json.

Lemma validate_resources_empty (relevance_threshold : float) (validate_top_n : Z)
    (sessions : nat -> session) (skill_gap : SkillGap) :
  Judge.validate_resources json_loads relevance_threshold validate_top_n sessions
    skill_gap [] = [].
Proof. reflexivity. Qed.

(** Fail-open: a resource whose validation raised, or gave no judgement,
    is appended once. *)
Lemma inconclusive_validation_keeps (relevance_threshold : float) (s : session)
    (resource : Resource) (validated : list Resource) :
  (exists e, Judge._autonomous_validate json_loads s = Raise e) \/
  Judge._autonomous_validate json_loads s = Ok None ->
  match Judge.validate_body json_loads relevance_threshold s resource validated with
  | (v, Ok _) => v
  | (v, Raise _) => v ++ [resource]
  end = validated ++ [resource].
Proof.
  unfold Judge.validate_body. intros [(e & ->)| ->]; reflexivity.
Qed.

End WithJson.

(** C3, at the failing input.  With the default threshold 0.7 and top-5
    validation, a judgement that scores 0.9 but whose [reasoning] is [null]
    puts the single candidate in the output twice, and one that scores 0.3
    with [reasoning] [null] keeps the candidate although it is below the
    threshold: the logging of [reasoning[:100]] raises inside the [try]
    block and the handler appends the resource. *)
Theorem null_reasoning_defeats_the_filter :
  Judge.validate_resources Reference.json_loads 0.7%float 5
    (fun _ => answering (judgement_text "0.9")) react_gap [react_course]
  = [react_course; react_course] /\
  Judge.validate_resources Reference.json_loads 0.7%float 5
    (fun _ => answering (judgement_text "0.3")) react_gap [react_course]
  = [react_course].
Proof. split; vm_compute; reflexivity. Qed.

End JudgeTheorems.

(** ** The Curator's result map, the cache and the Orchestrator *)

Module OrchestratorTheorems.

Import Orchestrator.

(** The keys written by [compile_results]. *)
Lemma compile_results_dom (task : nat -> SkillGap -> result (list Resource))
    (skill_gaps : list SkillGap) (i : nat) (acc : gmap string (list Resource)) :
  dom (Curator.compile_results i skill_gaps task acc)
  = dom acc ∪ list_to_set (skill_name <$> skill_gaps).
Proof.
  revert i acc. induction skill_gaps as [|g gaps IH]; intros i acc; simpl.
  - set_solver.
  - rewrite IH, dom_insert_L. set_solver.
Qed.

Lemma compile_results_other (task : nat -> SkillGap -> result (list Resource))
    (skill_gaps : list SkillGap) (i : nat) (acc : gmap string (list Resource))
    (name : string) :
  (forall g, g ∈ skill_gaps -> skill_name g <> name) ->
  Curator.compile_results i skill_gaps task acc !! name = acc !! name.
Proof.
  revert i acc. induction skill_gaps as [|g gaps IH]; intros i acc H; simpl.
  - reflexivity.
  - rewrite IH by (intros g' Hg'; apply H; now right).
    apply lookup_insert_ne, H. now left.
Qed.

Lemma compile_results_failed (task : nat -> SkillGap -> result (list Resource))
    (skill_gaps : list SkillGap) (i k : nat) (acc : gmap string (list Resource))
    (skill_gap : SkillGap) (e : exn) :
  skill_gaps !! k = Some skill_gap ->
  task (i + k)%nat skill_gap = Raise e ->
  (forall j g, (k < j)%nat -> skill_gaps !! j = Some g ->
     skill_name g <> skill_name skill_gap) ->
  Curator.compile_results i skill_gaps task acc !! skill_name skill_gap = Some [].
Proof.
  revert i k acc. induction skill_gaps as [|g gaps IH]; intros i k acc Hk Ht Hlast.
  - discriminate.
  - destruct k as [|k]; simpl in *.
    + injection Hk as ->. rewrite Nat.add_0_r in Ht. rewrite Ht.
      rewrite compile_results_other.
      * apply lookup_insert_eq.
      * intros g Hg. apply list_elem_of_lookup in Hg as (j & Hj).
        apply (Hlast (S j) g); [lia | exact Hj].
    + apply (IH (S i) k);
        [assumption | now replace (S i + k)%nat with (i + S k)%nat by lia |].
      intros j g' Hj Hg'. apply (Hlast (S j) g'); [lia | exact Hg'].
Qed.

Section WithCollaborators.

Variable json_loads : string -> result json.
Variable validate_ExistingSkill : json -> result ExistingSkill.
Variable validate_SkillGap : json -> result SkillGap.
Variable validate_MarketInsights : json -> result MarketInsights.
Variable sha256_hexdigest : string -> string.
Variable model_dump_json : AnalysisResult -> string.
Variable model_validate_json : string -> result AnalysisResult.

Abbreviation process_request :=
  (Orchestrator.process_request json_loads validate_ExistingSkill validate_SkillGap
     validate_MarketInsights sha256_hexdigest model_dump_json model_validate_json).
Abbreviation get_analysis :=
  (RedisCache.get_analysis sha256_hexdigest model_validate_json).
Abbreviation cache_analysis :=
  (RedisCache.cache_analysis sha256_hexdigest model_dump_json).

Lemma judge_phase_dom (c : config) (w : environment) (analysis_result : AnalysisResult)
    (m : gmap string (list Resource)) :
  dom (judge_phase json_loads c w analysis_result m) = dom m.
Proof.
  unfold judge_phase. apply dom_imap_L. intros i. rewrite elem_of_dom. split.
  - intros [x Hx]. exists x. split; [assumption | now eexists].
  - intros (x & Hx & _). now exists x.
Qed.

(** The shapes a response can have. *)
Lemma process_request_cases (c : config) (st : state) (w : environment)
    (request : AnalysisRequest) :
  let resp := fst (process_request c st w request) in
  error_message resp = None /\
  job_id resp = uuid4 w /\
  ((status resp = FAILED /\ curated_resources resp = ∅) \/
   (status resp = COMPLETED /\
    exists a f, analysis_result resp = Some a /\ filters request = Some f /\
      dom (curated_resources resp) = list_to_set (skill_name <$> skill_gaps a))).
Proof.
  unfold Orchestrator.process_request.
  destruct (match (if enable_cache c then _ else None) with
            | Some r => (Ok r, st)
            | None => _
            end) as [[a|e] st1]; simpl.
  2:{ repeat split. now left. }
  unfold Curator.curate_resources. destruct (filters request) as [f|]; simpl.
  2:{ repeat split. now left. }
  repeat split. right. split; [reflexivity|]. exists a, f.
  repeat split.
  destruct (enable_judge c); [rewrite judge_phase_dom|];
    rewrite compile_results_dom; set_solver.
Qed.

(** C1, as the code runs.  Whatever happens during a request, the response
    carries no error message.  A request whose [filters] is [None] ends
    [FAILED] (the Curator dereferences it), and a [FAILED] response has the
    empty [curated_resources] it was created with. *)
Theorem failed_job_has_no_error_message (c : config) (st : state) (w : environment)
    (request : AnalysisRequest) :
  let resp := fst (process_request c st w request) in
  error_message resp = None /\
  (filters request = None -> status resp = FAILED) /\
  (status resp = FAILED -> curated_resources resp = ∅).
Proof.
  intros resp. destruct (process_request_cases c st w request) as (He & _ & Hc).
  fold resp in He, Hc. split; [exact He|]. split.
  - intros Hf. destruct Hc as [[Hs _]|(_ & a & f & _ & Hf' & _)]; [exact Hs | congruence].
  - intros Hs. destruct Hc as [[_ Hc]|[Hs' _]]; [exact Hc | congruence].
Qed.

(** C4, as the code has it.  [curate_resources] returns a map whose keys
    are exactly the skill names of the skill gaps: one key per distinct
    name, so [N] keys for [N] gaps with pairwise distinct names.  A task
    that raised leaves the empty list under its skill name (unless a later
    gap of the same name overwrites it).  The Judge phase keeps the key set,
    and the keys of a response are skill names of its analysis result. *)
Theorem curated_keys_are_the_skill_names
    (task : nat -> SkillGap -> result (list Resource)) (gaps : list SkillGap)
    (tech_stack : list string) (filters : ResourceFilters) :
  exists m,
    Curator.curate_resources task gaps tech_stack (Some filters) = Ok m /\
    dom m = list_to_set (skill_name <$> gaps) /\
    (NoDup (skill_name <$> gaps) -> size m = length gaps) /\
    (forall i skill_gap e,
       gaps !! i = Some skill_gap -> task i skill_gap = Raise e ->
       (forall j g, (i < j)%nat -> gaps !! j = Some g ->
          skill_name g <> skill_name skill_gap) ->
       m !! skill_name skill_gap = Some []) /\
    (forall c w a, dom (judge_phase json_loads c w a m) = dom m) /\
    (forall c st w request name,
       name ∈ dom (curated_resources (fst (process_request c st w request))) ->
       exists a, analysis_result (fst (process_request c st w request)) = Some a /\
                 name ∈ skill_name <$> skill_gaps a).
Proof.
  eexists. split; [reflexivity|].
  assert (Hdom : dom (Curator.compile_results 0 gaps task ∅)
                 = list_to_set (skill_name <$> gaps)).
  { rewrite compile_results_dom. set_solver. }
  split; [exact Hdom|]. split; [|split; [|split]].
  - intros Hnd. rewrite <- size_dom, Hdom, size_list_to_set by assumption.
    apply length_fmap.
  - intros i skill_gap e Hi Ht Hlast.
    now apply (compile_results_failed task gaps 0 i ∅ skill_gap e).
  - intros c w a. apply judge_phase_dom.
  - intros c st w request name Hin.
    destruct (process_request_cases c st w request) as (_ & _ & Hc).
    destruct Hc as [[_ He]|(_ & a & f & Ha & _ & Hd)].
    + rewrite He in Hin. set_solver.
    + exists a. split; [exact Ha|]. rewrite Hd in Hin. set_solver.
Qed.

(** A cache hit: the Analyzer is not run and the cached value is used. *)
Lemma cache_hit_skips_analyzer (c : config) (st : state) (w : environment)
    (request : AnalysisRequest) (a : AnalysisResult) :
  enable_cache c = true ->
  get_analysis (redis st) (redis_get w) (resume_text request) (job_description request)
  = Some a ->
  analysis_result (fst (process_request c st w request)) = Some a /\
  analyzer_runs (snd (process_request c st w request)) = analyzer_runs st.
Proof.
  intros Hc Hhit. unfold Orchestrator.process_request. rewrite Hc, Hhit.
  destruct (Curator.curate_resources _ _ _ _); simpl; split; reflexivity.
Qed.

(** What is written is read back. *)
Lemma cache_round_trip (store : gmap string string) (resume job : string)
    (a : AnalysisResult) :
  model_validate_json (model_dump_json a) = Ok a ->
  PyStr.is_empty (model_dump_json a) = false ->
  get_analysis (cache_analysis store None resume job a) None resume job = Some a.
Proof.
  intros Hrt Hne. unfold RedisCache.get_analysis, RedisCache.cache_analysis. simpl.
  now rewrite lookup_insert_eq, Hne, Hrt.
Qed.

(** The state a request with an analysis result leaves behind. *)
Lemma process_request_state (c : config) (st : state) (w : environment)
    (request : AnalysisRequest) (a : AnalysisResult) :
  analysis_result (fst (process_request c st w request)) = Some a ->
  redis (snd (process_request c st w request))
  = (if enable_cache c
     then cache_analysis (redis st) (redis_setex w) (resume_text request)
            (job_description request) a
     else redis st) /\
  (analyzer_runs (snd (process_request c st w request)) <= S (analyzer_runs st))%nat.
Proof.
  unfold Orchestrator.process_request.
  destruct (if enable_cache c then _ else None) as [r|].
  - destruct (Curator.curate_resources _ _ _ _); simpl; intros [= ->];
      (destruct (enable_cache c); simpl; (split; [reflexivity | lia])).
  - unfold Orchestrator._run_analyzer.
    destruct (Analyzer.analyze _ _ _ _ _ _ _) as [[r|e] has]; simpl.
    + destruct (Curator.curate_resources _ _ _ _); simpl; intros [= ->];
        (destruct (enable_cache c); simpl; (split; [reflexivity | lia])).
    + discriminate.
Qed.

(** C8.  With caching enabled, a request whose pair of texts has a cached
    analysis gets that analysis without a run of the Analyzer.  So when a
    pair is submitted twice, Redis answers, and the serialized analysis
    reads back as itself, the second response has the analysis result of
    the first and the Analyzer is run at most once over both requests.
    The cache key is the prefix [skill_analysis:] followed by the digest of
    the resume text, a bar and the job description. *)
Theorem cached_analysis_is_reused (c : config) (st : state) (w1 w2 : environment)
    (request1 request2 : AnalysisRequest) (a : AnalysisResult) :
  enable_cache c = true ->
  resume_text request2 = resume_text request1 ->
  job_description request2 = job_description request1 ->
  redis_setex w1 = None ->
  redis_get w2 = None ->
  analysis_result (fst (process_request c st w1 request1)) = Some a ->
  model_validate_json (model_dump_json a) = Ok a ->
  PyStr.is_empty (model_dump_json a) = false ->
  let run1 := process_request c st w1 request1 in
  let run2 := process_request c (snd run1) w2 request2 in
  RedisCache._generate_cache_key sha256_hexdigest (resume_text request1)
    (job_description request1)
  = "skill_analysis:" +:+
    sha256_hexdigest (resume_text request1 +:+ "|" +:+ job_description request1) /\
  get_analysis (redis (snd run1)) None (resume_text request1) (job_description request1)
  = Some a /\
  analysis_result (fst run2) = Some a /\
  analyzer_runs (snd run2) = analyzer_runs (snd run1) /\
  (analyzer_runs (snd run2) <= S (analyzer_runs st))%nat /\
  (forall st0 w0 a0,
     get_analysis (redis st0) (redis_get w0) (resume_text request1)
       (job_description request1) = Some a0 ->
     analysis_result (fst (process_request c st0 w0 request1)) = Some a0 /\
     analyzer_runs (snd (process_request c st0 w0 request1)) = analyzer_runs st0).
Proof.
  intros Hc Hr Hj Hset Hget Ha Hrt Hne run1 run2.
  destruct (process_request_state c st w1 request1 a Ha) as [Hredis Hruns].
  rewrite Hc, Hset in Hredis.
  assert (Hread : get_analysis (redis (snd run1)) None (resume_text request1)
                    (job_description request1) = Some a).
  { subst run1. rewrite Hredis. now apply cache_round_trip. }
  assert (Hhit : get_analysis (redis (snd run1)) (redis_get w2) (resume_text request2)
                   (job_description request2) = Some a).
  { now rewrite Hget, Hr, Hj. }
  destruct (cache_hit_skips_analyzer c (snd run1) w2 request2 a Hc Hhit) as [H2 Hsame].
  split; [reflexivity|]. split; [exact Hread|]. split; [exact H2|].
  split; [exact Hsame|]. split.
  - subst run2. rewrite Hsame. exact Hruns.
  - intros st0 w0 a0 H0. now apply cache_hit_skips_analyzer.
Qed.

End WithCollaborators.

End OrchestratorTheorems.

(** ** Concrete runs *)

Module Runs.

Import Samples.

(** *** The Extractor *)

Example extract_nested_object :
  Analyzer._extract_json_with_fallback Reference.json_loads
    ("Here is the result: {" +:+ quoted "a" +:+ ": {" +:+ quoted "b" +:+ ": 1}} done }")
  = Ok (JDict [("a", JDict [("b", JInt 1)])]).
Proof. vm_compute. reflexivity. Qed.

Example extract_truncated_object :
  Analyzer._extract_json_with_fallback Reference.json_loads
    ("{" +:+ quoted "a" +:+ ": {" +:+ quoted "b" +:+ ": 1}")
  = Raise (ValueError "No JSON object found in response").
Proof. vm_compute. reflexivity. Qed.

(** With a [json.loads] that gives up on the span with a [RecursionError],
    as the interpreter does on a span nested too deep, the call raises that
    error; with one that reports a [JSONDecodeError], a [ValueError]. *)
Example extract_lets_a_recursion_error_through :
  Analyzer._extract_json_with_fallback (fun _ => Raise RecursionError) "{}"
  = Raise RecursionError /\
  Analyzer._extract_json_with_fallback (fun _ => Raise JSONDecodeError) "{}"
  = Raise (ValueError "Invalid JSON in response").
Proof. split; vm_compute; reflexivity. Qed.

(** C9: the claim fails.  On a message with a second pair of braces after
    the judgement, the Judge hands [json.loads] everything up to the last
    closing brace, while the brace-counting Extractor selects the first
    balanced object. *)
Lemma judge_span_differs_from_balanced_span :
  Judge.json_str "{score: 0.9} on the scale {0..1}"
  = Some "{score: 0.9} on the scale {0..1}" /\
  Analyzer.json_text (strip_fences "{score: 0.9} on the scale {0..1}")
  = Some "{score: 0.9}".
Proof. split; vm_compute; reflexivity. Qed.

(** *** The Analyzer *)



Example mock_for_cloud_title :
  length (skill_gaps (Analyzer._generate_mock_analysis
            {| ai_resume_text := ""; ai_job_description := "";
               ai_target_job_title := "Cloud Data Engineer" |})) = 5%nat.
Proof. vm_compute. reflexivity. Qed.

(** *** The Normalizer *)

(** C5: the claim fails.  An item whose duration is NaN is not greater
    than the maximum, so it is kept; its duration is not [<=] the maximum. *)
Lemma nan_duration_passes_the_duration_test :
  Curator._convert_to_resources Reference.float_of_str Reference.validate_rating
    [nan_item] rust_gap default_filters = [nan_resource] /\
  PyNum.float_le_int (duration_hours nan_resource) (max_duration_hours default_filters)
  = false.
Proof. split; vm_compute; reflexivity. Qed.


Example bare_item_under_free_only :
  Curator._convert_to_resources Reference.float_of_str Reference.validate_rating
    [JDict bare_item] rust_gap default_filters = [bare_resource].
Proof. vm_compute. reflexivity. Qed.

(** An item whose provider is [null] raises in [.strip()] and is skipped;
    so is one whose type is a number. *)
Example item_with_a_null_provider_is_skipped :
  Curator._convert_to_resources Reference.float_of_str Reference.validate_rating
    [JDict (bare_item ++ [("provider", JNull)]);
     JDict (bare_item ++ [("resource_type", JInt 5)])] rust_gap default_filters = [].
Proof. vm_compute. reflexivity. Qed.

Example static_resources_under_default_filters :
  map url (Curator._convert_to_resources Reference.float_of_str Reference.validate_rating
             (ParallelTaskAPI._get_mock_resources "Rust" "beginner") rust_gap
             default_filters)
  = [ "https://www.freecodecamp.org/learn/rust";
      "https://www.youtube.com/results?search_query=rust+tutorial";
      "https://www.coursera.org/learn/rust" ].
Proof. vm_compute. reflexivity. Qed.

(** *** The Curator *)


(** C4: the claim fails.  Two skill gaps with the same skill name give a
    map with one key. *)
Lemma duplicate_skill_names_share_a_key :
  exists m,
    Curator.curate_resources (fun _ _ => Ok [])
      [ rust_gap;
        {| skill_name := "Rust"; required_level := ADVANCED; priority := CRITICAL;
           recommended_starting_level := "intermediate" |} ]
      [] (Some default_filters) = Ok m /\
    size m = 1%nat.
Proof.
  unfold Curator.curate_resources. eexists. split; [reflexivity|].
  cbn [Curator.compile_results skill_name rust_gap].
  rewrite insert_insert_eq.
  rewrite map_size_insert_None by apply lookup_empty.
  now rewrite map_size_empty.
Qed.

(** *** The Judge *)

Example threshold_on_plain_judgements :
  Judge.validate_resources Reference.json_loads 0.7%float 5
    (fun i => answering
       ("{" +:+ quoted "relevance_score" +:+ ": " +:+
        (if Nat.eqb i 0 then "0.9" else "0.3") +:+ ", " +:+ quoted "reasoning" +:+ ": " +:+
        quoted "tested two examples" +:+ "}"))
    react_gap
    [ react_course;
      {| title := "Intro to HTML"; url := "https://example.com/html";
         provider := "Example"; resource_type := TUTORIAL;
         difficulty_level := "beginner"; duration_hours := 5%float; is_free := true;
         rating := None; description := "Learn HTML basics"; tech_stack_match := [] |} ]
  = [react_course].
Proof. vm_compute. reflexivity. Qed.

(** *** The Orchestrator and the cache *)

(** C8: an instance, the same request submitted twice with no agent
    reachable. *)
Lemma cached_analysis_is_reused_witness :
  analysis_result (fst (run fresh (offline "job-1") devops_request))
  = Some (Analyzer._generate_mock_analysis devops_input) /\
  analysis_result (fst (run (snd (run fresh (offline "job-1") devops_request))
                          (offline "job-2") devops_request))
  = Some (Analyzer._generate_mock_analysis devops_input) /\
  Orchestrator.analyzer_runs
    (snd (run (snd (run fresh (offline "job-1") devops_request))
            (offline "job-2") devops_request)) = 1%nat.
Proof.
  assert (H1 : analysis_result (fst (run fresh (offline "job-1") devops_request))
               = Some (Analyzer._generate_mock_analysis devops_input))
    by (vm_compute; reflexivity).
  pose proof (OrchestratorTheorems.cached_analysis_is_reused
                Reference.json_loads Reference.validate_ExistingSkill
                Reference.validate_SkillGap Reference.validate_MarketInsights
                Reference.digest Reference.model_dump_json Reference.model_validate_json
                cached_config fresh (offline "job-1") (offline "job-2")
                devops_request devops_request
                (Analyzer._generate_mock_analysis devops_input)
                eq_refl eq_refl eq_refl eq_refl eq_refl H1
                ltac:(vm_compute; reflexivity) ltac:(vm_compute; reflexivity))
    as (_ & _ & H2 & H3 & _).
  split; [exact H1|]. split; [exact H2|].
  unfold run. rewrite H3. vm_compute. reflexivity.
Defined.

Example request_without_filters_fails :
  let resp := fst (run fresh (offline "job-3")
                     {| resume_text := "3 years Python"; job_description := "Go";
                        target_job_title := "Backend Engineer"; filters := None |}) in
  status resp = FAILED /\ error_message resp = None /\
  analysis_result resp
  = Some (Analyzer._generate_mock_analysis
            {| ai_resume_text := "3 years Python"; ai_job_description := "Go";
               ai_target_job_title := "Backend Engineer" |}).
Proof. vm_compute. repeat split. Qed.

End Runs.

(* ================================================================== *)
(** * More properties *)
(* ================================================================== *)

(** ** Stripping, splitting and joining *)

Module TextFacts.

Import PyStr PyText PyStrFacts.

#[local] Arguments String.append : simpl nomatch.

Lemma blank_lstrip (s : string) : blank (lstrip s) = blank s.
Proof.
  induction s as [|c s IH]; simpl; [reflexivity|].
  destruct (is_space c) eqn:E; simpl; [exact IH | now rewrite E].
Qed.

Lemma is_empty_rstrip (s : string) : is_empty (rstrip s) = blank s.
Proof.
  induction s as [|c s IH]; simpl; [reflexivity|].
  rewrite IH. now destruct (is_space c), (blank s).
Qed.

(** [s.strip()] is empty exactly when [s] is all white space. *)
Lemma is_empty_strip (s : string) : is_empty (strip s) = blank s.
Proof. unfold strip. now rewrite is_empty_rstrip, blank_lstrip. Qed.

Lemma blank_append (a b : string) : blank (a +:+ b) = blank a && blank b.
Proof.
  induction a as [|c a IH]; simpl; [reflexivity|].
  now rewrite IH, andb_assoc.
Qed.

Lemma rstrip_fixed (s : string) (c : ascii) :
  is_space c = false -> rstrip (s +:+ String c "") = s +:+ String c "".
Proof.
  intros Hc. induction s as [|x s IH]; simpl.
  - now rewrite Hc.
  - rewrite IH. destruct s; simpl; now rewrite andb_false_r.
Qed.

(** A text that begins and ends with a character that is not white space
    is its own [strip()]. *)
Lemma strip_fixed (a c : ascii) (s : string) :
  is_space a = false -> is_space c = false ->
  strip (String a (s +:+ String c "")) = String a (s +:+ String c "").
Proof.
  intros Ha Hc. unfold strip. simpl lstrip. rewrite Ha.
  change (String a (s +:+ String c "")) with (String a s +:+ String c "").
  now apply rstrip_fixed.
Qed.

Lemma startswith_append (p s : string) : startswith p (p +:+ s) = true.
Proof.
  unfold startswith. induction p as [|c p IH]; simpl; [now destruct s|].
  destruct (ascii_dec c c); [exact IH | contradiction].
Qed.

Lemma endswith_append (s p : string) : endswith p (s +:+ p) = true.
Proof.
  unfold endswith. rewrite length_append.
  replace (String.length s + String.length p - String.length p)%nat
    with (String.length s) by lia.
  rewrite skipn_append, String.eqb_refl.
  apply andb_true_iff. split; [apply Nat.leb_le; lia | reflexivity].
Qed.

Lemma drop_last_append (s p : string) : drop_last (String.length p) (s +:+ p) = s.
Proof.
  unfold drop_last. rewrite length_append.
  replace (String.length s + String.length p - String.length p)%nat
    with (String.length s) by lia.
  apply firstn_append_exact.
Qed.

Lemma split_nonempty (sep : ascii) (s : string) : split sep s <> [].
Proof.
  induction s as [|c s IH]; simpl; [discriminate|].
  destruct (Ascii.eqb c sep); [discriminate|].
  destruct (split sep s); discriminate.
Qed.

(** The first piece ends at the first separator. *)
Lemma split_first (sep : ascii) (line rest : string) :
  has_char sep line = false ->
  split sep (line +:+ String sep rest) = line :: split sep rest.
Proof.
  induction line as [|c line IH]; simpl; intros H.
  - now rewrite Ascii.eqb_refl.
  - apply orb_false_iff in H as [Hc Hl]. rewrite Hc, (IH Hl). reflexivity.
Qed.

(** Joining the pieces with the separator gives the text back. *)
Lemma join_split (sep : ascii) (s : string) :
  join (String sep "") (split sep s) = s.
Proof.
  induction s as [|c s IH]; simpl; [reflexivity|].
  destruct (Ascii.eqb_spec c sep) as [->|Hne].
  - pose proof (split_nonempty sep s) as Hs.
    destruct (split sep s) as [|p ps]; [contradiction|].
    simpl in *. now rewrite IH.
  - pose proof (split_nonempty sep s) as Hs.
    destruct (split sep s) as [|p ps]; [contradiction|].
    destruct ps as [|q qs]; simpl in *; now rewrite <- IH.
Qed.

Lemma length_firstn_le (n : nat) (s : string) : (String.length (firstn n s) <= n)%nat.
Proof.
  revert s. induction n as [|n IH]; intros [|c s]; simpl; try lia.
  specialize (IH s). lia.
Qed.

End TextFacts.

(** ** The code fences *)

Module FenceTheorems.

Import PyStr PyText PyStrFacts TextFacts.

#[local] Arguments String.append : simpl nomatch.

Lemma fenced_is_stripped (opening body : string) :
  strip ("```" +:+ opening +:+ body +:+ "```") = "```" +:+ opening +:+ body +:+ "```".
Proof.
  replace ("```" +:+ opening +:+ body +:+ "```")
    with (String "`" (("``" +:+ opening +:+ body +:+ "``") +:+ String "`" "")).
  - now apply strip_fixed.
  - simpl. f_equal. f_equal. rewrite !append_assoc. reflexivity.
Qed.

(** X1.  A payload between a [```json] fence (or a bare [```] fence) and a
    closing fence is unwrapped: what the agents go on to search for JSON
    is the payload, stripped of surrounding white space. *)
Theorem fenced_payload_is_unwrapped (body : string) :
  startswith "```" (body +:+ "```") = false ->
  strip_fences ("```json" +:+ body +:+ "```") = strip body /\
  (startswith "json" (body +:+ "```") = false ->
   strip_fences ("```" +:+ body +:+ "```") = strip body).
Proof.
  intros Hbody. split.
  - unfold strip_fences.
    change ("```json" +:+ body +:+ "```") with ("```" +:+ "json" +:+ body +:+ "```").
    rewrite fenced_is_stripped.
    change ("```" +:+ "json" +:+ body +:+ "```") with ("```json" +:+ body +:+ "```").
    rewrite startswith_append.
    change 7%nat with (String.length "```json"). rewrite skipn_append.
    rewrite Hbody, endswith_append.
    change 3%nat with (String.length "```"). now rewrite drop_last_append.
  - intros Hjson. unfold strip_fences.
    change ("```" +:+ body +:+ "```") with ("```" +:+ "" +:+ body +:+ "```").
    rewrite fenced_is_stripped.
    change (startswith "```json" ("```" +:+ "" +:+ body +:+ "```"))
      with (startswith "json" (body +:+ "```")).
    rewrite Hjson.
    change ("```" +:+ "" +:+ body +:+ "```") with ("```" +:+ body +:+ "```").
    rewrite startswith_append.
    change 3%nat with (String.length "```"). rewrite skipn_append.
    rewrite endswith_append.
    change 3%nat with (String.length "```"). now rewrite drop_last_append.
Qed.

End FenceTheorems.

(** ** The Analyzer's two readers *)

Module ParserTheorems.

Import PyStr PyStrFacts ExtractorSpec ExtractorFacts.

Section WithJson.

Variable json_loads : string -> result json.

(** X2.  The strict reader [_parse_response] and the brace-counting
    [_extract_json_with_fallback] return the same data on a response that,
    once the fences are stripped, is one balanced object and nothing else.
    On a response without an opening brace (a JSON array, a number) the
    brace-counting reader fails whatever [json.loads] would make of it.
    The strict reader turns a [JSONDecodeError] of [json.loads] into its
    [ValueError]; a failure of the strict reader that is no [ValueError] is
    the exception [json.loads] itself raised, which [except
    json.JSONDecodeError] does not catch. *)
Theorem strict_reader_agrees_on_a_bare_object (response : string) :
  (balanced_span (strip_fences response) (strip_fences response) ->
   forall data,
     AnalyzerParser._parse_response json_loads response = Ok data <->
     Analyzer._extract_json_with_fallback json_loads response = Ok data) /\
  (has_char "{" (strip_fences response) = false ->
   Analyzer._extract_json_with_fallback json_loads response
   = Raise (ValueError "No JSON object found in response")) /\
  (json_loads (strip_fences response) = Raise JSONDecodeError ->
   AnalyzerParser._parse_response json_loads response
   = Raise (ValueError "Invalid JSON response from LLM")) /\
  (forall e, AnalyzerParser._parse_response json_loads response = Raise e ->
     (exists msg, e = ValueError msg) \/
     (json_loads (strip_fences response) = Raise e /\ e <> JSONDecodeError)).
Proof.
  unfold AnalyzerParser._parse_response, Analyzer._extract_json_with_fallback,
    Analyzer.except_JSONDecodeError.
  split; [|split; [|split]].
  - intros Hb data. rewrite (json_text_complete _ _ Hb).
    destruct (json_loads (strip_fences response)) as [d|[]]; split; congruence.
  - intros Hno. unfold Analyzer.json_text. now rewrite Hno.
  - now intros ->.
  - intros e. destruct (json_loads (strip_fences response)) as [d|e']; [discriminate|].
    destruct e'; intros [= <-];
      first [ left; now eexists | right; split; [reflexivity | discriminate] ].
Qed.

End WithJson.

End ParserTheorems.

(** ** The Analyzer's conversion and its mock *)

Module AnalyzerModelTheorems.

Lemma mapM_Forall2 {A B : Type} (f : A -> result B) (l : list A) (bs : list B) :
  Analyzer.mapM f l = Ok bs -> Forall2 (fun a b => f a = Ok b) l bs.
Proof.
  revert bs. induction l as [|a l IH]; simpl; intros bs.
  - intros [= <-]. constructor.
  - destruct (f a) as [b|] eqn:Ea; simpl; [|discriminate].
    destruct (Analyzer.mapM f l) as [bs'|]; simpl; [|discriminate].
    intros [= <-]. constructor; [exact Ea | now apply IH].
Qed.

Section WithJson.

Variable json_loads : string -> result json.
Variable validate_ExistingSkill : json -> result ExistingSkill.
Variable validate_SkillGap : json -> result SkillGap.
Variable validate_MarketInsights : json -> result MarketInsights.

Abbreviation _convert_to_model :=
  (Analyzer._convert_to_model validate_ExistingSkill validate_SkillGap
     validate_MarketInsights).

(** X3.  When [_convert_to_model] succeeds on a parsed object, every key
    the object lacks has its default (empty lists, the category "Unknown",
    no market insights), and the skill gaps are the validated items of the
    [skill_gaps] array, one for one and in order: no item is dropped. *)
Theorem convert_to_model_defaults_and_items (d : list (string * json))
    (r : AnalysisResult) :
  _convert_to_model (JDict d) = Ok r ->
  (lookup_key "existing_skills" d = None -> existing_skills r = []) /\
  (lookup_key "skill_gaps" d = None -> skill_gaps r = []) /\
  (lookup_key "tech_stack" d = None -> tech_stack r = []) /\
  (lookup_key "job_category" d = None -> job_category r = "Unknown") /\
  (lookup_key "market_insights" d = None -> market_insights r = None) /\
  (forall items, lookup_key "skill_gaps" d = Some (JList items) ->
     Forall2 (fun item gap => validate_SkillGap item = Ok gap) items (skill_gaps r)) /\
  (forall items, lookup_key "existing_skills" d = Some (JList items) ->
     Forall2 (fun item skill => validate_ExistingSkill item = Ok skill) items
       (existing_skills r)).
Proof.
  unfold Analyzer._convert_to_model, dict_get.
  destruct (Analyzer.py_iter _) as [skills|] eqn:Es; simpl; [|discriminate].
  destruct (Analyzer.mapM validate_ExistingSkill skills) as [es|] eqn:Ees;
    simpl; [|discriminate].
  destruct (Analyzer.py_iter match lookup_key "skill_gaps" d with
                             | Some v => v | None => JList [] end)
    as [gaps|] eqn:Eg; simpl; [|discriminate].
  destruct (Analyzer.mapM validate_SkillGap gaps) as [gs|] eqn:Egs;
    simpl; [|discriminate].
  destruct (match lookup_key "market_insights" d with
            | Some mi => _ | None => Ok None end) as [mi|] eqn:Emi;
    simpl; [|discriminate].
  destruct (Analyzer.validate_str_list _) as [ts|] eqn:Ets; simpl; [|discriminate].
  destruct (Analyzer.validate_str _) as [jc|] eqn:Ejc; simpl; [|discriminate].
  intros [= <-]. simpl.
  repeat split.
  - intros E. rewrite E in Es. injection Es as <-. simpl in Ees. congruence.
  - intros E. rewrite E in Eg. injection Eg as <-. simpl in Egs. congruence.
  - intros E. rewrite E in Ets. simpl in Ets. congruence.
  - intros E. rewrite E in Ejc. simpl in Ejc. congruence.
  - intros E. rewrite E in Emi. congruence.
  - intros items E. rewrite E in Eg. injection Eg as <-. now apply mapM_Forall2.
  - intros items E. rewrite E in Es. injection Es as <-. now apply mapM_Forall2.
Qed.

(** X4.  [analyze] never returns an analysis made from the agent's
    messages: the formatting of the system prompt raises in every session
    that gets that far, so the answer is the mock analysis for the target
    title, or the exception of the handler's own [disconnect()]. *)
Theorem analyze_answers_with_the_mock (had_client : bool) (s : session)
    (input_data : AnalyzerInput) :
  let answer := fst (Analyzer.analyze json_loads validate_ExistingSkill validate_SkillGap
                       validate_MarketInsights had_client s input_data) in
  answer = Ok (Analyzer._generate_mock_analysis input_data) \/
  (exists e, disconnect_in_handler s = Some e /\ answer = Raise e /\
             Analyzer.client_set had_client s = true).
Proof.
  intros answer. subst answer. unfold Analyzer.analyze.
  destruct (AnalyzerTheorems.try_block_raises json_loads validate_ExistingSkill
              validate_SkillGap validate_MarketInsights s) as (e & ->).
  destruct (Analyzer.client_set had_client s); [|now left].
  destruct (disconnect_in_handler s) as [e'|]; simpl; [right; now exists e' | now left].
Qed.

End WithJson.

(** X5.  The skill gaps of the mock analysis have pairwise distinct names,
    so [curate_resources] gives it one entry per gap: five, three or two.
    The mock carries the target title as its job category and no market
    insights. *)
Theorem mock_analysis_gets_one_entry_per_gap (input_data : AnalyzerInput)
    (task : nat -> SkillGap -> result (list Resource)) (tech_stack : list string)
    (filters : ResourceFilters) :
  let mock := Analyzer._generate_mock_analysis input_data in
  NoDup (skill_name <$> skill_gaps mock) /\
  job_category mock = ai_target_job_title input_data /\
  market_insights mock = None /\
  exists m,
    Curator.curate_resources task (skill_gaps mock) tech_stack (Some filters) = Ok m /\
    size m = length (skill_gaps mock) /\
    (size m = 5 \/ size m = 3 \/ size m = 2)%nat.
Proof.
  intros mock.
  assert (Hnd : NoDup (skill_name <$> skill_gaps mock)).
  { subst mock. unfold Analyzer._generate_mock_analysis. cbn [skill_gaps].
    destruct (_ || _); [|destruct (PyStr.contains "data" _)];
      apply (bool_decide_unpack _); vm_compute; exact I. }
  assert (Hlen : (length (skill_gaps mock) = 5 \/ length (skill_gaps mock) = 3 \/
                  length (skill_gaps mock) = 2)%nat).
  { subst mock. unfold Analyzer._generate_mock_analysis. cbn [skill_gaps].
    destruct (_ || _); [|destruct (PyStr.contains "data" _)]; simpl; tauto. }
  split; [exact Hnd|]. split; [reflexivity|]. split; [reflexivity|].
  eexists. split; [reflexivity|].
  assert (Hsize : size (Curator.compile_results 0 (skill_gaps mock) task ∅)
                  = length (skill_gaps mock)).
  { rewrite <- size_dom, OrchestratorTheorems.compile_results_dom.
    rewrite dom_empty_L, union_empty_l_L, size_list_to_set by exact Hnd.
    apply length_fmap. }
  split; [exact Hsize|]. now rewrite Hsize.
Qed.

End AnalyzerModelTheorems.

(** ** The search client and what the Curator makes of its items *)

Module SearchTheorems.

Import PyStr PyText PyStrFacts TextFacts SearchClient SearchSpec.

#[local] Arguments String.append : simpl nomatch.

Lemma infer_type_member (title : string) :
  exists t, ResourceType_of_value (_infer_type title) = Ok t /\ t <> BOOK.
Proof.
  unfold _infer_type.
  repeat match goal with
  | |- context [if ?b then _ else _] => destruct b
  end; eexists; (split; [reflexivity | discriminate]).
Qed.

(** The dict of one result. *)
Lemma resource_of_inv (r : search_result) (url : string) (item : json) :
  resource_of r url = Ok item ->
  untitled r = false /\
  exists t ty,
    item = JDict [ ("title", JStr t); ("url", JStr url);
                   ("description", JStr (_extract_description r));
                   ("provider", JStr (_extract_provider url));
                   ("type", JStr ty); ("difficulty", JStr "intermediate");
                   ("is_free", JBool true);
                   ("reasoning", JStr "Search result ranked by relevance");
                   ("confidence", JFloat 0.85) ] /\
    exists m, ResourceType_of_value ty = Ok m /\ m <> BOOK.
Proof.
  unfold resource_of, untitled.
  destruct (result_title r) as [| |s]; simpl; try discriminate;
    intros [= <-]; (split; [reflexivity|]); eexists _, _;
    (split; [reflexivity | apply infer_type_member]).
Qed.

Lemma resources_of_untitled (rs : list search_result) :
  existsb (fun r => usable r && untitled r) rs = true ->
  exists e, resources_of rs = Raise e.
Proof.
  induction rs as [|r rs IH]; simpl; [discriminate|].
  unfold usable at 1, untitled at 1.
  destruct (result_url r) as [url|]; simpl; [|exact IH].
  destruct (is_empty url); simpl; [exact IH|].
  unfold resource_of.
  destruct (result_title r); simpl; try (now eexists).
  all: intros H; destruct (IH H) as (e & ->); now eexists.
Qed.

Lemma resources_of_titled (rs : list search_result) :
  existsb (fun r => usable r && untitled r) rs = false ->
  exists items, resources_of rs = Ok items /\
    Forall2 (fun r item => exists url, result_url r = Some url /\
                                       resource_of r url = Ok item)
      (List.filter usable rs) items.
Proof.
  induction rs as [|r rs IH]; simpl.
  - intros _. exists []. split; [reflexivity | constructor].
  - intros H. apply orb_false_iff in H as [Hr Hrs].
    destruct (IH Hrs) as (items & Hitems & Hall).
    unfold usable at 1. unfold usable at 1 in Hr.
    destruct (result_url r) as [url|] eqn:Eu; simpl in *; [|now exists items].
    destruct (is_empty url); simpl in *; [now exists items|].
    unfold resource_of at 1. unfold untitled in Hr.
    destruct (result_title r) eqn:Et; simpl in *; try discriminate;
      rewrite Hitems; simpl; eexists; (split; [reflexivity|]);
      (constructor; [|exact Hall]); exists url; (split; [exact Eu|]);
      unfold resource_of; now rewrite Et.
Qed.

(** X6.  [_search_resources] is all or nothing.  When the SDK raises, or
    one result with a usable url has a title that is [None], the search
    gives the empty list; otherwise it gives one dict per result with a
    non-empty url, in order, built from that result. *)
Theorem search_results_are_all_or_nothing (search_results : list search_result) :
  (forall e, _search_resources (Raise e) = []) /\
  (existsb (fun r => usable r && untitled r) search_results = true ->
   _search_resources (Ok search_results) = []) /\
  (existsb (fun r => usable r && untitled r) search_results = false ->
   Forall2 (fun r item => exists url, result_url r = Some url /\ url <> "" /\
                                      resource_of r url = Ok item)
     (List.filter usable search_results) (_search_resources (Ok search_results))) /\
  (length (_search_resources (Ok search_results)) <= length search_results)%nat.
Proof.
  split; [reflexivity|].
  destruct (existsb (fun r => usable r && untitled r) search_results) eqn:E.
  - destruct (resources_of_untitled _ E) as (e & He).
    unfold _search_resources. simpl. rewrite He.
    split; [reflexivity|]. split; [discriminate | simpl; lia].
  - destruct (resources_of_titled _ E) as (items & Hitems & Hall).
    unfold _search_resources. simpl. rewrite Hitems.
    split; [discriminate|]. split.
    + intros _. clear Hitems E. revert items Hall.
      induction search_results as [|r rs IH]; simpl; intros items Hall.
      * inversion Hall. constructor.
      * destruct (usable r) eqn:Eu; [|now apply IH].
        inversion Hall as [|? ? ? ? (url & Hurl & Hitem) Hrest]; subst.
        constructor; [|now apply IH].
        exists url. split; [exact Hurl|]. split; [|exact Hitem].
        unfold usable in Eu. rewrite Hurl in Eu. intros ->. discriminate.
    + apply Forall2_length in Hall. rewrite <- Hall.
      apply filter_length_le.
Qed.

End SearchTheorems.

Module DescriptionTheorems.

Import PyStr PyText PyStrFacts TextFacts SearchClient.

#[local] Arguments String.append : simpl nomatch.

Lemma split_no_separator (sep : ascii) (s : string) :
  has_char sep s = false -> split sep s = [s].
Proof.
  induction s as [|c s IH]; simpl; [reflexivity|].
  intros H. apply orb_false_iff in H as [Hc Hs]. now rewrite Hc, (IH Hs).
Qed.

(** X7.  The description taken from a list of excerpts is the first
    excerpt, stripped and cut to 500 characters.  When the text
    "Last updated" occurs anywhere in that excerpt and the excerpt has more
    than one line, its whole first line is removed first, wherever the
    text stands; a one-line excerpt is kept. *)
Theorem description_of_the_first_excerpt (t : title_attribute) (u : option string)
    (first : string) (others : list string) :
  let description :=
    _extract_description
      {| result_title := t; result_url := u;
         result_excerpts := ExcerptList first others |} in
  (String.length description <= 500)%nat /\
  (contains "Last updated" first = false ->
   description = firstn 500 (strip first)) /\
  (contains "Last updated" first = true ->
   forall line rest, first = line +:+ newline +:+ rest -> has_char LF line = false ->
     description = firstn 500 (strip rest)) /\
  (contains "Last updated" first = true -> has_char LF first = false ->
   description = firstn 500 (strip first)).
Proof.
  intros description. subst description. unfold _extract_description.
  cbn [result_excerpts].
  split; [apply length_firstn_le|].
  destruct (contains "Last updated" first) eqn:E.
  - split; [discriminate|]. split.
    + intros _ line rest -> Hline. unfold newline.
      change (line +:+ String LF "" +:+ rest) with (line +:+ String LF rest).
      rewrite split_first by exact Hline.
      pose proof (split_nonempty LF rest) as Hne.
      destruct (split LF rest) as [|p ps] eqn:Es; [contradiction|].
      simpl length. simpl tl. cbv iota beta.
      replace (1 <? S (S (length ps)))%nat with true
        by (symmetry; apply Nat.ltb_lt; lia).
      rewrite <- Es. now rewrite join_split.
    + intros _ Hfirst. now rewrite (split_no_separator _ _ Hfirst).
  - split; [reflexivity|]. split; discriminate.
Qed.

End DescriptionTheorems.

Module ClientItemTheorems.

Import PyStr PyText PyStrFacts TextFacts SearchClient SearchSpec NormalizerSpec.

#[local] Arguments String.append : simpl nomatch.

Lemma compare_ten (z : Z) : PyNum.compare_float_int 10%float z = Some (10 ?= z).
Proof.
  unfold PyNum.compare_float_int.
  replace (Prim2SF 10%float) with (S754_finite false 5629499534213120 (-49))
    by (vm_compute; reflexivity).
  change (0 <=? -49) with false. cbv iota. f_equal.
  change (Z.pos 5629499534213120) with (10 * 562949953421312).
  change (2 ^ (- -49)) with 562949953421312.
  destruct (Z.compare_spec (10 * 562949953421312) (z * 562949953421312)),
    (Z.compare_spec 10 z); try reflexivity; lia.
Qed.

Lemma ten_hours_gt (z : Z) : PyNum.float_gt_int 10%float z = (z <? 10).
Proof.
  unfold PyNum.float_gt_int. rewrite compare_ten.
  destruct (Z.compare_spec 10 z); symmetry;
    first [apply Z.ltb_lt; lia | apply Z.ltb_ge; lia].
Qed.

Lemma coerced_tutorial (t : ResourceType) : coerced_type "tutorial" t -> t = TUTORIAL.
Proof.
  intros [H|[_ H]]; [|exact H].
  destruct t; simpl in H; first [reflexivity | discriminate].
Qed.

Lemma resources_of_In (rs : list search_result) (items : list json) (item : json) :
  resources_of rs = Ok items -> In item items ->
  exists r url, resource_of r url = Ok item.
Proof.
  revert items. induction rs as [|r rs IH]; simpl; intros items.
  - intros [= <-] [].
  - destruct (result_url r) as [url|]; [|apply IH].
    destruct (is_empty url); [apply IH|].
    destruct (resource_of r url) as [x|] eqn:Ex; simpl; [|discriminate].
    destruct (resources_of rs) as [xs|]; simpl; [|discriminate].
    intros [= <-] [<-|Hin]; [now exists r, url | now apply (IH xs)].
Qed.

(** The items of the client, from the search or from the static list,
    have none of the three keys. *)
Lemma client_item_keys (api_key : string) (sdk : result (list search_result))
    (skill level : string) (free_only : bool) (max_results : Z) (item : json) :
  In item (search api_key sdk skill level free_only max_results) \/
  In item (ParallelTaskAPI._get_mock_resources skill level) ->
  exists d, item = JDict d /\
    lookup_key "resource_type" d = None /\
    lookup_key "duration_hours" d = None /\
    lookup_key "difficulty_level" d = None.
Proof.
  assert (Hmock : In item (ParallelTaskAPI._get_mock_resources skill level) ->
                  exists d, item = JDict d /\
                    lookup_key "resource_type" d = None /\
                    lookup_key "duration_hours" d = None /\
                    lookup_key "difficulty_level" d = None).
  { unfold ParallelTaskAPI._get_mock_resources, ParallelTaskAPI.mock_item.
    intros [<-|[<-|[<-|[<-|[]]]]]; eexists; (split; [reflexivity|]);
      repeat split; reflexivity. }
  intros [Hin|Hin]; [|now apply Hmock].
  unfold search, ParallelTaskAPI.search_educational_resources in Hin.
  destruct (is_empty api_key); [now apply Hmock|].
  destruct (_search_resources sdk) as [|x xs] eqn:Es; [now apply Hmock|].
  rewrite <- Es in Hin. unfold _search_resources in Hin.
  destruct sdk as [rs|e]; simpl in Hin; [|contradiction].
  destruct (resources_of rs) as [items|] eqn:Ei; [|contradiction].
  destruct (resources_of_In _ _ _ Ei Hin) as (r & url & Hr).
  destruct (SearchTheorems.resource_of_inv _ _ _ Hr) as (_ & t & ty & -> & _).
  eexists. split; [reflexivity|]. repeat split; reflexivity.
Qed.

Section WithCollaborators.

Variable float_of_str : string -> option float.
Variable validate_rating : json -> result (option float).

Abbreviation _convert_to_resources :=
  (Curator._convert_to_resources float_of_str validate_rating).

Lemma item_without_the_keys (d : list (string * json)) (skill_gap : SkillGap)
    (r : Resource) :
  lookup_key "resource_type" d = None ->
  lookup_key "duration_hours" d = None ->
  lookup_key "difficulty_level" d = None ->
  Curator.build_resource float_of_str validate_rating d skill_gap = Ok (Some r) ->
  plain_tutorial skill_gap r.
Proof.
  intros Ht Hd Hl Hb.
  destruct (NormalizerTheorems.build_resource_inv _ _ _ _ _ Hb)
    as (t & u & s & p & dl & desc & _ & _ & _ & _ & Hs & _ & Hdl & _ &
        _ & _ & Hty & Hdur & _ & Hdiff & _).
  unfold dict_get in Hs, Hdl, Hdur. rewrite Ht in Hs. rewrite Hl in Hdl.
  rewrite Hd in Hdur. simpl in Hdur.
  injection Hs as <-. injection Hdl as <-.
  split; [now apply coerced_tutorial|]. split; [exact Hdur | exact Hdiff].
Qed.

Lemma plain_conversion (items : list json) (skill_gap : SkillGap)
    (filters : ResourceFilters) :
  (forall item, In item items ->
     exists d, item = JDict d /\
       lookup_key "resource_type" d = None /\
       lookup_key "duration_hours" d = None /\
       lookup_key "difficulty_level" d = None) ->
  Forall (fun r => plain_tutorial skill_gap r /\ satisfies_filters filters r)
    (_convert_to_resources items skill_gap filters).
Proof.
  intros Hitems. apply List.Forall_forall. intros r Hr.
  apply NormalizerTheorems.in_convert in Hr as (item & Hin & Hc).
  destruct (NormalizerTheorems.convert_item_inv _ _ _ _ _ _ Hc) as (d & -> & Hb & Hp).
  destruct (Hitems _ Hin) as (d' & [= <-] & Ht & Hd & Hl).
  split; [now apply (item_without_the_keys d) |].
  now apply NormalizerTheorems.passes_filters_sound.
Qed.

(** X8.  The items of the search client carry their type and level under
    the keys [type] and [difficulty], which the Normalizer does not read.
    So every resource the Curator makes of them, from a search or from the
    static list, is a [TUTORIAL] of 10.0 hours at the skill gap's own
    starting level; and when the filters exclude tutorials, or allow less
    than ten hours, the client's items yield no resource at all. *)
Theorem client_items_become_plain_tutorials (api_key : string)
    (sdk : result (list search_result)) (skill level : string) (free_only : bool)
    (max_results : Z) (skill_gap : SkillGap) (filters : ResourceFilters) :
  let from_search :=
    _convert_to_resources (search api_key sdk skill level free_only max_results)
      skill_gap filters in
  let from_static :=
    _convert_to_resources (ParallelTaskAPI._get_mock_resources skill level)
      skill_gap filters in
  Forall (plain_tutorial skill_gap) from_search /\
  Forall (plain_tutorial skill_gap) from_static /\
  (~ In TUTORIAL (resource_types filters) -> from_search = [] /\ from_static = []) /\
  (max_duration_hours filters < 10 -> from_search = [] /\ from_static = []).
Proof.
  intros from_search from_static.
  assert (Hs : Forall (fun r => plain_tutorial skill_gap r /\ satisfies_filters filters r)
                 from_search).
  { apply plain_conversion. intros item Hin.
    apply (client_item_keys api_key sdk skill level free_only max_results). now left. }
  assert (Hm : Forall (fun r => plain_tutorial skill_gap r /\ satisfies_filters filters r)
                 from_static).
  { apply plain_conversion. intros item Hin.
    apply (client_item_keys api_key sdk skill level free_only max_results). now right. }
  assert (Hnone : forall l,
            Forall (fun r => plain_tutorial skill_gap r /\ satisfies_filters filters r) l ->
            (~ In TUTORIAL (resource_types filters) \/ max_duration_hours filters < 10) ->
            l = []).
  { intros [|r l] Hl Hf; [reflexivity|]. exfalso.
    apply List.Forall_inv in Hl as [(Hty & Hdur & _) (_ & Hgt & Hin)].
    destruct Hf as [Hf|Hf].
    - apply Hf. now rewrite <- Hty.
    - rewrite Hdur, ten_hours_gt in Hgt. apply Z.ltb_ge in Hgt. lia. }
  split; [eapply List.Forall_impl; [|exact Hs]; now intros r [H _]|].
  split; [eapply List.Forall_impl; [|exact Hm]; now intros r [H _]|].
  split; intros H; (split; apply Hnone; auto).
Qed.

End WithCollaborators.

End ClientItemTheorems.

Module StaticTierTheorems.

Import PyStr PyText PyStrFacts TextFacts SearchSpec NormalizerSpec.

#[local] Arguments String.append : simpl nomatch.

Section WithCollaborators.

Variable float_of_str : string -> option float.
Variable validate_rating : json -> result (option float).

Abbreviation _convert_to_resources :=
  (Curator._convert_to_resources float_of_str validate_rating).

Lemma mock_item_converts (t u desc p ty level : string) (b : bool)
    (reasoning : string) (confidence : float) (skill_gap : SkillGap)
    (filters : ResourceFilters) (rt : option float) :
  validate_rating JNull = Ok rt -> blank t = false -> blank u = false ->
  Curator.convert_item float_of_str validate_rating
    (ParallelTaskAPI.mock_item t u desc p ty level b reasoning confidence)
    skill_gap filters
  = let r := {| title := strip t; url := strip u;
                provider := Curator.or_unknown (strip p);
                resource_type := TUTORIAL;
                difficulty_level := recommended_starting_level skill_gap;
                duration_hours := 10%float; is_free := b; rating := rt;
                description := strip desc;
                tech_stack_match := [skill_name skill_gap] |} in
    if Curator.passes_filters filters r then Some r else None.
Proof.
  intros Hr Ht Hu.
  unfold Curator.convert_item, ParallelTaskAPI.mock_item, Curator.build_resource,
    dict_get.
  simpl. rewrite !is_empty_strip, Ht, Hu. simpl. rewrite Hr. reflexivity.
Qed.

(** X9.  The static list under the filters.  Whatever the skill, the four
    static items all read as ten-hour tutorials, so the static tier gives
    the three free ones (freeCodeCamp, YouTube, Coursera), preceded by the
    paid Udemy one when [free_only] is off, exactly when the filters allow
    tutorials and at least ten hours; otherwise it gives nothing, although
    two of the items are marked as courses and one as a video. *)
Theorem static_list_under_the_filters (skill level : string) (skill_gap : SkillGap)
    (filters : ResourceFilters) (rt : option float) :
  validate_rating JNull = Ok rt ->
  map provider
    (_convert_to_resources (ParallelTaskAPI._get_mock_resources skill level)
       skill_gap filters)
  = if ResourceType_in TUTORIAL (resource_types filters)
       && (10 <=? max_duration_hours filters)
    then (if free_only filters then [] else ["Udemy"])
         ++ ["freeCodeCamp"; "YouTube"; "Coursera"]
    else [].
Proof.
  intros Hr. unfold ParallelTaskAPI._get_mock_resources.
  cbn [Curator._convert_to_resources].
  rewrite !(mock_item_converts _ _ _ _ _ _ _ _ _ _ _ rt Hr)
    by (rewrite !blank_append; simpl; rewrite ?andb_false_r; reflexivity).
  cbv zeta. unfold Curator.passes_filters.
  cbn [is_free duration_hours resource_type]. rewrite !ClientItemTheorems.ten_hours_gt.
  replace (10 <=? max_duration_hours filters)
    with (negb (max_duration_hours filters <? 10))
    by (destruct (Z.ltb_spec (max_duration_hours filters) 10);
        symmetry; [apply Z.leb_gt | apply Z.leb_le]; lia).
  destruct (free_only filters), (max_duration_hours filters <? 10),
    (ResourceType_in TUTORIAL (resource_types filters)); reflexivity.
Qed.


End WithCollaborators.

End StaticTierTheorems.

(** ** Cache maintenance *)

Module CacheAdminTheorems.

Import PyStr PyStrFacts TextFacts RedisCacheAdmin.

#[local] Arguments String.append : simpl nomatch.

Lemma foldr_delete_lookup (keys : list string) (store : gmap string string)
    (k : string) :
  foldr delete store keys !! k = if decide (k ∈ keys) then None else store !! k.
Proof.
  induction keys as [|x keys IH]; cbn [foldr].
  - now rewrite decide_False by set_solver.
  - destruct (decide (x = k)) as [->|Hne].
    + rewrite lookup_delete_eq. now rewrite decide_True by set_solver.
    + rewrite lookup_delete_ne by exact Hne. rewrite IH.
      destruct (decide (k ∈ keys)).
      * now rewrite decide_True by set_solver.
      * now rewrite decide_False by set_solver.
Qed.

Lemma namespace_keys (store : gmap string string) (k : string) :
  k ∈ List.filter in_namespace (elements (dom store))
  <-> in_namespace k = true /\ is_Some (store !! k).
Proof.
  rewrite list_elem_of_In, filter_In, <- list_elem_of_In, elem_of_elements, elem_of_dom.
  tauto.
Qed.

(** What [clear_all] leaves under a key when both commands succeed. *)
Lemma clear_all_lookup (store : gmap string string) (k : string) :
  clear_all store None None !! k = if in_namespace k then None else store !! k.
Proof.
  unfold clear_all. simpl.
  pose proof (namespace_keys store k) as Hk.
  destruct (List.filter in_namespace (elements (dom store))) as [|x keys] eqn:E.
  - destruct (in_namespace k); [|reflexivity].
    destruct (store !! k) eqn:Es; [|reflexivity].
    exfalso. assert (H : k ∈ @nil string) by (apply Hk; eauto). inversion H.
  - rewrite foldr_delete_lookup.
    destruct (decide (k ∈ x :: keys)) as [Hin|Hout].
    + apply Hk in Hin as [-> _]. reflexivity.
    + destruct (in_namespace k); [|reflexivity].
      destruct (store !! k) eqn:Es; [|reflexivity].
      exfalso. apply Hout, Hk. eauto.
Qed.

Section WithSerialization.

Variable sha256_hexdigest : string -> string.
Variable model_validate_json : string -> result AnalysisResult.

Abbreviation cache_key := (RedisCache._generate_cache_key sha256_hexdigest).
Abbreviation get_analysis :=
  (RedisCache.get_analysis sha256_hexdigest model_validate_json).

Lemma cache_key_in_namespace (resume_text job_description : string) :
  in_namespace (cache_key resume_text job_description) = true.
Proof. apply startswith_append. Qed.

(** X10.  [invalidate] forgets one pair of texts and nothing else: after
    it, [get_analysis] misses for that pair and answers as before for every
    pair with another key; when the [DEL] command fails the database is
    unchanged and nothing is raised. *)
Theorem invalidate_forgets_one_pair (store : gmap string string)
    (client_get : option exn) (resume_text job_description : string) :
  get_analysis (invalidate sha256_hexdigest store None resume_text job_description)
    client_get resume_text job_description = None /\
  (forall resume_text' job_description',
     cache_key resume_text' job_description' <> cache_key resume_text job_description ->
     get_analysis (invalidate sha256_hexdigest store None resume_text job_description)
       client_get resume_text' job_description'
     = get_analysis store client_get resume_text' job_description') /\
  (forall e, invalidate sha256_hexdigest store (Some e) resume_text job_description
             = store).
Proof.
  unfold RedisCache.get_analysis, invalidate. simpl. split; [|split].
  - rewrite lookup_delete_eq. now destruct (call client_get).
  - intros r' j' Hne. rewrite lookup_delete_ne by congruence. reflexivity.
  - reflexivity.
Qed.

(** X11.  [clear_all] empties the cache's namespace and leaves the rest
    of the database alone: after it, [get_analysis] misses for every pair
    of texts, and a key that does not start with [skill_analysis:] keeps
    its value.  When the scan or the [DEL] fails, nothing is deleted. *)
Theorem clear_all_empties_the_namespace (store : gmap string string)
    (client_get : option exn) :
  (forall resume_text job_description,
     get_analysis (clear_all store None None) client_get resume_text job_description
     = None) /\
  (forall k client_scan client_delete,
     in_namespace k = false ->
     clear_all store client_scan client_delete !! k = store !! k) /\
  (forall e client_delete, clear_all store (Some e) client_delete = store) /\
  (forall e, clear_all store None (Some e) = store).
Proof.
  split; [|split; [|split]].
  - intros r j. unfold RedisCache.get_analysis.
    rewrite clear_all_lookup, cache_key_in_namespace.
    now destruct (call client_get).
  - intros k [e|] [e'|] Hk; try reflexivity.
    + unfold clear_all. simpl. now destruct (List.filter _ _).
    + now rewrite clear_all_lookup, Hk.
  - reflexivity.
  - intros e. unfold clear_all. simpl. now destruct (List.filter _ _).
Qed.

(** X12.  The cache key is made of the resume text, a bar and the job
    description, joined before hashing: moving a piece that starts or ends
    at a bar from one text to the other gives the same key, so an analysis
    cached for one pair is served for the other. *)
Theorem cache_key_joins_the_texts (resume piece job : string) :
  cache_key (resume +:+ "|" +:+ piece) job = cache_key resume (piece +:+ "|" +:+ job) /\
  (forall store client_get,
     get_analysis store client_get (resume +:+ "|" +:+ piece) job
     = get_analysis store client_get resume (piece +:+ "|" +:+ job)).
Proof.
  assert (H : cache_key (resume +:+ "|" +:+ piece) job
              = cache_key resume (piece +:+ "|" +:+ job)).
  { unfold RedisCache._generate_cache_key. now rewrite !append_assoc. }
  split; [exact H|].
  intros store client_get. unfold RedisCache.get_analysis. now rewrite H.
Qed.

End WithSerialization.

End CacheAdminTheorems.

(** ** The Judge, on the whole list *)

Module JudgeListTheorems.

Import JudgeSpec.

Section WithJson.

Variable json_loads : string -> result json.

Abbreviation validate_resources := (Judge.validate_resources json_loads).
Abbreviation validate_loop := (Judge.validate_loop json_loads).

(** One turn of the loop appends the resource at most twice. *)
Lemma validate_turn_cases (relevance_threshold : float) (s : session)
    (resource : Resource) (validated : list Resource) :
  exists extra,
    (extra = [] \/ extra = [resource] \/ extra = [resource; resource]) /\
    match Judge.validate_body json_loads relevance_threshold s resource validated with
    | (v, Ok _) => v
    | (v, Raise _) => v ++ [resource]
    end = validated ++ extra.
Proof.
  unfold Judge.validate_body.
  destruct (Judge._autonomous_validate json_loads s) as [j|e];
    [|exists [resource]; auto].
  destruct (Judge.truthy j); [|exists [resource]; auto].
  destruct (bind (Judge.py_get _ "code_tests_passed" _) _) as [[|]|].
  - destruct (bind (Judge.py_get _ "reasoning" _) _).
    + exists [resource]. auto.
    + exists [resource; resource]. rewrite <- app_assoc. auto.
  - destruct (bind (Judge.py_get _ "reasoning" _) _).
    + exists []. rewrite app_nil_r. auto.
    + exists [resource]. auto.
  - exists [resource]. auto.
Qed.

Lemma validate_loop_cases (relevance_threshold : float) (sessions : nat -> session)
    (i : nat) (resources : list Resource) (validated : list Resource) :
  exists extra,
    validate_loop relevance_threshold sessions i resources validated
    = validated ++ extra /\
    (forall r, In r extra -> In r resources) /\
    (length extra <= 2 * length resources)%nat.
Proof.
  revert i validated. induction resources as [|r rs IH]; intros i validated.
  - exists []. simpl. rewrite app_nil_r. repeat split; [tauto | lia].
  - cbn [Judge.validate_loop].
    destruct (validate_turn_cases relevance_threshold (sessions i) r validated)
      as (x & Hx & ->).
    destruct (IH (S i) (validated ++ x)) as (extra & -> & Hin & Hlen).
    exists (x ++ extra). rewrite app_assoc. split; [reflexivity|]. split.
    + intros r' Hr'. apply in_app_or in Hr' as [Hr'|Hr'].
      * left. destruct Hx as [-> | [-> | ->]]; simpl in Hr'; intuition.
      * right. now apply Hin.
    + rewrite length_app. simpl length.
      destruct Hx as [-> | [-> | ->]]; simpl; lia.
Qed.

(** X13.  The Judge never invents a resource: every resource of its
    output is one of its input, the output ends with the input's untested
    tail, and it is at most twice as long as the input (a tested resource
    can be appended once by the loop body and once more by its handler).
    With [validate_top_n = 0] nothing is tested and the input comes back. *)
Theorem judge_never_invents (relevance_threshold : float) (validate_top_n : Z)
    (sessions : nat -> session) (skill_gap : SkillGap) (resources : list Resource) :
  let out := validate_resources relevance_threshold validate_top_n sessions skill_gap
               resources in
  (forall r, In r out -> In r resources) /\
  (exists tested,
     out = tested ++ drop (Judge.slice_position resources validate_top_n) resources) /\
  (length out <= 2 * length resources)%nat /\
  (validate_top_n = 0 -> out = resources).
Proof.
  intros out. subst out. unfold Judge.validate_resources.
  destruct resources as [|r0 rs] eqn:Eres.
  { repeat split; try tauto; [exists []; now rewrite drop_nil | simpl; lia]. }
  rewrite <- Eres. set (k := Judge.slice_position resources validate_top_n).
  destruct (validate_loop_cases relevance_threshold sessions 0 (take k resources) [])
    as (tested & Hloop & Hin & Hlen).
  fold validate_loop. rewrite Hloop. simpl app.
  assert (Htail : (Z.of_nat (length resources) >? validate_top_n) = false ->
                  drop k resources = []).
  { intros H. apply drop_ge. subst k. unfold Judge.slice_position.
    destruct (Z.gtb_spec (Z.of_nat (length resources)) validate_top_n); [discriminate|].
    destruct (Z.ltb_spec validate_top_n 0); lia. }
  assert (Hout : (if Z.of_nat (length resources) >? validate_top_n
                  then tested ++ drop k resources else tested)
                 = tested ++ drop k resources).
  { destruct (Z.of_nat (length resources) >? validate_top_n) eqn:E; [reflexivity|].
    now rewrite (Htail eq_refl), app_nil_r. }
  rewrite Hout. split; [|split; [|split]].
  - intros r Hr. apply in_app_or in Hr as [Hr|Hr].
    + apply Hin in Hr. apply list_elem_of_In in Hr. apply list_elem_of_In.
      exact (subseteq_take k resources r Hr).
    + apply list_elem_of_In in Hr. apply list_elem_of_In.
      exact (subseteq_drop k resources r Hr).
  - now exists tested.
  - rewrite length_app, length_drop. rewrite length_take in Hlen. lia.
  - intros ->. subst k. unfold Judge.slice_position in *. simpl in *.
    subst tested. reflexivity.
Qed.

End WithJson.

End JudgeListTheorems.

Module JudgeVerdictTheorems.

Import JudgeSpec.

Section WithJson.

Variable json_loads : string -> result json.

Abbreviation validate_resources := (Judge.validate_resources json_loads).
Abbreviation validate_loop := (Judge.validate_loop json_loads).
Abbreviation clean_verdict := (JudgeSpec.clean_verdict json_loads).
Abbreviation inconclusive := (JudgeSpec.inconclusive json_loads).

(** The output when the loop's result is [tested]. *)
Lemma validate_resources_shape (relevance_threshold : float) (validate_top_n : Z)
    (sessions : nat -> session) (skill_gap : SkillGap) (resources : list Resource) :
  let k := Judge.slice_position resources validate_top_n in
  validate_resources relevance_threshold validate_top_n sessions skill_gap resources
  = validate_loop relevance_threshold sessions 0 (take k resources) []
    ++ drop k resources.
Proof.
  intros k. subst k. unfold Judge.validate_resources.
  destruct resources as [|r0 rs]; [now rewrite take_nil, drop_nil|].
  set (resources := r0 :: rs).
  destruct (Z.gtb_spec (Z.of_nat (length resources)) validate_top_n); [reflexivity|].
  rewrite (drop_ge resources), app_nil_r; [reflexivity|].
  unfold Judge.slice_position.
  destruct (Z.ltb_spec validate_top_n 0); lia.
Qed.

Lemma loop_inconclusive (relevance_threshold : float) (sessions : nat -> session)
    (i : nat) (resources validated : list Resource) :
  (forall j, inconclusive (sessions j)) ->
  validate_loop relevance_threshold sessions i resources validated
  = validated ++ resources.
Proof.
  intros H. revert i validated.
  induction resources as [|r rs IH]; intros i validated; simpl.
  - now rewrite app_nil_r.
  - rewrite (JudgeTheorems.inconclusive_validation_keeps json_loads
               relevance_threshold (sessions i) r validated (H i)).
    rewrite IH, <- app_assoc. reflexivity.
Qed.

(** X14.  Fail-open on the whole list.  When no validation gives a
    judgement (the sessions raise, or end without one), the Judge returns
    its input unchanged, whatever the threshold and the number of
    resources to test. *)
Theorem judge_returns_the_input_when_inconclusive (relevance_threshold : float)
    (validate_top_n : Z) (sessions : nat -> session) (skill_gap : SkillGap)
    (resources : list Resource) :
  (forall i, inconclusive (sessions i)) ->
  validate_resources relevance_threshold validate_top_n sessions skill_gap resources
  = resources.
Proof.
  intros H. rewrite validate_resources_shape, (loop_inconclusive _ _ _ _ _ H).
  apply take_drop.
Qed.

Lemma clean_turn (relevance_threshold : float) (s : session) (score : float)
    (resource : Resource) (validated : list Resource) :
  clean_verdict s score ->
  match Judge.validate_body json_loads relevance_threshold s resource validated with
  | (v, Ok _) => v
  | (v, Raise _) => v ++ [resource]
  end = if PrimFloat.leb relevance_threshold score
        then validated ++ [resource] else validated.
Proof.
  intros (d & Hv & Hscore & Hreason). unfold Judge.validate_body. rewrite Hv.
  assert (Ht : Judge.truthy (Some (JDict d)) = true).
  { destruct d; [discriminate | reflexivity]. }
  rewrite Ht. unfold Judge.py_get, dict_get. rewrite Hscore. simpl.
  destruct (PrimFloat.leb relevance_threshold score);
    destruct Hreason as [-> | (t & ->)]; reflexivity.
Qed.

Lemma loop_clean (relevance_threshold : float) (sessions : nat -> session)
    (scores : nat -> float) (i : nat) (resources validated : list Resource) :
  (forall j, (j < length resources)%nat ->
     clean_verdict (sessions (i + j)%nat) (scores (i + j)%nat)) ->
  validate_loop relevance_threshold sessions i resources validated
  = validated ++ kept (fun j => PrimFloat.leb relevance_threshold (scores j)) i resources.
Proof.
  revert i validated.
  induction resources as [|r rs IH]; intros i validated H; simpl.
  - now rewrite app_nil_r.
  - rewrite (clean_turn relevance_threshold (sessions i) (scores i)).
    2:{ specialize (H 0%nat). rewrite Nat.add_0_r in H. apply H. simpl. lia. }
    assert (H' : forall j, (j < length rs)%nat ->
                   clean_verdict (sessions (S i + j)%nat) (scores (S i + j)%nat)).
    { intros j Hj. replace (S i + j)%nat with (i + S j)%nat by lia.
      apply H. simpl. lia. }
    destruct (PrimFloat.leb relevance_threshold (scores i)); rewrite (IH _ _ H').
    + now rewrite <- app_assoc.
    + reflexivity.
Qed.

(** X15.  The intended filter, under well-formed judgements.  When the
    validation of every tested resource ends with a judgement object whose
    [relevance_score] is a float and whose [reasoning], if present, is a
    string, the Judge returns the tested resources whose score is at least
    the threshold, in order and once each, followed by the untested
    tail. *)
Theorem judge_filters_on_clean_verdicts (relevance_threshold : float)
    (validate_top_n : Z) (sessions : nat -> session) (scores : nat -> float)
    (skill_gap : SkillGap) (resources : list Resource) :
  (forall i, (i < length resources)%nat -> clean_verdict (sessions i) (scores i)) ->
  let k := Judge.slice_position resources validate_top_n in
  validate_resources relevance_threshold validate_top_n sessions skill_gap resources
  = kept (fun i => PrimFloat.leb relevance_threshold (scores i)) 0 (take k resources)
    ++ drop k resources.
Proof.
  intros H k. rewrite validate_resources_shape. fold k.
  rewrite (loop_clean relevance_threshold sessions scores); [reflexivity|].
  intros j Hj. apply H. rewrite length_take in Hj. simpl. lia.
Qed.

End WithJson.

End JudgeVerdictTheorems.

(** ** The Curator's tasks and its result map *)

Module CuratorTaskTheorems.

Lemma compile_results_entry (task : nat -> SkillGap -> result (list Resource))
    (skill_gaps : list SkillGap) (i k : nat) (acc : gmap string (list Resource))
    (skill_gap : SkillGap) :
  skill_gaps !! k = Some skill_gap ->
  (forall j g, (k < j)%nat -> skill_gaps !! j = Some g ->
     skill_name g <> skill_name skill_gap) ->
  Curator.compile_results i skill_gaps task acc !! skill_name skill_gap
  = Some match task (i + k)%nat skill_gap with
         | Ok r => r
         | Raise _ => []
         end.
Proof.
  revert i k acc. induction skill_gaps as [|g gaps IH]; intros i k acc Hk Hlast.
  - discriminate.
  - destruct k as [|k]; simpl in *.
    + injection Hk as ->. rewrite Nat.add_0_r.
      rewrite OrchestratorTheorems.compile_results_other.
      * apply lookup_insert_eq.
      * intros g Hg. apply list_elem_of_lookup in Hg as (j & Hj).
        apply (Hlast (S j) g); [lia | exact Hj].
    + replace (i + S k)%nat with (S i + k)%nat by lia.
      apply (IH (S i) k); [assumption|].
      intros j g' Hj Hg'. apply (Hlast (S j) g'); [lia | exact Hg'].
Qed.

(** X16.  The entry [curate_resources] leaves under a skill name is what
    the task of the last skill gap of that name returned, or the empty
    list when that task raised; so with pairwise distinct names every gap
    finds the result of its own task. *)
Theorem curated_entry_is_the_task_result
    (task : nat -> SkillGap -> result (list Resource)) (gaps : list SkillGap)
    (tech_stack : list string) (filters : ResourceFilters) :
  exists m,
    Curator.curate_resources task gaps tech_stack (Some filters) = Ok m /\
    (forall i skill_gap,
       gaps !! i = Some skill_gap ->
       (forall j g, (i < j)%nat -> gaps !! j = Some g ->
          skill_name g <> skill_name skill_gap) ->
       m !! skill_name skill_gap
       = Some match task i skill_gap with Ok r => r | Raise _ => [] end) /\
    (NoDup (skill_name <$> gaps) ->
     forall i skill_gap, gaps !! i = Some skill_gap ->
       m !! skill_name skill_gap
       = Some match task i skill_gap with Ok r => r | Raise _ => [] end).
Proof.
  eexists. split; [reflexivity|].
  assert (H : forall i skill_gap,
            gaps !! i = Some skill_gap ->
            (forall j g, (i < j)%nat -> gaps !! j = Some g ->
               skill_name g <> skill_name skill_gap) ->
            Curator.compile_results 0 gaps task ∅ !! skill_name skill_gap
            = Some match task i skill_gap with Ok r => r | Raise _ => [] end).
  { intros i skill_gap Hi Hlast.
    now apply (compile_results_entry task gaps 0 i ∅ skill_gap). }
  split; [exact H|].
  intros Hnd i skill_gap Hi. apply H; [exact Hi|].
  intros j g Hj Hg Heq.
  assert (Hi' : (skill_name <$> gaps) !! i = Some (skill_name skill_gap))
    by (now rewrite list_lookup_fmap, Hi).
  assert (Hj' : (skill_name <$> gaps) !! j = Some (skill_name skill_gap))
    by (rewrite list_lookup_fmap, Hg; simpl; now rewrite Heq).
  pose proof (NoDup_lookup _ _ _ _ Hnd Hi' Hj'). lia.
Qed.

Section WithCollaborators.

Variable json_loads : string -> result json.
Variable float_of_str : string -> option float.
Variable validate_rating : json -> result (option float).

Abbreviation _curate_for_skill :=
  (Curator._curate_for_skill json_loads float_of_str validate_rating).
Abbreviation _convert_to_resources :=
  (Curator._convert_to_resources float_of_str validate_rating).

(** Tier 1 never gets past the formatting of the system prompt. *)
Lemma tier1_raises (s : session) : exists e, Curator.tier1 json_loads s = Raise e.
Proof.
  unfold Curator.tier1, Curator.autonomous_session, Curator.format_system_prompt.
  destruct (ctor s); simpl; [now eexists|].
  destruct (connect s); simpl; now eexists.
Qed.


End WithCollaborators.

End CuratorTaskTheorems.


(** ** The Orchestrator's job table and its analysis *)

Module JobTheorems.

Import Orchestrator JobSpec.

Section WithCollaborators.

Variable json_loads : string -> result json.
Variable validate_ExistingSkill : json -> result ExistingSkill.
Variable validate_SkillGap : json -> result SkillGap.
Variable validate_MarketInsights : json -> result MarketInsights.
Variable sha256_hexdigest : string -> string.
Variable model_dump_json : AnalysisResult -> string.
Variable model_validate_json : string -> result AnalysisResult.

Abbreviation process_request :=
  (Orchestrator.process_request json_loads validate_ExistingSkill validate_SkillGap
     validate_MarketInsights sha256_hexdigest model_dump_json model_validate_json).
Abbreviation get_analysis :=
  (RedisCache.get_analysis sha256_hexdigest model_validate_json).
Abbreviation cache_analysis :=
  (RedisCache.cache_analysis sha256_hexdigest model_dump_json).

(** X18.  When [process_request] returns, the job table holds the
    returned response under its job id, the job is [COMPLETED] or [FAILED]
    (never left [IN_PROGRESS]), it is [COMPLETED] exactly when an analysis
    was obtained and the request has filters, and the entries of the other
    job ids are untouched. *)
Theorem finished_job_is_in_the_table (c : config) (st : state) (w : environment)
    (request : AnalysisRequest) :
  let run := process_request c st w request in
  JobTable.get_status (snd run) (job_id (fst run)) = Some (fst run) /\
  job_id (fst run) = uuid4 w /\
  (status (fst run) = COMPLETED \/ status (fst run) = FAILED) /\
  (status (fst run) = COMPLETED <->
   (exists a, analysis_result (fst run) = Some a) /\ filters request <> None) /\
  (forall id, id <> uuid4 w ->
     JobTable.get_status (snd run) id = JobTable.get_status st id).
Proof.
  unfold Orchestrator.process_request, JobTable.get_status.
  assert (Hleaf : forall st1 s a r,
            jobs st1 = jobs st ->
            (s = COMPLETED <-> (exists a', a = Some a') /\ filters request <> None) ->
            (s = COMPLETED \/ s = FAILED) ->
            let run := finish st1 {| job_id := uuid4 w; status := s;
                                     analysis_result := a; curated_resources := r;
                                     notebooklm_generated := ∅;
                                     error_message := None |} in
            jobs (snd run) !! job_id (fst run) = Some (fst run) /\
            job_id (fst run) = uuid4 w /\
            (status (fst run) = COMPLETED \/ status (fst run) = FAILED) /\
            (status (fst run) = COMPLETED <->
             (exists a', analysis_result (fst run) = Some a') /\
             filters request <> None) /\
            (forall id, id <> uuid4 w -> jobs (snd run) !! id = jobs st !! id)).
  { intros st1 s a r Hj Hs Hd. simpl. rewrite Hj.
    split; [apply lookup_insert_eq|]. split; [reflexivity|].
    split; [exact Hd|]. split; [exact Hs|].
    intros id Hid. now apply lookup_insert_ne. }
  assert (Hrun : forall st1 a,
            jobs st1 = jobs st ->
            let run :=
              match Curator.curate_resources (curator_task w) (skill_gaps a)
                      (tech_stack a) (filters request) with
              | Ok curated_resources =>
                  finish st1
                    {| job_id := uuid4 w; status := COMPLETED;
                       analysis_result := Some a;
                       curated_resources :=
                         if enable_judge c
                         then judge_phase json_loads c w a curated_resources
                         else curated_resources;
                       notebooklm_generated := ∅; error_message := None |}
              | Raise _ =>
                  finish st1
                    {| job_id := uuid4 w; status := FAILED;
                       analysis_result := Some a; curated_resources := ∅;
                       notebooklm_generated := ∅; error_message := None |}
              end in
            jobs (snd run) !! job_id (fst run) = Some (fst run) /\
            job_id (fst run) = uuid4 w /\
            (status (fst run) = COMPLETED \/ status (fst run) = FAILED) /\
            (status (fst run) = COMPLETED <->
             (exists a', analysis_result (fst run) = Some a') /\
             filters request <> None) /\
            (forall id, id <> uuid4 w -> jobs (snd run) !! id = jobs st !! id)).
  { intros st1 a Hj. unfold Curator.curate_resources.
    destruct (filters request) as [f|]; apply Hleaf; try exact Hj; auto.
    - split; [intros _; split; [now eexists | discriminate] | reflexivity].
    - split; [discriminate | intros [_ H]; now contradiction H]. }
  destruct (if enable_cache c then _ else None) as [r|].
  - destruct (enable_cache c); apply Hrun; reflexivity.
  - unfold Orchestrator._run_analyzer.
    destruct (Analyzer.analyze _ _ _ _ _ _ _) as [[r|e] has]; cbn [fst snd].
    + destruct (enable_cache c); apply Hrun; reflexivity.
    + apply Hleaf; [reflexivity| |auto].
      split; [discriminate | intros [(a' & Ha') _]; discriminate].
Qed.

(** X19.  The analysis of a response is the mock analysis for the
    request's target title, or what the cache held for the request's texts:
    no response carries an analysis made from the agent's messages.  With
    the cache off it is always the mock. *)
Theorem response_analysis_is_mock_or_cached (c : config) (st : state)
    (w : environment) (request : AnalysisRequest) (a : AnalysisResult) :
  analysis_result (fst (process_request c st w request)) = Some a ->
  a = Analyzer._generate_mock_analysis (analyzer_input request) \/
  (enable_cache c = true /\
   get_analysis (redis st) (redis_get w) (resume_text request)
     (job_description request) = Some a).
Proof.
  unfold Orchestrator.process_request.
  destruct (if enable_cache c then _ else None) as [r|] eqn:Ec.
  - destruct (Curator.curate_resources _ _ _ _); simpl; intros [= <-]; right;
      (destruct (enable_cache c); [now split | discriminate]).
  - unfold Orchestrator._run_analyzer. fold (analyzer_input request).
    pose proof (AnalyzerModelTheorems.analyze_answers_with_the_mock json_loads
                  validate_ExistingSkill validate_SkillGap validate_MarketInsights
                  (analyzer_has_client st) (analyzer_session w)
                  (analyzer_input request)) as Hm.
    cbv zeta in Hm.
    destruct (Analyzer.analyze _ _ _ _ _ _ _) as [[r|e] has]; cbn [fst snd] in *.
    + destruct Hm as [[= ->]|(e & _ & He & _)]; [|discriminate].
      destruct (Curator.curate_resources _ _ _ _); simpl; intros [= <-]; now left.
    + simpl. discriminate.
Qed.

(** X20.  The analysis is cached before the Curator runs: with the cache
    on and a [SETEX] that succeeds, every request that obtained an analysis
    leaves it in the database under the key of its two texts, also when the
    job then fails in the Curator and also when the analysis had just been
    read from the cache. *)
Theorem analysis_is_cached_whatever_follows (c : config) (st : state)
    (w : environment) (request : AnalysisRequest) (a : AnalysisResult) :
  analysis_result (fst (process_request c st w request)) = Some a ->
  enable_cache c = true ->
  redis_setex w = None ->
  redis (snd (process_request c st w request))
  !! RedisCache._generate_cache_key sha256_hexdigest (resume_text request)
       (job_description request)
  = Some (model_dump_json a).
Proof.
  intros Ha Hc Hs.
  destruct (OrchestratorTheorems.process_request_state json_loads
              validate_ExistingSkill validate_SkillGap validate_MarketInsights
              sha256_hexdigest model_dump_json model_validate_json c st w request a Ha)
    as [-> _].
  rewrite Hc, Hs. unfold RedisCache.cache_analysis. simpl. apply lookup_insert_eq.
Qed.

End WithCollaborators.

End JobTheorems.

(** ** The job-status route *)

Module RouteTheorems.

(** X21.  The job-status route never answers with a job: the Orchestrator
    has a [get_status] method and no [get_job_status], so the lookup of the
    method raises and the route answers 500 for every job id, whether the
    job exists or not -- never 404 and never a [StatusResponse]. *)
Theorem status_route_always_fails (found : option AnalysisResponse) (job_id : string) :
  Routes.getattr "get_status" = Ok tt /\
  exists d,
    Routes.get_job_status found job_id
    = inr {| Routes.status_code := 500; Routes.detail := d |} /\
    PyStr.startswith "Failed to get status: " d = true.
Proof.
  split; [reflexivity|]. eexists. split; reflexivity.
Qed.

End RouteTheorems.

(** ** The Curator's array span *)

Module ArraySpanTheorems.

Import PyStr PyStrFacts TextFacts.

#[local] Arguments String.append : simpl nomatch.

Lemma array_span_located (text pre mid post : string) :
  strip_fences text = pre +:+ "[" +:+ mid +:+ "]" +:+ post ->
  has_char "[" pre = false ->
  has_char "]" post = false ->
  Curator.array_text text = Some ("[" +:+ mid +:+ "]").
Proof.
  intros Ht Hpre Hpost. unfold Curator.array_text. rewrite Ht.
  assert (Hhas : has_char "[" (pre +:+ "[" +:+ mid +:+ "]" +:+ post) = true).
  { rewrite has_char_append. simpl. apply orb_true_r. }
  rewrite Hhas.
  assert (Hfind : find "[" (pre +:+ "[" +:+ mid +:+ "]" +:+ post)
                  = Z.of_nat (String.length pre)).
  { unfold find. simpl String.append. rewrite find_from_first by assumption. lia. }
  assert (Hrfind : rfind "]" (pre +:+ "[" +:+ mid +:+ "]" +:+ post)
                   = Z.of_nat (String.length pre) + 1 + Z.of_nat (String.length mid)).
  { unfold rfind.
    replace (pre +:+ "[" +:+ mid +:+ "]" +:+ post)
      with ((pre +:+ "[" +:+ mid) +:+ String "]" post)
      by (rewrite !append_assoc; reflexivity).
    rewrite rfind_from_append. simpl rfind_from.
    rewrite rfind_from_absent by assumption.
    rewrite !length_append. simpl String.length. lia. }
  rewrite Hfind, Hrfind.
  replace (Z.of_nat (String.length pre) >=? 0) with true
    by (symmetry; apply Z.geb_le; lia).
  rewrite ExtractorFacts.gtb_true by lia. simpl andb. cbv iota. f_equal.
  unfold slice. rewrite Nat2Z.id, skipn_append.
  replace (Z.to_nat _) with (String.length ("[" +:+ mid +:+ "]")).
  - replace ("[" +:+ mid +:+ "]" +:+ post) with (("[" +:+ mid +:+ "]") +:+ post)
      by (rewrite !append_assoc; reflexivity).
    apply firstn_append_exact.
  - rewrite !length_append. simpl String.length. lia.
Qed.

Lemma rfind_before (c : ascii) (s : string) :
  rfind c s < Z.of_nat (String.length s).
Proof.
  unfold rfind. destruct (has_char c s) eqn:E.
  - destruct (rfind_from_present c s 0 (-1) E) as (k & Hk & ->). lia.
  - rewrite rfind_from_absent by assumption. lia.
Qed.

Lemma array_span_missing (text pre post : string) :
  strip_fences text = pre +:+ "[" +:+ post ->
  has_char "[" pre = false ->
  has_char "]" post = false ->
  Curator.array_text text = None.
Proof.
  intros Ht Hpre Hpost. unfold Curator.array_text. rewrite Ht.
  assert (Hhas : has_char "[" (pre +:+ "[" +:+ post) = true).
  { rewrite has_char_append. simpl. apply orb_true_r. }
  rewrite Hhas.
  assert (Hfind : find "[" (pre +:+ "[" +:+ post) = Z.of_nat (String.length pre)).
  { unfold find. simpl String.append. rewrite find_from_first by assumption. lia. }
  assert (Hrfind : rfind "]" (pre +:+ "[" +:+ post) = rfind "]" pre).
  { unfold rfind. rewrite rfind_from_append. simpl String.append.
    simpl rfind_from. now rewrite rfind_from_absent by assumption. }
  rewrite Hfind, Hrfind. pose proof (rfind_before "]" pre).
  rewrite ExtractorFacts.gtb_false by lia. now rewrite andb_false_r.
Qed.

(** X22.  The text the Curator hands to [json.loads] for a block runs
    from the first opening bracket of the fence-stripped text to its last
    closing bracket, whatever stands between them; a text without an
    opening bracket, or with no closing bracket after the first opening
    one, gives no span. *)
Theorem array_span_is_first_to_last (text : string) :
  (forall pre mid post,
     strip_fences text = pre +:+ "[" +:+ mid +:+ "]" +:+ post ->
     has_char "[" pre = false -> has_char "]" post = false ->
     Curator.array_text text = Some ("[" +:+ mid +:+ "]")) /\
  (has_char "[" (strip_fences text) = false -> Curator.array_text text = None) /\
  (forall pre post,
     strip_fences text = pre +:+ "[" +:+ post ->
     has_char "[" pre = false -> has_char "]" post = false ->
     Curator.array_text text = None).
Proof.
  split; [|split].
  - intros pre mid post. apply array_span_located.
  - intros H. unfold Curator.array_text. now rewrite H.
  - intros pre post. apply array_span_missing.
Qed.

End ArraySpanTheorems.

(** ** The performance counters *)

Module MetricsTheorems.

Import Orchestrator Metrics.

Lemma find_gap_found (gaps : list SkillGap) (name : string) :
  name ∈ skill_name <$> gaps -> is_Some (find_gap gaps name).
Proof.
  unfold find_gap. induction gaps as [|g gaps IH]; simpl.
  - intros H. inversion H.
  - destruct (String.eqb_spec (skill_name g) name) as [E|Hne]; [now eexists|].
    intros H. apply IH. apply elem_of_cons in H as [H|H]; [congruence | exact H].
Qed.

Section WithJson.

Variable json_loads : string -> result json.

Lemma total_insert (m : gmap string (list Resource)) (name : string)
    (resources : list Resource) :
  m !! name = None ->
  total_resources (<[name := resources]> m)
  = (total_resources m + length resources)%nat.
Proof.
  intros H. unfold total_resources.
  rewrite map_fold_insert_L; [reflexivity | intros; lia | exact H].
Qed.

Lemma approved_insert (c : config) (w : environment) (a : AnalysisResult)
    (m : gmap string (list Resource)) (name : string) (resources : list Resource) :
  m !! name = None ->
  approved_in_phase json_loads c w a (<[name := resources]> m)
  = (approved_in_phase json_loads c w a m +
     match resources with
     | [] => 0
     | _ =>
         match find_gap (skill_gaps a) name with
         | Some skill_gap =>
             length (Judge.validate_resources json_loads (relevance_threshold c)
                       (validate_top_n c) (judge_session w name) skill_gap resources)
         | None => 0
         end
     end)%nat.
Proof.
  intros H. unfold approved_in_phase.
  rewrite map_fold_insert_L; [reflexivity | intros; lia | exact H].
Qed.

(** The Judge phase counts the same resources twice over. *)
Lemma validated_is_approved (c : config) (w : environment) (a : AnalysisResult)
    (m : gmap string (list Resource)) :
  (forall name, is_Some (m !! name) -> is_Some (find_gap (skill_gaps a) name)) ->
  total_resources (judge_phase json_loads c w a m)
  = approved_in_phase json_loads c w a m.
Proof.
  induction m as [|name resources m Hnone IH] using map_ind; intros Hgaps.
  - reflexivity.
  - unfold judge_phase in *.
    rewrite (map_imap_insert_Some _ _ _ _ (judge_entry json_loads c w a name resources))
      by reflexivity.
    rewrite total_insert by (now rewrite map_lookup_imap, Hnone).
    rewrite approved_insert by exact Hnone.
    rewrite IH.
    2:{ intros n Hn. apply Hgaps. destruct (decide (name = n)) as [->|Hne].
        - rewrite Hnone in Hn. now destruct Hn.
        - now rewrite lookup_insert_ne. }
    f_equal. unfold judge_entry.
    destruct resources as [|r rs]; [reflexivity|].
    destruct (Hgaps name) as (g & ->); [rewrite lookup_insert_eq; now eexists|].
    reflexivity.
Qed.

Lemma counters_step (c : config) (w : environment) (request : AnalysisRequest)
    (obtained : option AnalysisResult) (m : performance_metrics) :
  let m' := count_request json_loads c w request obtained m in
  tests_executed m' = tests_executed m /\
  searches_performed m'
  = (searches_performed m + match obtained with Some _ => 1 | None => 0 end)%nat /\
  (resources_validated m' + resources_approved m
   = resources_approved m' + resources_validated m)%nat.
Proof.
  intros m'. subst m'. unfold count_request.
  destruct obtained as [a|]; [|simpl; lia].
  unfold Curator.curate_resources.
  destruct (filters request) as [f|]; [|simpl; lia].
  destruct (enable_judge c); [|simpl; lia].
  cbn [tests_executed searches_performed resources_validated resources_approved].
  rewrite validated_is_approved; [lia|].
  intros name Hname. apply find_gap_found.
  apply elem_of_dom in Hname.
  rewrite OrchestratorTheorems.compile_results_dom in Hname.
  set_solver.
Qed.

Variable validate_ExistingSkill : json -> result ExistingSkill.
Variable validate_SkillGap : json -> result SkillGap.
Variable validate_MarketInsights : json -> result MarketInsights.
Variable sha256_hexdigest : string -> string.
Variable model_dump_json : AnalysisResult -> string.
Variable model_validate_json : string -> result AnalysisResult.

Abbreviation process_request :=
  (Orchestrator.process_request json_loads validate_ExistingSkill validate_SkillGap
     validate_MarketInsights sha256_hexdigest model_dump_json model_validate_json).

(** X23.  The performance counters over one request.  [tests_executed]
    never moves; a search is counted whenever the request obtained an
    analysis, so also on a cache hit, when the Analyzer did not run; and
    the Judge phase adds the same amount to [resources_validated] and to
    [resources_approved], so the two counters of an Orchestrator always
    agree. *)
Theorem counters_over_a_request (c : config) (st : state) (w : environment)
    (request : AnalysisRequest) (m : performance_metrics) :
  let run := process_request c st w request in
  let m' := count_request json_loads c w request (analysis_result (fst run)) m in
  tests_executed m' = tests_executed m /\
  searches_performed m'
  = (searches_performed m +
     match analysis_result (fst run) with Some _ => 1 | None => 0 end)%nat /\
  (forall a,
     enable_cache c = true ->
     RedisCache.get_analysis sha256_hexdigest model_validate_json (redis st)
       (redis_get w) (resume_text request) (job_description request) = Some a ->
     searches_performed m' = S (searches_performed m) /\
     analyzer_runs (snd run) = analyzer_runs st) /\
  (resources_validated m' + resources_approved m
   = resources_approved m' + resources_validated m)%nat /\
  (resources_validated m = resources_approved m ->
   resources_validated m' = resources_approved m').
Proof.
  intros run m'.
  destruct (counters_step c w request (analysis_result (fst run)) m) as (H1 & H2 & H3).
  fold m' in H1, H2, H3.
  split; [exact H1|]. split; [exact H2|]. split; [|split; [exact H3 | lia]].
  intros a Hc Hhit.
  destruct (OrchestratorTheorems.cache_hit_skips_analyzer json_loads
              validate_ExistingSkill validate_SkillGap validate_MarketInsights
              sha256_hexdigest model_dump_json model_validate_json
              c st w request a Hc Hhit) as [Ha Hruns].
  fold run in Ha, Hruns. split; [|exact Hruns].
  rewrite H2, Ha. lia.
Qed.

End WithJson.

End MetricsTheorems.

(** ** The flattening of a nested configuration *)

Module ConfigTheorems.

Import Config ConfigSpec.

(** Induction over the items of a dict and, for each value that is a
    dict, over its own items. *)
Lemma dict_items_ind (P : list (string * json) -> Prop) :
  P [] ->
  (forall k v d, (forall d', v = JDict d' -> P d') -> P d -> P ((k, v) :: d)) ->
  forall d, P d.
Proof.
  intros H0 Hc.
  assert (Hv : forall v d', v = JDict d' -> P d').
  { fix F 1. intros v. destruct v as [| | | | | |d]; try discriminate.
    intros d' [= <-].
    induction d as [|[k x] r IH]; [exact H0|].
    apply Hc; [apply (F x) | exact IH]. }
  intros d. exact (Hv (JDict d) d eq_refl).
Qed.

Lemma flatten_value_dict (d : list (string * json)) (key sep : string) :
  flatten_value (JDict d) key sep = flatten_items d key sep.
Proof.
  induction d as [|[k v] d IH]; [reflexivity|].
  cbn [flatten_items]. rewrite <- IH. reflexivity.
Qed.

Lemma flatten_value_leaf (v : json) (key sep : string) :
  is_dict v = false -> flatten_value v key sep = [(key, v)].
Proof. destruct v; simpl; trivial; discriminate. Qed.

Lemma leaf_at_cons (path : list string) (item : string * json)
    (d : list (string * json)) (v : json) :
  leaf_at path d v -> leaf_at path (item :: d) v.
Proof.
  destruct path as [|k rest]; simpl; [trivial|].
  intros [(Hr & Hin & Hl)|(d' & Hin & Hl)].
  - left. repeat split; [assumption | now right | assumption].
  - right. exists d'. split; [now right | assumption].
Qed.

(** The items of the flattened dict are the leaves, under their joined
    keys. *)
Lemma flatten_items_leaves (sep : string) (d : list (string * json)) :
  forall parent_key key v,
    In (key, v) (flatten_items d parent_key sep) <->
    exists path, leaf_at path d v /\ key = key_of parent_key sep path.
Proof.
  induction d as [|k0 v0 d IHv IHd] using dict_items_ind; intros parent_key key v.
  - simpl. split; [contradiction|].
    intros ([|k rest] & H & _); simpl in H; [contradiction|].
    destruct H as [(_ & [] & _)|(d' & [] & _)].
  - cbn [flatten_items]. rewrite in_app_iff, IHd. split.
    + intros [Hhead|(path & Hleaf & ->)].
      * destruct (is_dict v0) eqn:Ed.
        -- destruct v0 as [| | | | | |d0]; try discriminate.
           rewrite flatten_value_dict in Hhead.
           apply (IHv d0 eq_refl) in Hhead as (path & Hleaf & ->).
           exists (k0 :: path). split; [|reflexivity].
           right. exists d0. split; [now left | assumption].
        -- rewrite flatten_value_leaf in Hhead by assumption.
           destruct Hhead as [[= <- <-]|[]].
           exists [k0]. split; [|reflexivity].
           left. repeat split; [now left | assumption].
      * exists path. split; [now apply leaf_at_cons | reflexivity].
    + intros ([|k rest] & Hleaf & ->); [contradiction|].
      destruct Hleaf as [(-> & [[= -> ->]|Hin] & Hl)|(d' & [[= -> ->]|Hin] & Hl)].
      * left. rewrite flatten_value_leaf by assumption. now left.
      * right. exists [k]. split; [|reflexivity]. left. now repeat split.
      * left. rewrite flatten_value_dict. apply (IHv d' eq_refl).
        now exists rest.
      * right. exists (k :: rest). split; [|reflexivity].
        right. now exists d'.
Qed.

Lemma flatten_items_flat (sep : string) (d : list (string * json)) :
  (forall k v, In (k, v) d -> is_dict v = false) ->
  flatten_items d "" sep = d.
Proof.
  induction d as [|[k v] d IH]; intros H; [reflexivity|].
  cbn [flatten_items]. rewrite flatten_value_leaf by (apply (H k); now left).
  rewrite IH by (intros k' v' Hin; apply (H k'); now right).
  reflexivity.
Qed.

(** X24.  [_flatten_dict] maps the joined key of every leaf of the nested
    configuration to a leaf: each entry of the result is a value that is
    not a dict, found by following a path of keys through the nested dicts,
    under those keys joined by the separator after the parent key; every
    such path has an entry (of a later path with the same joined key, when
    two collide); and a dict without nested dicts is returned as it is. *)
Theorem flatten_dict_joins_the_paths (d : list (string * json))
    (parent_key sep : string) :
  (forall key v,
     _flatten_dict d parent_key sep !! key = Some v ->
     exists path, leaf_at path d v /\ key = key_of parent_key sep path) /\
  (forall path v,
     leaf_at path d v ->
     is_Some (_flatten_dict d parent_key sep !! key_of parent_key sep path)) /\
  ((forall k v, In (k, v) d -> is_dict v = false) ->
   _flatten_dict d "" sep = list_to_map (reverse d)).
Proof.
  unfold _flatten_dict. split; [|split].
  - intros key v H. apply elem_of_list_to_map_2 in H.
    rewrite elem_of_reverse, list_elem_of_In in H.
    now apply flatten_items_leaves.
  - intros path v Hleaf.
    assert (Hin : In (key_of parent_key sep path, v) (flatten_items d parent_key sep)).
    { apply flatten_items_leaves. now exists path. }
    destruct (list_to_map (reverse (flatten_items d parent_key sep))
              !! key_of parent_key sep path) as [x|] eqn:E; [now eexists|].
    exfalso. apply not_elem_of_list_to_map in E. apply E.
    apply list_elem_of_fmap. exists (key_of parent_key sep path, v).
    split; [reflexivity|]. rewrite elem_of_reverse, list_elem_of_In. exact Hin.
  - intros Hflat. now rewrite flatten_items_flat.
Qed.

End ConfigTheorems.

(** ** Further concrete runs *)

Module MoreRuns.

Import Samples MoreSamples.

(** *** The fences and the readers *)

(** X1: an instance, an empty object between fences. *)
Lemma fenced_payload_is_unwrapped_witness :
  strip_fences "```json {} ```" = "{}".
Proof.
  exact (proj1 (FenceTheorems.fenced_payload_is_unwrapped " {} " eq_refl)).
Defined.

Example strict_reader_rejects_prose :
  AnalyzerParser._parse_response Reference.json_loads "Result: {}"
  = Raise (ValueError "Invalid JSON response from LLM") /\
  Analyzer._extract_json_with_fallback Reference.json_loads "Result: {}"
  = Ok (JDict []) /\
  AnalyzerParser._parse_response Reference.json_loads "[1, 2]"
  = Ok (JList [JInt 1; JInt 2]) /\
  Analyzer._extract_json_with_fallback Reference.json_loads "[1, 2]"
  = Raise (ValueError "No JSON object found in response").
Proof. repeat split; vm_compute; reflexivity. Qed.

Example array_span_with_references :
  Curator.array_text "see [1]: [{}] and [2]" = Some "[1]: [{}] and [2]" /\
  Curator.array_text "] then [" = None.
Proof. split; vm_compute; reflexivity. Qed.

(** *** The Analyzer's conversion *)

(** X3: an instance, an object with a single skill gap. *)
Lemma convert_to_model_defaults_and_items_witness :
  exists r,
    Analyzer._convert_to_model Reference.validate_ExistingSkill
      Reference.validate_SkillGap Reference.validate_MarketInsights (JDict gap_only)
    = Ok r /\
    existing_skills r = [] /\ tech_stack r = [] /\ job_category r = "Unknown" /\
    market_insights r = None /\ skill_gaps r = [rust_gap].
Proof.
  exists {| existing_skills := []; skill_gaps := [rust_gap]; tech_stack := [];
            job_category := "Unknown"; market_insights := None |}.
  assert (H : Analyzer._convert_to_model Reference.validate_ExistingSkill
                Reference.validate_SkillGap Reference.validate_MarketInsights
                (JDict gap_only)
              = Ok {| existing_skills := []; skill_gaps := [rust_gap]; tech_stack := [];
                      job_category := "Unknown"; market_insights := None |})
    by (vm_compute; reflexivity).
  destruct (AnalyzerModelTheorems.convert_to_model_defaults_and_items
              Reference.validate_ExistingSkill Reference.validate_SkillGap
              Reference.validate_MarketInsights gap_only _ H)
    as (H1 & _ & H3 & H4 & H5 & _).
  split; [exact H|]. split; [exact (H1 eq_refl)|]. split; [exact (H3 eq_refl)|].
  split; [exact (H4 eq_refl)|]. split; [exact (H5 eq_refl) | reflexivity].
Defined.

(** *** The search client *)

Example untitled_result_discards_the_search :
  SearchClient._search_resources (Ok [titled_result; untitled_result]) = [] /\
  SearchClient.search "key" (Ok [titled_result; untitled_result]) "Rust" "beginner"
    true 10
  = ParallelTaskAPI._get_mock_resources "Rust" "beginner" /\
  length (SearchClient._search_resources (Ok [titled_result])) = 1%nat.
Proof. repeat split; vm_compute; reflexivity. Qed.

Example description_without_its_first_line :
  SearchClient._extract_description titled_result = "Ownership. Last updated: 2024".
Proof. vm_compute. reflexivity. Qed.

(** X9: an instance, the static list for Rust under the default filters. *)
Lemma static_list_under_the_filters_witness :
  map provider
    (Curator._convert_to_resources Reference.float_of_str Reference.validate_rating
       (ParallelTaskAPI._get_mock_resources "Rust" "beginner") rust_gap default_filters)
  = ["freeCodeCamp"; "YouTube"; "Coursera"].
Proof.
  exact (StaticTierTheorems.static_list_under_the_filters Reference.float_of_str
           Reference.validate_rating "Rust" "beginner" rust_gap default_filters None
           eq_refl).
Defined.

Example courses_only_gets_nothing_from_the_client :
  Curator._convert_to_resources Reference.float_of_str Reference.validate_rating
    (SearchClient.search "key" (Ok [titled_result]) "Rust" "beginner" true 10)
    rust_gap
    {| free_only := true; max_duration_hours := 100; resource_types := [COURSE; VIDEO] |}
  = [].
Proof. vm_compute. reflexivity. Qed.

(** *** The Judge *)

(** X14: an instance, no validator reachable. *)
Lemma judge_returns_the_input_when_inconclusive_witness :
  Judge.validate_resources Reference.json_loads 0.7%float 5 (fun _ => refused)
    react_gap [react_course; html_course]
  = [react_course; html_course].
Proof.
  apply (JudgeVerdictTheorems.judge_returns_the_input_when_inconclusive
           Reference.json_loads 0.7%float 5 (fun _ => refused) react_gap
           [react_course; html_course]).
  intros _. right. reflexivity.
Defined.

(** X15: an instance, scores 0.9 and 0.3 against the threshold 0.7. *)
Lemma judge_filters_on_clean_verdicts_witness :
  Judge.validate_resources Reference.json_loads 0.7%float 5 verdict_sessions
    react_gap [react_course; html_course]
  = [react_course].
Proof.
  assert (H : forall i, (i < length [react_course; html_course])%nat ->
                JudgeSpec.clean_verdict Reference.json_loads (verdict_sessions i)
                  (verdict_scores i)).
  { intros [|[|i]] Hi; [| |simpl in Hi; lia];
      (eexists; split; [vm_compute; reflexivity|];
       split; [reflexivity | right; eexists; reflexivity]). }
  exact (JudgeVerdictTheorems.judge_filters_on_clean_verdicts Reference.json_loads
           0.7%float 5 verdict_sessions verdict_scores react_gap
           [react_course; html_course] H).
Defined.

(** *** The Curator's tasks *)


(** *** The Orchestrator *)

(** X19: an instance, no agent reachable and an empty cache. *)
Lemma response_analysis_is_mock_or_cached_witness :
  Analyzer._generate_mock_analysis devops_input
  = Analyzer._generate_mock_analysis (JobSpec.analyzer_input devops_request) \/
  (Orchestrator.enable_cache cached_config = true /\
   RedisCache.get_analysis Reference.digest Reference.model_validate_json
     (Orchestrator.redis fresh) (Orchestrator.redis_get (offline "job-1"))
     (resume_text devops_request) (job_description devops_request)
   = Some (Analyzer._generate_mock_analysis devops_input)).
Proof.
  apply (JobTheorems.response_analysis_is_mock_or_cached Reference.json_loads
           Reference.validate_ExistingSkill Reference.validate_SkillGap
           Reference.validate_MarketInsights Reference.digest
           Reference.model_dump_json Reference.model_validate_json
           cached_config fresh (offline "job-1") devops_request
           (Analyzer._generate_mock_analysis devops_input)).
  vm_compute. reflexivity.
Defined.

(** X20: an instance, the analysis of the first request in the database. *)
Lemma analysis_is_cached_whatever_follows_witness :
  Orchestrator.redis (snd (run fresh (offline "job-1") devops_request))
  !! RedisCache._generate_cache_key Reference.digest (resume_text devops_request)
       (job_description devops_request)
  = Some (Reference.model_dump_json (Analyzer._generate_mock_analysis devops_input)).
Proof.
  apply (JobTheorems.analysis_is_cached_whatever_follows Reference.json_loads
           Reference.validate_ExistingSkill Reference.validate_SkillGap
           Reference.validate_MarketInsights Reference.digest
           Reference.model_dump_json Reference.model_validate_json
           cached_config fresh (offline "job-1") devops_request
           (Analyzer._generate_mock_analysis devops_input));
    [vm_compute; reflexivity | reflexivity | reflexivity].
Defined.

Example job_is_found_by_get_status :
  option_map status
    (JobTable.get_status (snd (run fresh (offline "job-1") devops_request)) "job-1")
  = Some COMPLETED /\
  JobTable.get_status (snd (run fresh (offline "job-1") devops_request)) "job-2" = None.
Proof. split; vm_compute; reflexivity. Qed.

(** *** The cache and the configuration *)

Example bar_in_the_texts_shares_the_key :
  RedisCache._generate_cache_key Reference.digest "Python | Go" "Rust"
  = RedisCache._generate_cache_key Reference.digest "Python " " Go|Rust".
Proof. vm_compute. reflexivity. Qed.

Example colliding_configuration_keys :
  Config._flatten_dict nested_config "" "_" !! "redis_host" = Some (JStr "localhost") /\
  Config._flatten_dict nested_config "" "_" !! "redis_port" = Some (JInt 6380) /\
  Config._flatten_dict nested_config "" "_" !! "redis" = None /\
  size (Config._flatten_dict nested_config "" "_") = 3%nat.
Proof. repeat split; vm_compute; reflexivity. Qed.

End MoreRuns.
